(** * Competitor tracker: a shallow embedding of the collection pipeline

    The development follows the Python sources [main.py], [ai_analyzer.py]
    and [integrations.py]: the recent-update filter, the Gemini analyzer
    with its retry loop, response parser and fallbacks, the Slack and
    Notion notifiers, and the orchestration in [CompetitorAgent].

    Conventions.
    - A Python [str] is a [string], one character per code point; the
      development therefore speaks about texts over the first 256 code
      points.  Literals of the source outside that range (the emoji of the
      chat message) are written with their UTF-8 bytes; they are only ever
      compared, never measured.
    - A Python value that travels through a dictionary is a [value]; a
      dictionary is an association list in insertion order with unique
      keys, as Python keeps it.
    - Library calls whose result the program cannot control
      ([json.loads], [datetime.fromisoformat], [datetime.now], the
      generative model, the HTTP session) are variables of a section; a
      reference decoder for JSON and one for ISO dates make the model
      executable at concrete inputs.
    - Effects are threaded through a small monad: a computation maps the
      trace of events so far to a result (a value or a raised exception)
      and the extended trace.  Logging is not recorded. *)

From Stdlib Require Import String Ascii List ZArith Lia Bool Arith DecimalString.
Import ListNotations.

Set Warnings "-register-all,-abstract-large-number".

Local Open Scope string_scope.
Local Open Scope Z_scope.

(* ===================================================================== *)
(** * Python strings *)
(* ===================================================================== *)

Module PyStr.

(** [str.isspace] on a code point below 256: the ASCII controls 9-13
    and 28-31, the space, NEL (133) and the no-break space (160). *)
Definition is_space (c : ascii) : bool :=
  let n := nat_of_ascii c in
  ((9 <=? n) && (n <=? 13))%nat || ((28 <=? n) && (n <=? 32))%nat
  || (n =? 133)%nat || (n =? 160)%nat.

Fixpoint lstrip (s : string) : string :=
  match s with
  | EmptyString => EmptyString
  | String c s' => if is_space c then lstrip s' else s
  end.

Fixpoint rstrip (s : string) : string :=
  match s with
  | EmptyString => EmptyString
  | String c s' =>
      match rstrip s' with
      | EmptyString => if is_space c then EmptyString else String c EmptyString
      | r => String c r
      end
  end.

(** [s.strip()] *)
Definition strip (s : string) : string := rstrip (lstrip s).

(** [s[n:]] *)
Fixpoint drop (n : nat) (s : string) : string :=
  match n, s with
  | O, _ => s
  | S _, EmptyString => EmptyString
  | S n', String _ s' => drop n' s'
  end.

(** [s[:n]] *)
Fixpoint take (n : nat) (s : string) : string :=
  match n, s with
  | O, _ => EmptyString
  | S _, EmptyString => EmptyString
  | S n', String c s' => String c (take n' s')
  end.

(** [s[:-k]] for a positive [k] *)
Definition drop_last (k : nat) (s : string) : string :=
  take (String.length s - k) s.

(** [s.startswith(p)] *)
Fixpoint startswith (p s : string) : bool :=
  match p, s with
  | EmptyString, _ => true
  | String _ _, EmptyString => false
  | String a p', String b s' => Ascii.eqb a b && startswith p' s'
  end.

(** [s.endswith(p)] *)
Definition endswith (p s : string) : bool :=
  (String.length p <=? String.length s)%nat
  && String.eqb (drop (String.length s - String.length p) s) p.

(** [sub in s] *)
Fixpoint contains (sub s : string) : bool :=
  startswith sub s
  || match s with
     | EmptyString => false
     | String _ s' => contains sub s'
     end.

(** [str.lower] on a code point below 256: A-Z and the Latin-1 capitals
    192-222 except the multiplication sign 215 move up by 32. *)
Definition lower_char (c : ascii) : ascii :=
  let n := nat_of_ascii c in
  if ((65 <=? n) && (n <=? 90))%nat
     || ((192 <=? n) && (n <=? 222) && negb (n =? 215))%nat
  then ascii_of_nat (n + 32) else c.

Fixpoint lower (s : string) : string :=
  match s with
  | EmptyString => EmptyString
  | String c s' => String (lower_char c) (lower s')
  end.

(** [s.split(sep)] for a non-empty separator: the pieces between the
    non-overlapping occurrences of [sep], scanned from the left.  [skip]
    counts the characters of a separator still to be passed over and
    [cur] holds the current piece reversed. *)
Fixpoint rev_string (acc s : string) : string :=
  match s with
  | EmptyString => acc
  | String c s' => rev_string (String c acc) s'
  end.

Fixpoint split_go (sep : string) (skip : nat) (cur : string) (s : string)
  : list string :=
  match s with
  | EmptyString => [rev_string EmptyString cur]
  | String c s' =>
      match skip with
      | S k => split_go sep k cur s'
      | O =>
          if startswith sep s
          then rev_string EmptyString cur
               :: split_go sep (String.length sep - 1) EmptyString s'
          else split_go sep O (String c cur) s'
      end
  end.

Definition split (sep s : string) : list string :=
  split_go sep O EmptyString s.

(** [s.replace(old, new)] for a non-empty [old]. *)
Fixpoint replace_go (old new : string) (skip : nat) (s : string) : string :=
  match s with
  | EmptyString => EmptyString
  | String c s' =>
      match skip with
      | S k => replace_go old new k s'
      | O =>
          if startswith old s
          then new ++ replace_go old new (String.length old - 1) s'
          else String c (replace_go old new O s')
      end
  end.

Definition replace (old new s : string) : string :=
  replace_go old new O s.

(** [str(n)] for an integer. *)
Definition of_Z (z : Z) : string := NilZero.string_of_int (Z.to_int z).

Definition of_nat (n : nat) : string := of_Z (Z.of_nat n).

(** ["sep".join(l)] *)
Fixpoint join (sep : string) (l : list string) : string :=
  match l with
  | [] => EmptyString
  | [x] => x
  | x :: rest => x ++ sep ++ join sep rest
  end.

Definition nl : string := String (ascii_of_nat 10) EmptyString.

End PyStr.

(* ===================================================================== *)
(** * Python values and dictionaries *)
(* ===================================================================== *)

(** The values that JSON decoding and the collectors put into
    dictionaries.  A float keeps its literal: the program never computes
    with one; it tests one for truth ([PyFloat.is_zero]) and prints
    one. *)
Inductive value : Type :=
| VNone
| VBool (b : bool)
| VInt (z : Z)
| VFloat (literal : string)
| VStr (s : string)
| VList (l : list value)
| VDict (d : list (string * value)).

Definition dict := list (string * value).

(** The exceptions the modelled code can meet.  [JSONDecodeError] is a
    subclass of [ValueError]; every constructor is a subclass of
    [Exception].  [ExternalError] stands for whatever a library call
    outside the program raises (a network failure, a blocked response). *)
Inductive exn : Type :=
| ValueError (msg : string)
| TypeError
| AttributeError
| KeyError (key : string)
| JSONDecodeError
| OverflowError
| ExternalError (what : string).

Definition is_ValueError (e : exn) : bool :=
  match e with
  | ValueError _ | JSONDecodeError => true
  | _ => false
  end.

Definition is_TypeError (e : exn) : bool :=
  match e with
  | TypeError => true
  | _ => false
  end.

Definition is_JSONDecodeError (e : exn) : bool :=
  match e with
  | JSONDecodeError => true
  | _ => false
  end.

Inductive result (A : Type) : Type :=
| Ok (a : A)
| Raise (e : exn).
Arguments Ok {A} a.
Arguments Raise {A} e.

Module Dict.

(** [d.get(k)] as an option *)
Fixpoint lookup (k : string) (d : dict) : option value :=
  match d with
  | [] => None
  | (k', v) :: d' => if String.eqb k k' then Some v else lookup k d'
  end.

(** [k in d] *)
Definition mem (k : string) (d : dict) : bool :=
  match lookup k d with
  | Some _ => true
  | None => false
  end.

(** [d.get(k, default)] *)
Definition get (k : string) (default : value) (d : dict) : value :=
  match lookup k d with
  | Some v => v
  | None => default
  end.

(** [d[k] = v]: an existing key keeps its position, a new one goes last. *)
Fixpoint set (k : string) (v : value) (d : dict) : dict :=
  match d with
  | [] => [(k, v)]
  | (k', v') :: d' =>
      if String.eqb k k' then (k', v) :: d' else (k', v') :: set k v d'
  end.

(** [d.setdefault(k, v)] (the returned value is not used by the program) *)
Definition setdefault (k : string) (v : value) (d : dict) : dict :=
  if mem k d then d else set k v d.

(** [dict(pairs)]: the dictionary built from decoded members. *)
Fixpoint of_pairs (acc : dict) (l : list (string * value)) : dict :=
  match l with
  | [] => acc
  | (k, v) :: l' => of_pairs (set k v acc) l'
  end.

End Dict.

(** Floats.  A float is kept as the literal that [json.loads] read it
    from: [-] digits [. digits] [e sign digits], or [NaN], [Infinity],
    [-Infinity].  [float] rounds the literal to the nearest double, ties
    to even; the only property of the double that the program looks at
    is whether it is zero. *)
Module PyFloat.

Definition is_digit (c : ascii) : bool :=
  ((48 <=? nat_of_ascii c) && (nat_of_ascii c <=? 57))%nat.

Fixpoint has_digit (s : string) : bool :=
  match s with
  | EmptyString => false
  | String c r => (is_digit c || has_digit r)%bool
  end.

(** The number written by the digits of [s]; other characters are
    passed over. *)
Fixpoint digits_val (acc : Z) (s : string) : Z :=
  match s with
  | EmptyString => acc
  | String c r =>
      if is_digit c
      then digits_val (10 * acc + Z.of_nat (nat_of_ascii c - 48)) r
      else digits_val acc r
  end.

(** The literal before and after its [e] or [E]. *)
Fixpoint split_exp (s : string) : string * string :=
  match s with
  | EmptyString => (EmptyString, EmptyString)
  | String c r =>
      if (Ascii.eqb c "e" || Ascii.eqb c "E")%bool then (EmptyString, r)
      else let (m, e) := split_exp r in (String c m, e)
  end.

(** The number of digits after the point. *)
Fixpoint frac_digits (s : string) : nat :=
  match s with
  | EmptyString => 0
  | String "." r => String.length r
  | String _ r => frac_digits r
  end.

Definition exponent (e : string) : Z :=
  match e with
  | String "-" r => - digits_val 0 r
  | _ => digits_val 0 e
  end.

(** [float(literal) == 0.0]: the literal writes [m * 10 ^ k]; it is
    read as zero when [m] is 0, and when it is at most [2 ^ -1075], half
    of the least positive double.  [NaN] and the infinities have no
    digit and are not zero. *)
Definition is_zero (literal : string) : bool :=
  let (mant, e) := split_exp literal in
  let m := digits_val 0 mant in
  let k := (exponent e - Z.of_nat (frac_digits mant))%Z in
  (has_digit mant
   && ((m =? 0)%Z || ((k <? 0)%Z && (m * 2 ^ 1075 <=? 10 ^ (- k))%Z)))%bool.

End PyFloat.

Module Py.

Definition value_is_str (k : string) (v : value) : bool :=
  match v with
  | VStr s => String.eqb s k
  | _ => false
  end.

(** [k in v] for a string [k]: key of a dictionary, element of a list,
    substring of a string; a [TypeError] on anything else. *)
Definition contains (k : string) (v : value) : result bool :=
  match v with
  | VDict d => Ok (Dict.mem k d)
  | VList l => Ok (existsb (value_is_str k) l)
  | VStr s => Ok (PyStr.contains k s)
  | _ => Raise TypeError
  end.

(** [v[k]] for a string [k] *)
Definition getitem (v : value) (k : string) : result value :=
  match v with
  | VDict d =>
      match Dict.lookup k d with
      | Some x => Ok x
      | None => Raise (KeyError k)
      end
  | _ => Raise TypeError
  end.

(** [v[k] = x] for a string [k] *)
Definition setitem (v : value) (k : string) (x : value) : result value :=
  match v with
  | VDict d => Ok (VDict (Dict.set k x d))
  | _ => Raise TypeError
  end.

(** [v.setdefault(k, x)] *)
Definition setdefault (v : value) (k : string) (x : value) : result value :=
  match v with
  | VDict d => Ok (VDict (Dict.setdefault k x d))
  | _ => Raise AttributeError
  end.

(** [v.get(k, default)] *)
Definition get (v : value) (k : string) (default : value) : result value :=
  match v with
  | VDict d => Ok (Dict.get k default d)
  | _ => Raise AttributeError
  end.

(** Truth value of [v] ([if v:], [not v]). *)
Definition truthy (v : value) : bool :=
  match v with
  | VNone => false
  | VBool b => b
  | VInt z => negb (z =? 0)
  | VFloat literal => negb (PyFloat.is_zero literal)
  | VStr s => negb (String.eqb s EmptyString)
  | VList l => match l with [] => false | _ => true end
  | VDict d => match d with [] => false | _ => true end
  end.

(** [len(v)] *)
Definition len (v : value) : result Z :=
  match v with
  | VStr s => Ok (Z.of_nat (String.length s))
  | VList l => Ok (Z.of_nat (List.length l))
  | VDict d => Ok (Z.of_nat (List.length d))
  | _ => Raise TypeError
  end.

End Py.

(* ===================================================================== *)
(** * Effects: traces and exceptions *)
(* ===================================================================== *)

Inductive event : Type :=
| EvSleep (seconds : Z)
| EvGenerate (prompt : string)
| EvSendMessage (message : string)
| EvSlackPost (payload : value)
| EvUpdatePage (content : value)
| EvNotionPost (payload : value).

Definition trace := list event.

(** A computation extends the trace and ends in a value or an exception. *)
Definition M (A : Type) : Type := trace -> result A * trace.

Definition ret {A} (a : A) : M A := fun t => (Ok a, t).

Definition raise {A} (e : exn) : M A := fun t => (Raise e, t).

Definition bind {A B} (m : M A) (k : A -> M B) : M B :=
  fun t =>
    match m t with
    | (Ok a, t') => k a t'
    | (Raise e, t') => (Raise e, t')
    end.

(** [try: m  except Exception as e: h e] *)
Definition try_except {A} (m : M A) (h : exn -> M A) : M A :=
  fun t =>
    match m t with
    | (Ok a, t') => (Ok a, t')
    | (Raise e, t') => h e t'
    end.

Definition emit (e : event) : M unit := fun t => (Ok tt, (t ++ [e])%list).

Definition lift {A} (r : result A) : M A := fun t => (r, t).

Definition run {A} (m : M A) : result A * trace := m [].

Declare Scope py_scope.
Delimit Scope py_scope with py.
Notation "x <- m ;; k" := (bind m (fun x => k))
  (at level 61, m at next level, right associativity) : py_scope.
Notation "m ;;; k" := (bind m (fun _ => k))
  (at level 61, right associativity) : py_scope.
Local Open Scope py_scope.

(* ===================================================================== *)
(** * A reference JSON decoder *)
(* ===================================================================== *)

(** [json.loads] is a library function; the analyzer below takes it as a
    parameter.  This decoder follows the scanner of Python's [json] module
    on RFC 8259 texts (plus [NaN] and the infinities, which Python
    accepts) and serves to run the model on concrete responses.  A
    [\u] escape above code point 255 has no counterpart in [string] and is
    refused. *)
Module Json.

Definition is_ws (c : ascii) : bool :=
  let n := nat_of_ascii c in
  ((n =? 32) || (n =? 9) || (n =? 10) || (n =? 13))%nat.

Fixpoint skip_ws (s : string) : string :=
  match s with
  | String c s' => if is_ws c then skip_ws s' else s
  | EmptyString => s
  end.

Definition is_digit (c : ascii) : bool :=
  let n := nat_of_ascii c in ((48 <=? n) && (n <=? 57))%nat.

Definition digit_val (c : ascii) : Z := Z.of_nat (nat_of_ascii c) - 48.

(** The longest run of digits at the head of [s], with the rest. *)
Fixpoint span_digits (s : string) : string * string :=
  match s with
  | String c s' =>
      if is_digit c
      then let (d, r) := span_digits s' in (String c d, r)
      else (EmptyString, s)
  | EmptyString => (EmptyString, EmptyString)
  end.

Fixpoint digits_val (acc : Z) (s : string) : Z :=
  match s with
  | String c s' => digits_val (10 * acc + digit_val c) s'
  | EmptyString => acc
  end.

Definition hex_val (c : ascii) : option Z :=
  let n := nat_of_ascii c in
  if ((48 <=? n) && (n <=? 57))%nat then Some (Z.of_nat n - 48)
  else if ((97 <=? n) && (n <=? 102))%nat then Some (Z.of_nat n - 87)
  else if ((65 <=? n) && (n <=? 70))%nat then Some (Z.of_nat n - 55)
  else None.

(** The integer part of a number: [0] or a digit run without a leading
    zero; a leading zero ends the integer part at once. *)
Definition int_part (s : string) : option (string * string) :=
  match s with
  | String "0" s' => Some ("0", s')
  | String c _ =>
      if is_digit c then Some (span_digits s) else None
  | EmptyString => None
  end.

Definition frac_part (s : string) : string * string :=
  match s with
  | String "." s' =>
      match span_digits s' with
      | (EmptyString, _) => (EmptyString, s)
      | (d, r) => (String "." d, r)
      end
  | _ => (EmptyString, s)
  end.

Definition exp_part (s : string) : string * string :=
  match s with
  | String e s' =>
      if (Ascii.eqb e "e" || Ascii.eqb e "E")%bool then
        let (sign, s'') :=
          match s' with
          | String "+" r => ("+", r)
          | String "-" r => ("-", r)
          | _ => (EmptyString, s')
          end in
        match span_digits s'' with
        | (EmptyString, _) => (EmptyString, s)
        | (d, r) => (String e (sign ++ d), r)
        end
      else (EmptyString, s)
  | EmptyString => (EmptyString, s)
  end.

Definition number (s : string) : option (value * string) :=
  let (neg, s1) :=
    match s with
    | String "-" r => (true, r)
    | _ => (false, s)
    end in
  match int_part s1 with
  | None => None
  | Some (i, s2) =>
      let (f, s3) := frac_part s2 in
      let (e, s4) := exp_part s3 in
      match f, e with
      | EmptyString, EmptyString =>
          let n := digits_val 0 i in
          Some (VInt (if neg then - n else n), s4)
      | _, _ =>
          Some (VFloat ((if neg then "-" else EmptyString) ++ i ++ f ++ e), s4)
      end
  end.

Definition dquote : ascii := ascii_of_nat 34.

Definition is_dquote (c : ascii) : bool := (nat_of_ascii c =? 34)%nat.

(** The body of a string literal, after its opening quote. *)
Fixpoint string_body (s : string) : option (string * string) :=
  match s with
  | EmptyString => None
  | String "\" EmptyString => None
  | String "\" (String c r) =>
      let plain (x : ascii) :=
        match string_body r with
        | Some (t, r') => Some (String x t, r')
        | None => None
        end in
      let n := nat_of_ascii c in
      if (n =? 34)%nat then plain c
      else if (n =? 92)%nat then plain c
      else if (n =? 47)%nat then plain c
      else if (n =? 98)%nat then plain (ascii_of_nat 8)
      else if (n =? 102)%nat then plain (ascii_of_nat 12)
      else if (n =? 110)%nat then plain (ascii_of_nat 10)
      else if (n =? 114)%nat then plain (ascii_of_nat 13)
      else if (n =? 116)%nat then plain (ascii_of_nat 9)
      else if (n =? 117)%nat then
        match r with
        | String h1 (String h2 (String h3 (String h4 r4))) =>
            match hex_val h1, hex_val h2, hex_val h3, hex_val h4 with
            | Some 0, Some 0, Some a, Some b =>
                match string_body r4 with
                | Some (t, r') =>
                    Some (String (ascii_of_nat (Z.to_nat (16 * a + b))) t, r')
                | None => None
                end
            | _, _, _, _ => None
            end
        | _ => None
        end
      else None
  | String c r =>
      if is_dquote c then Some (EmptyString, r)
      else if (nat_of_ascii c <? 32)%nat then None
      else match string_body r with
           | Some (t, r') => Some (String c t, r')
           | None => None
           end
  end.

(** A value that is neither a string, an object nor an array. *)
Definition scalar (s : string) : option (value * string) :=
  if PyStr.startswith "null" s then Some (VNone, PyStr.drop 4 s)
  else if PyStr.startswith "true" s then Some (VBool true, PyStr.drop 4 s)
  else if PyStr.startswith "false" s then Some (VBool false, PyStr.drop 5 s)
  else if PyStr.startswith "NaN" s then Some (VFloat "NaN", PyStr.drop 3 s)
  else if PyStr.startswith "Infinity" s
  then Some (VFloat "Infinity", PyStr.drop 8 s)
  else if PyStr.startswith "-Infinity" s
  then Some (VFloat "-Infinity", PyStr.drop 9 s)
  else number s.

(** One value at the head of [s] (no leading whitespace), with the rest.
    [members] and [elements] read an object or an array from its first
    member or element on.  The fuel bounds the nesting and the number
    of items. *)
Fixpoint value_at (fuel : nat) (s : string) : option (value * string) :=
  match fuel with
  | O => None
  | S fuel' =>
      match s with
      | String "{" r =>
          match skip_ws r with
          | String "}" r' => Some (VDict [], r')
          | _ =>
              match members fuel' [] (skip_ws r) with
              | Some (ms, r') => Some (VDict (Dict.of_pairs [] ms), r')
              | None => None
              end
          end
      | String "[" r =>
          match skip_ws r with
          | String "]" r' => Some (VList [], r')
          | _ =>
              match elements fuel' [] (skip_ws r) with
              | Some (vs, r') => Some (VList vs, r')
              | None => None
              end
          end
      | String c r =>
          if is_dquote c then
            match string_body r with
            | Some (t, r') => Some (VStr t, r')
            | None => None
            end
          else scalar s
      | EmptyString => None
      end
  end

with members (fuel : nat) (acc : list (string * value)) (s : string)
  : option (list (string * value) * string) :=
  match fuel with
  | O => None
  | S fuel' =>
      match s with
      | String c r =>
          if is_dquote c then
            match string_body r with
            | Some (k, r1) =>
                match skip_ws r1 with
                | String ":" r2 =>
                    match value_at fuel' (skip_ws r2) with
                    | Some (v, r3) =>
                        match skip_ws r3 with
                        | String "}" r4 => Some ((acc ++ [(k, v)])%list, r4)
                        | String "," r4 =>
                            members fuel' (acc ++ [(k, v)])%list (skip_ws r4)
                        | _ => None
                        end
                    | None => None
                    end
                | _ => None
                end
            | None => None
            end
          else None
      | EmptyString => None
      end
  end

with elements (fuel : nat) (acc : list value) (s : string)
  : option (list value * string) :=
  match fuel with
  | O => None
  | S fuel' =>
      match value_at fuel' s with
      | Some (v, r) =>
          match skip_ws r with
          | String "]" r' => Some ((acc ++ [v])%list, r')
          | String "," r' => elements fuel' (acc ++ [v])%list (skip_ws r')
          | _ => None
          end
      | None => None
      end
  end.

(** [json.loads(s)]: [None] stands for [JSONDecodeError]. *)
Definition loads (s : string) : option value :=
  match value_at (2 * String.length s + 2) (skip_ws s) with
  | Some (v, r) =>
      match skip_ws r with
      | EmptyString => Some v
      | _ => None
      end
  | None => None
  end.

End Json.

(* ===================================================================== *)
(** * Dates and times *)
(* ===================================================================== *)

Module DateTime.

(** A [datetime]: the wall-clock reading in microseconds since
    0001-01-01T00:00:00, and the UTC offset in microseconds of an aware
    value ([None] for a naive one). *)
Record datetime : Type := mk {
  wall : Z;
  utcoffset : option Z
}.

Definition us_per_day : Z := 86400 * 1000000.

(** One past [datetime.max] (9999-12-31T23:59:59.999999). *)
Definition max_wall : Z := 3652059 * us_per_day.

Definition is_leap (y : Z) : bool :=
  ((y mod 4 =? 0) && (negb (y mod 100 =? 0) || (y mod 400 =? 0)))%bool.

Definition days_before_year (y : Z) : Z :=
  let p := y - 1 in p * 365 + p / 4 - p / 100 + p / 400.

Definition days_in_month (y m : Z) : Z :=
  if m =? 2 then (if is_leap y then 29 else 28)
  else if (m =? 4) || (m =? 6) || (m =? 9) || (m =? 11) then 30
  else 31.

Fixpoint days_before_month_go (y : Z) (n : nat) : Z :=
  match n with
  | O => 0
  | S n' => days_before_month_go y n' + days_in_month y (Z.of_nat n)
  end.

Definition days_before_month (y m : Z) : Z :=
  days_before_month_go y (Z.to_nat (m - 1)).

(** [datetime(y, mo, d, h, mi, s, us, tzinfo)], with the range checks
    of the constructor. *)
Definition make (y mo d h mi sec us : Z) (tz : option Z) : option datetime :=
  if (1 <=? y) && (y <=? 9999) && (1 <=? mo) && (mo <=? 12)
     && (1 <=? d) && (d <=? days_in_month y mo)
     && (0 <=? h) && (h <? 24) && (0 <=? mi) && (mi <? 60)
     && (0 <=? sec) && (sec <? 60) && (0 <=? us) && (us <? 1000000)
  then
    let ordinal := days_before_year y + days_before_month y mo + d in
    Some (mk ((ordinal - 1) * us_per_day
              + ((h * 60 + mi) * 60 + sec) * 1000000 + us) tz)
  else None.

(** [t - timedelta(days=n)]: the delta itself and the difference both
    overflow outside their ranges. *)
Definition sub_days (t : datetime) (n : Z) : result datetime :=
  if (Z.abs n <=? 999999999) then
    let w := wall t - n * us_per_day in
    if (0 <=? w) && (w <? max_wall) then Ok (mk w (utcoffset t))
    else Raise OverflowError
  else Raise OverflowError.

(** [a > b]: two naive values compare by their readings, two aware ones
    by their instants, and a naive one against an aware one raises. *)
Definition gt (a b : datetime) : result bool :=
  match utcoffset a, utcoffset b with
  | None, None => Ok (wall b <? wall a)
  | Some oa, Some ob => Ok (wall b - ob <? wall a - oa)
  | _, _ => Raise TypeError
  end.

(** ** A reference reader for [datetime.fromisoformat]

    The format every supported Python version reads:
    [YYYY-MM-DD], then optionally one separator character and
    [HH[:MM[:SS[.fff[fff]]]]], then optionally [+HH:MM] or [-HH:MM]. *)

Fixpoint digits (n : nat) (s : string) : option (Z * string) :=
  match n with
  | O => Some (0, s)
  | S n' =>
      match s with
      | String c r =>
          if Json.is_digit c then
            match digits n' r with
            | Some (v, r') =>
                Some (Json.digit_val c * 10 ^ Z.of_nat n' + v, r')
            | None => None
            end
          else None
      | EmptyString => None
      end
  end.

Definition expect (c : ascii) (s : string) : option string :=
  match s with
  | String c' r => if Ascii.eqb c c' then Some r else None
  | EmptyString => None
  end.

(** The offset at the end of the text: nothing (naive) or a signed
    [HH:MM]. *)
Definition offset (s : string) : option (option Z) :=
  match s with
  | EmptyString => Some None
  | String c r =>
      let sign := if Ascii.eqb c "+" then Some 1
                  else if Ascii.eqb c "-" then Some (-1) else None in
      match sign, digits 2 r with
      | Some sg, Some (h, r1) =>
          match expect ":" r1 with
          | Some r2 =>
              match digits 2 r2 with
              | Some (m, EmptyString) =>
                  if (h <? 24) && (m <? 60)
                  then Some (Some (sg * ((h * 60 + m) * 60 * 1000000)))
                  else None
              | _ => None
              end
          | None => None
          end
      | _, _ => None
      end
  end.

(** The fraction of a second: three or six digits. *)
Definition fraction (s : string) : option (Z * string) :=
  match digits 6 s with
  | Some r => Some r
  | None =>
      match digits 3 s with
      | Some (ms, r) => Some (ms * 1000, r)
      | None => None
      end
  end.

(** [(h, mi, sec, us)] and the rest, from the text after the separator. *)
Definition time_of_day (s : string) : option (Z * Z * Z * Z * string) :=
  match digits 2 s with
  | None => None
  | Some (h, r1) =>
      match expect ":" r1 with
      | None => Some (h, 0, 0, 0, r1)
      | Some r2 =>
          match digits 2 r2 with
          | None => None
          | Some (mi, r3) =>
              match expect ":" r3 with
              | None => Some (h, mi, 0, 0, r3)
              | Some r4 =>
                  match digits 2 r4 with
                  | None => None
                  | Some (sec, r5) =>
                      match expect "." r5 with
                      | None => Some (h, mi, sec, 0, r5)
                      | Some r6 =>
                          match fraction r6 with
                          | Some (us, r7) => Some (h, mi, sec, us, r7)
                          | None => None
                          end
                      end
                  end
              end
          end
      end
  end.

(** [None] stands for the [ValueError] of an unreadable text. *)
Definition fromisoformat (s : string) : option datetime :=
  match digits 4 s with
  | None => None
  | Some (y, r1) =>
      match expect "-" r1 with
      | None => None
      | Some r2 =>
          match digits 2 r2 with
          | None => None
          | Some (mo, r3) =>
              match expect "-" r3 with
              | None => None
              | Some r4 =>
                  match digits 2 r4 with
                  | None => None
                  | Some (d, EmptyString) => make y mo d 0 0 0 0 None
                  | Some (d, String _ r5) =>
                      match time_of_day r5 with
                      | None => None
                      | Some (h, mi, sec, us, r6) =>
                          match offset r6 with
                          | Some tz => make y mo d h mi sec us tz
                          | None => None
                          end
                      end
                  end
              end
          end
      end
  end.

End DateTime.

(** Concrete JSON texts are written with an apostrophe where the text has
    a double quote; [q] puts the double quotes in. *)
Fixpoint q (s : string) : string :=
  match s with
  | EmptyString => EmptyString
  | String c s' =>
      String (if Ascii.eqb c "'" then Json.dquote else c) (q s')
  end.

(* ===================================================================== *)
(** * Rendering values: [str] and [repr] *)
(* ===================================================================== *)

Module Render.

Definition hex_digit (n : nat) : ascii :=
  if (n <? 10)%nat then ascii_of_nat (48 + n) else ascii_of_nat (87 + n).

(** [repr] shows a code point as itself when it is printable. *)
Definition printable (c : ascii) : bool :=
  let n := nat_of_ascii c in
  (((32 <=? n) && (n <? 127)) || ((161 <=? n) && negb (n =? 173)))%nat.

Fixpoint repr_chars (quote : ascii) (s : string) : string :=
  match s with
  | EmptyString => EmptyString
  | String c r =>
      let n := nat_of_ascii c in
      let rest := repr_chars quote r in
      if (Ascii.eqb c quote || Ascii.eqb c "\")%bool then String "\" (String c rest)
      else if (n =? 9)%nat then String "\" (String "t" rest)
      else if (n =? 10)%nat then String "\" (String "n" rest)
      else if (n =? 13)%nat then String "\" (String "r" rest)
      else if printable c then String c rest
      else String "\" (String "x" (String (hex_digit (n / 16))
                                      (String (hex_digit (n mod 16)) rest)))
  end.

Fixpoint has_char (c : ascii) (s : string) : bool :=
  match s with
  | EmptyString => false
  | String c' r => (Ascii.eqb c c' || has_char c r)%bool
  end.

(** [repr(s)] for a string: single quotes unless the text has a single
    quote and no double quote. *)
Definition repr_str (s : string) : string :=
  let quote :=
    if (has_char "'" s && negb (has_char Json.dquote s))%bool
    then Json.dquote else "'"%char in
  String quote (repr_chars quote s ++ String quote EmptyString).

(** [repr(v)].  A float shows the literal it was read from: Python
    prints the shortest text that reads back as the same double, which
    is the literal itself for one written that way ([1.5], [0.25]). *)
Fixpoint repr (v : value) : string :=
  match v with
  | VNone => "None"
  | VBool b => if b then "True" else "False"
  | VInt z => PyStr.of_Z z
  | VFloat l => l
  | VStr s => repr_str s
  | VList l => "[" ++ PyStr.join ", " (map repr l) ++ "]"
  | VDict d =>
      "{" ++ PyStr.join ", "
               (map (fun kv : string * value => let (k, x) := kv in
                               repr_str k ++ ": " ++ repr x) d)
          ++ "}"
  end.

(** [str(v)], the conversion of an f-string field. *)
Definition str (v : value) : string :=
  match v with
  | VStr s => s
  | _ => repr v
  end.

End Render.

(* ===================================================================== *)
(** * The environment of a run *)
(* ===================================================================== *)

(** What the generative model answers to a prompt: an exception (from the
    call or from reading the text of a blocked response) or a text. *)
Inductive gen_outcome : Type :=
| GenRaises (e : exn)
| GenText (text : string).

(** What an HTTP POST gives: an exception or a status code. *)
Inductive post_outcome : Type :=
| PostRaises (e : exn)
| PostStatus (code : Z).

(** The library calls the program depends on.  The outcome of a call to
    the model or to a web service is indexed by the attempt of the retry
    loop that makes it. *)
Record Env : Type := {
  json_loads : string -> option value;
  fromisoformat : string -> option DateTime.datetime;
  now_wall : Z;
  strftime_now : string -> string;
  now_isoformat : string;
  notion_page_id : string;
  generate_content : nat -> string -> gen_outcome;
  slack_post : nat -> value -> post_outcome;
  notion_post : nat -> value -> post_outcome
}.

(** [datetime.now()]: a naive value. *)
Definition now (env : Env) : DateTime.datetime :=
  DateTime.mk (now_wall env) None.

(** Sequencing of code that may raise but has no other effect. *)
Definition rbind {A B} (r : result A) (k : A -> result B) : result B :=
  match r with
  | Ok a => k a
  | Raise e => Raise e
  end.

Notation "'let?' x := r 'in' k" := (rbind r (fun x => k))
  (at level 10, x name, r at level 100, k at level 200) : py_scope.

(** [for x in l: acc = f acc x], stopping at the first exception. *)
Fixpoint rfold {A B} (f : B -> A -> result B) (l : list A) (acc : B) : result B :=
  match l with
  | [] => Ok acc
  | x :: l' => let? acc' := f acc x in rfold f l' acc'
  end.

(* ===================================================================== *)
(** * ai_analyzer.py: class GeminiAnalyzer *)
(* ===================================================================== *)

Module GeminiAnalyzer.
Section Methods.

Variable env : Env.

Definition prompt_head : string :=
"You are a competitive intelligence analyst. Analyze the following competitor updates and provide a structured summary.

COMPETITOR UPDATES:
".

Definition prompt_tail : string := q
"  

Please provide your analysis in the following JSON format:

{
    'summary': 'A concise 2-3 sentence summary of the most important developments',
    'categories': {
        'new_features': [
            'List of new features or product updates mentioned'
        ],
        'pricing_changes': [
            'List of any pricing updates, plans, or monetization changes'
        ],
        'messaging_updates': [
            'List of branding, positioning, or marketing message changes'
        ]
    },
    'key_insights': [
        'List of 3-5 strategic insights or competitive implications'
    ],
    'threat_level': 'low/medium/high - based on competitive threat',
    'recommended_actions': [
        'List of 2-3 recommended responses or actions'
    ]
}

Focus on:
1. New product features or capabilities
2. Pricing strategy changes
3. Market positioning shifts
4. Competitive advantages or threats
5. Customer experience improvements

Be concise but comprehensive. If no significant updates are found, indicate that in the summary.

IMPORTANT: Respond ONLY with valid JSON. No additional text or formatting.".

Definition _build_analysis_prompt (updates_text : string) : string :=
  prompt_head ++ PyStr.take 8000 updates_text ++ prompt_tail.

Definition empty_categories : value :=
  VDict [("new_features", VList []);
         ("pricing_changes", VList []);
         ("messaging_updates", VList [])].

Definition summary_extraction_failed : string :=
  "Analysis completed but summary extraction failed.".

(** The test of the loop of [_extract_summary_fallback] on a stripped
    line. *)
Definition summary_like (line : string) : bool :=
  ((50 <? String.length line)%nat
   && (PyStr.contains "update" (PyStr.lower line)
       || PyStr.contains "competitor" (PyStr.lower line)))%bool.

Fixpoint first_summary_line (lines : list string) : option string :=
  match lines with
  | [] => None
  | line :: rest =>
      let line := PyStr.strip line in
      if summary_like line then Some (PyStr.take 300 line)
      else first_summary_line rest
  end.

Definition _extract_summary_fallback (text : string) : string :=
  let lines := PyStr.split PyStr.nl text in
  match first_summary_line (firstn 10 lines) with
  | Some line => line
  | None => summary_extraction_failed
  end.

Definition _extract_partial_analysis (response_text : string) : value :=
  VDict [("summary", VStr (_extract_summary_fallback response_text));
         ("categories", empty_categories);
         ("key_insights", VList []);
         ("threat_level", VStr "medium");
         ("recommended_actions", VList [])].

(** The cleaning step at the head of [_parse_analysis_response]. *)
Definition clean_response (response_text : string) : string :=
  let cleaned_text := PyStr.strip response_text in
  let cleaned_text :=
    if PyStr.startswith "```json" cleaned_text
    then PyStr.drop 7 cleaned_text else cleaned_text in
  let cleaned_text :=
    if PyStr.endswith "```" cleaned_text
    then PyStr.drop_last 3 cleaned_text else cleaned_text in
  PyStr.strip cleaned_text.

Definition required_keys : list string :=
  ["summary"; "categories"; "key_insights"].

Definition category_keys : list string :=
  ["new_features"; "pricing_changes"; "messaging_updates"].

Definition check_required (analysis : value) (_ : unit) (key : string)
  : result unit :=
  let? present := Py.contains key analysis in
  if present then Ok tt
  else Raise (ValueError ("Missing required key: " ++ key)).

Definition backfill_category (categories : value) (cat_key : string)
  : result value :=
  let? present := Py.contains cat_key categories in
  if present then Ok categories
  else Py.setitem categories cat_key (VList []).

(** The body of the [try] of [_parse_analysis_response].  [categories]
    is the object stored in [analysis]: what the loop assigns to it
    shows in [analysis], which the model writes back. *)
Definition parse_body (response_text : string) : result value :=
  let? analysis :=
    match json_loads env (clean_response response_text) with
    | Some v => Ok v
    | None => Raise JSONDecodeError
    end in
  let? _ := rfold (check_required analysis) required_keys tt in
  let? has_categories := Py.contains "categories" analysis in
  let? analysis :=
    if has_categories then
      let? categories := Py.getitem analysis "categories" in
      let? categories := rfold backfill_category category_keys categories in
      Py.setitem analysis "categories" categories
    else Ok analysis in
  let? analysis := Py.setdefault analysis "threat_level" (VStr "medium") in
  let? analysis := Py.setdefault analysis "recommended_actions" (VList []) in
  Ok analysis.

Definition _parse_analysis_response (response_text : string) : result value :=
  match parse_body response_text with
  | Ok analysis => Ok analysis
  | Raise e =>
      if is_JSONDecodeError e
      then Ok (_extract_partial_analysis response_text)
      else Raise e
  end.

Definition count_source_lines (updates_text : string) : nat :=
  let lines := PyStr.split PyStr.nl updates_text in
  List.length (filter (PyStr.startswith "Source:") lines).

Definition _get_fallback_analysis (updates_text : string) : value :=
  let update_count := count_source_lines updates_text in
  VDict [("summary",
          VStr ("Collected " ++ PyStr.of_nat update_count
                ++ " competitor updates this week. AI analysis temporarily unavailable - manual review recommended."));
         ("categories", empty_categories);
         ("key_insights",
          VList [VStr "AI analysis failed - manual review needed";
                 VStr (PyStr.of_nat update_count ++ " updates collected for review")]);
         ("threat_level", VStr "medium");
         ("recommended_actions",
          VList [VStr "Review collected updates manually";
                 VStr "Check AI service status and retry analysis"])].

(** [self.model.generate_content(prompt)] followed by the reading of
    [response.text]. *)
Definition generate (attempt : nat) (prompt : string) : M string :=
  emit (EvGenerate prompt) ;;;
  match generate_content env attempt prompt with
  | GenRaises e => raise e
  | GenText text => ret text
  end.

(** The body of the [try] of one attempt. *)
Definition attempt_body (attempt : nat) (prompt : string) : M value :=
  text <- generate attempt prompt ;;
  if String.eqb text EmptyString
  then raise (ValueError "Empty response from Gemini")
  else lift (_parse_analysis_response text).

(** The [for] loop of [analyze_updates] from [attempt] on, with [todo]
    iterations left.  An iteration returns from the function or goes to
    the next one; the loop running out returns [None]. *)
Fixpoint analyze_loop (updates_text prompt : string) (retry_count : nat)
         (attempt todo : nat) : M value :=
  match todo with
  | O => ret VNone
  | S todo' =>
      step <- try_except
                (analysis <- attempt_body attempt prompt ;;
                 ret (Some analysis))
                (fun _ =>
                   if (attempt <? retry_count - 1)%nat
                   then emit (EvSleep (2 ^ Z.of_nat attempt)) ;;; ret None
                   else ret (Some (_get_fallback_analysis updates_text))) ;;
      match step with
      | Some v => ret v
      | None => analyze_loop updates_text prompt retry_count (S attempt) todo'
      end
  end.

Definition analyze_updates_with (updates_text : string) (retry_count : nat)
  : M value :=
  let prompt := _build_analysis_prompt updates_text in
  analyze_loop updates_text prompt retry_count O retry_count.

(** [analyze_updates(updates_text)] with the default [retry_count=3]. *)
Definition analyze_updates (updates_text : string) : M value :=
  analyze_updates_with updates_text 3.

End Methods.
End GeminiAnalyzer.

(* ===================================================================== *)
(** * integrations.py: classes SlackNotifier and NotionUpdater *)
(* ===================================================================== *)

Module PySeq.

(** [v[:n]] followed by iteration: the items a [for] loop sees.  A
    string yields its characters; a dictionary cannot be sliced. *)
Fixpoint chars (s : string) : list value :=
  match s with
  | EmptyString => []
  | String c r => VStr (String c EmptyString) :: chars r
  end.

Definition slice_first (n : nat) (v : value) : result (list value) :=
  match v with
  | VList l => Ok (firstn n l)
  | VStr s => Ok (chars (PyStr.take n s))
  | _ => Raise TypeError
  end.

End PySeq.

Module SlackNotifier.
Section Methods.

Variable env : Env.

Definition header_mark : string := "🔍 **".

Definition header_block (text : string) : value :=
  VDict [("type", VStr "header");
         ("text", VDict [("type", VStr "plain_text"); ("text", VStr text)])].

Definition section_block (text : string) : value :=
  VDict [("type", VStr "section");
         ("text", VDict [("type", VStr "mrkdwn"); ("text", VStr text)])].

Fixpoint section_blocks (sections : list string) : list value :=
  match sections with
  | [] => []
  | section :: rest =>
      if String.eqb (PyStr.strip section) EmptyString
      then section_blocks rest
      else
        (if PyStr.startswith header_mark section
         then header_block
                (PyStr.strip
                   (PyStr.replace "**" EmptyString
                      (PyStr.replace header_mark EmptyString section)))
         else section_block section)
        :: section_blocks rest
  end.

Definition _format_blocks (message : string) : list value :=
  let sections := PyStr.split (PyStr.nl ++ PyStr.nl) message in
  (section_blocks sections ++ [VDict [("type", VStr "divider")]])%list.

Definition payload_of (message : string) : value :=
  VDict [("text", VStr message);
         ("username", VStr "Competitor Bot");
         ("icon_emoji", VStr ":mag:");
         ("blocks", VList (_format_blocks message))].

(** [self.session.post(self.webhook_url, json=payload, timeout=30)] *)
Definition post (attempt : nat) (payload : value) : M Z :=
  emit (EvSlackPost payload) ;;;
  match slack_post env attempt payload with
  | PostRaises e => raise e
  | PostStatus code => ret code
  end.

(** The [for] loop of [send_message] from [attempt] on; an iteration
    returns [True] from the function or falls through to the next. *)
Fixpoint send_loop (payload : value) (retry_count attempt todo : nat)
  : M bool :=
  match todo with
  | O => ret false
  | S todo' =>
      sent <- try_except
                (code <- post attempt payload ;;
                 ret (code =? 200))
                (fun _ =>
                   (if (attempt <? retry_count - 1)%nat
                    then emit (EvSleep (2 ^ Z.of_nat attempt))
                    else ret tt) ;;;
                   ret false) ;;
      if sent then ret true
      else send_loop payload retry_count (S attempt) todo'
  end.

Definition send_message_with (message : string) (retry_count : nat)
  : M bool :=
  emit (EvSendMessage message) ;;;
  send_loop (payload_of message) retry_count O retry_count.

(** [send_message(message)] with the default [retry_count=3]. *)
Definition send_message (message : string) : M bool :=
  send_message_with message 3.

End Methods.
End SlackNotifier.

Module NotionUpdater.
Section Methods.

Variable env : Env.

Definition rich_text (content : string) : value :=
  VList [VDict [("text", VDict [("content", VStr content)])]].

Definition text_block (type content : string) : value :=
  VDict [("object", VStr "block");
         ("type", VStr type);
         (type, VDict [("rich_text", rich_text content)])].

Definition divider_block : value :=
  VDict [("object", VStr "block");
         ("type", VStr "divider");
         ("divider", VDict [])].

Definition _build_category_blocks (category_title : string) (items : value)
  : result (list value) :=
  let heading := text_block "heading_3" category_title in
  if Py.truthy items then
    let? shown := PySeq.slice_first 10 items in
    Ok (heading
        :: map (fun item =>
                  text_block "bulleted_list_item"
                    (PyStr.take 2000 (Render.str item)))
               shown)
  else
    Ok [heading;
        text_block "paragraph" "No updates in this category this week."].

(** One of the three [if categories.get(key): children.extend(...)]. *)
Definition category_section (categories : value) (key title : string)
           (children : list value) : result (list value) :=
  let? items := Py.get categories key VNone in
  if Py.truthy items then
    let? items := Py.getitem categories key in
    let? blocks := _build_category_blocks title items in
    Ok (children ++ blocks)%list
  else Ok children.

Definition _build_page_content (content : value) : result value :=
  let? title := Py.get content "title" (VStr "Competitor Intelligence Report") in
  let? summary := Py.get content "summary" (VStr EmptyString) in
  let? categories := Py.get content "categories" (VDict []) in
  let? total_updates := Py.get content "total_updates" (VInt 0) in
  let children :=
    [text_block "heading_2" "Executive Summary";
     text_block "paragraph"
       ("Total Updates: " ++ Render.str total_updates
        ++ PyStr.nl ++ PyStr.nl ++ Render.str summary)] in
  let? children :=
    category_section categories "new_features" "🆕 New Features" children in
  let? children :=
    category_section categories "pricing_changes" "💰 Pricing Changes" children in
  let? children :=
    category_section categories "messaging_updates" "📢 Messaging Updates" children in
  let children :=
    (children
     ++ [divider_block;
         text_block "paragraph"
           ("Generated on: " ++ strftime_now env "%Y-%m-%d %H:%M:%S"
            ++ " UTC")])%list in
  Ok (VDict
        [("parent", VDict [("page_id", VStr (notion_page_id env))]);
         ("properties",
          VDict [("title",
                  VDict [("title",
                          VList [VDict [("text",
                                         VDict [("content", title)])]])])]);
         ("children", VList children)]).

(** [self.session.post(f"{self.base_url}/pages", json=page_data, timeout=30)] *)
Definition post (attempt : nat) (page_data : value) : M Z :=
  emit (EvNotionPost page_data) ;;;
  match notion_post env attempt page_data with
  | PostRaises e => raise e
  | PostStatus code => ret code
  end.

Fixpoint update_loop (content : value) (retry_count attempt todo : nat)
  : M bool :=
  match todo with
  | O => ret false
  | S todo' =>
      created <- try_except
                   (page_data <- lift (_build_page_content content) ;;
                    code <- post attempt page_data ;;
                    ret (code =? 200))
                   (fun _ =>
                      (if (attempt <? retry_count - 1)%nat
                       then emit (EvSleep (2 ^ Z.of_nat attempt))
                       else ret tt) ;;;
                      ret false) ;;
      if created then ret true
      else update_loop content retry_count (S attempt) todo'
  end.

Definition update_page_with (content : value) (retry_count : nat) : M bool :=
  emit (EvUpdatePage content) ;;;
  update_loop content retry_count O retry_count.

(** [update_page(content)] with the default [retry_count=3]. *)
Definition update_page (content : value) : M bool :=
  update_page_with content 3.

End Methods.
End NotionUpdater.

(* ===================================================================== *)
(** * main.py: class CompetitorAgent *)
(* ===================================================================== *)

Module CompetitorAgent.
Section Methods.

Variable env : Env.

(** [datetime.fromisoformat(update.get('date', ''))]: a text that cannot
    be read raises [ValueError], anything but a text [TypeError]. *)
Definition update_date (update : dict) : result DateTime.datetime :=
  match Dict.get "date" (VStr EmptyString) update with
  | VStr s =>
      match fromisoformat env s with
      | Some d => Ok d
      | None => Raise (ValueError "Invalid isoformat string")
      end
  | _ => Raise TypeError
  end.

(** One iteration of the loop of [filter_recent_updates]. *)
Definition filter_step (cutoff_date : DateTime.datetime)
           (recent_updates : list dict) (update : dict)
  : result (list dict) :=
  let body :=
    let? update_date := update_date update in
    let? later := DateTime.gt update_date cutoff_date in
    if later then Ok (recent_updates ++ [update])%list
    else Ok recent_updates in
  match body with
  | Ok l => Ok l
  | Raise e =>
      if (is_ValueError e || is_TypeError e)%bool
      then Ok (recent_updates ++ [update])%list
      else Raise e
  end.

Definition filter_recent_updates_with (updates : list dict) (days : Z)
  : result (list dict) :=
  let? cutoff_date := DateTime.sub_days (now env) days in
  rfold (filter_step cutoff_date) updates [].

(** [filter_recent_updates(updates)] with the default [days=7]. *)
Definition filter_recent_updates (updates : list dict) : result (list dict) :=
  filter_recent_updates_with updates 7.

Definition format_update (update : dict) : string :=
  let source := Dict.get "source" (VStr "Unknown") update in
  let title := Dict.get "title" (VStr "No title") update in
  let content :=
    Dict.get "content" (Dict.get "description" (VStr EmptyString) update)
             update in
  let date := Dict.get "date" (VStr "Unknown date") update in
  "Source: " ++ Render.str source ++ PyStr.nl
  ++ "Date: " ++ Render.str date ++ PyStr.nl
  ++ "Title: " ++ Render.str title ++ PyStr.nl
  ++ "Content: " ++ Render.str content ++ PyStr.nl ++ "---".

Definition _format_updates_for_analysis (updates : list dict) : string :=
  PyStr.join PyStr.nl (map format_update updates).

Definition no_updates_summary : value :=
  VDict [("summary", VStr "No significant competitor updates found this week.");
         ("categories", GeminiAnalyzer.empty_categories);
         ("total_updates", VInt 0)].

Definition generate_summary (updates : list dict) : M value :=
  match updates with
  | [] => ret no_updates_summary
  | _ =>
      let updates_text := _format_updates_for_analysis updates in
      summary <- GeminiAnalyzer.analyze_updates env updates_text ;;
      lift (Py.setitem summary "total_updates"
              (VInt (Z.of_nat (List.length updates))))
  end.

Fixpoint bullets (items : list value) : string :=
  match items with
  | [] => EmptyString
  | item :: rest => "• " ++ Render.str item ++ PyStr.nl ++ bullets rest
  end.

(** One of the three category paragraphs of [_format_slack_message]. *)
Definition slack_category (categories : value) (key title trailer : string)
  : result string :=
  let? items := Py.get categories key VNone in
  if Py.truthy items then
    let? items := Py.getitem categories key in
    let? n := Py.len items in
    let? shown := PySeq.slice_first 5 items in
    Ok (title ++ " (" ++ PyStr.of_Z n ++ "):" ++ PyStr.nl
        ++ bullets shown ++ trailer)
  else Ok EmptyString.

Definition _format_slack_message (summary : value) : result string :=
  let msg := "🔍 **Weekly Competitor Intelligence Report**" ++ PyStr.nl ++ PyStr.nl in
  let? total := Py.get summary "total_updates" (VInt 0) in
  let msg := msg ++ "📊 **Total Updates**: " ++ Render.str total
                 ++ PyStr.nl ++ PyStr.nl in
  let? text := Py.get summary "summary" (VStr "No updates") in
  let msg := msg ++ "📋 **Summary**:" ++ PyStr.nl ++ Render.str text
                 ++ PyStr.nl ++ PyStr.nl in
  let? categories := Py.get summary "categories" (VDict []) in
  let? features :=
    slack_category categories "new_features" "🆕 **New Features**" PyStr.nl in
  let? pricing :=
    slack_category categories "pricing_changes" "💰 **Pricing Changes**" PyStr.nl in
  let? messaging :=
    slack_category categories "messaging_updates" "📢 **Messaging Updates**"
                   EmptyString in
  Ok (msg ++ features ++ pricing ++ messaging
      ++ PyStr.nl ++ "📅 Generated: " ++ strftime_now env "%Y-%m-%d %H:%M").

Definition _format_notion_content (summary : value) : result value :=
  let? text := Py.get summary "summary" (VStr EmptyString) in
  let? total := Py.get summary "total_updates" (VInt 0) in
  let? categories := Py.get summary "categories" (VDict []) in
  Ok (VDict
        [("title",
          VStr ("Competitor Intelligence - Week of "
                ++ strftime_now env "%Y-%m-%d"));
         ("summary", text);
         ("total_updates", total);
         ("categories", categories);
         ("generated_at", VStr (now_isoformat env))]).

(** The single [try] of [send_notifications]: whatever escapes from a
    step is logged by the handler and ends the method. *)
Definition send_notifications (summary : value) : M unit :=
  try_except
    (slack_message <- lift (_format_slack_message summary) ;;
     _ <- SlackNotifier.send_message env slack_message ;;
     notion_content <- lift (_format_notion_content summary) ;;
     _ <- NotionUpdater.update_page env notion_content ;;
     ret tt)
    (fun _ => ret tt).

End Methods.
End CompetitorAgent.

(** An environment with the reference decoders, a clock reading of
    2024-03-15T09:00:00, a model that answers every attempt with the
    same text and web services that answer every POST with the same
    status. *)
Definition ref_now_wall : Z := 63846090000000000.

Definition ref_env (response : gen_outcome) (slack notion : post_outcome) : Env :=
  {| json_loads := Json.loads;
     fromisoformat := DateTime.fromisoformat;
     now_wall := ref_now_wall;
     strftime_now := fun format =>
                       if String.eqb format "%Y-%m-%d" then "2024-03-15"
                       else if String.eqb format "%Y-%m-%d %H:%M"
                            then "2024-03-15 09:00"
                            else "2024-03-15 09:00:00";
     now_isoformat := "2024-03-15T09:00:00";
     notion_page_id := "page";
     generate_content := fun _ _ => response;
     slack_post := fun _ _ => slack;
     notion_post := fun _ _ => notion |}.

(* ===================================================================== *)
(** * Predicates of the statements *)
(* ===================================================================== *)

(** The shape every path of the analyzer gives to its result: a
    dictionary with the five fields, whose [categories] value answers
    [True] to the membership test of each category name. *)
Definition structured (v : value) : Prop :=
  exists d cats,
    v = VDict d
    /\ Dict.lookup "categories" d = Some cats
    /\ (forall k, In k GeminiAnalyzer.category_keys ->
                  Py.contains k cats = Ok true)
    /\ Dict.mem "summary" d = true
    /\ Dict.mem "key_insights" d = true
    /\ Dict.mem "threat_level" d = true
    /\ Dict.mem "recommended_actions" d = true.

(** A [categories] value as the data model describes it: an object whose
    three named entries are lists. *)
Definition is_list (v : value) : bool :=
  match v with
  | VList _ => true
  | _ => false
  end.

Definition category_lists (cats : value) : bool :=
  match cats with
  | VDict c =>
      forallb (fun k => match Dict.lookup k c with
                        | Some v => is_list v
                        | None => false
                        end)
              GeminiAnalyzer.category_keys
  | _ => false
  end.

(** What one attempt of [analyze_updates] comes to: the value the [try]
    body returns or the exception it raises. *)
Definition attempt_result (env : Env) (attempt : nat) (updates_text : string)
  : result value :=
  fst (run (GeminiAnalyzer.attempt_body env attempt
              (GeminiAnalyzer._build_analysis_prompt updates_text))).

Definition attempt_raises (env : Env) (attempt : nat) (updates_text : string)
  : Prop :=
  exists e, attempt_result env attempt updates_text = Raise e.

(** The events of a run of the analyzer: calls of the model with one
    prompt, and pauses. *)
Definition analyzer_event (prompt : string) (e : event) : Prop :=
  e = EvGenerate prompt \/ exists seconds, e = EvSleep seconds.

(** The Summary of the data model: a dictionary with a free-text
    summary, the three category lists, a list of key insights, a threat
    level among low, medium and high, a list of recommended actions and a
    total update count. *)
Definition is_str (v : value) : bool :=
  match v with
  | VStr _ => true
  | _ => false
  end.

Definition is_threat_level (v : value) : bool :=
  match v with
  | VStr s => (String.eqb s "low" || String.eqb s "medium" || String.eqb s "high")%bool
  | _ => false
  end.

Definition is_int (v : value) : bool :=
  match v with
  | VInt _ => true
  | _ => false
  end.

Definition field_is (p : value -> bool) (k : string) (d : dict) : bool :=
  match Dict.lookup k d with
  | Some v => p v
  | None => false
  end.

Definition summary_model (v : value) : bool :=
  match v with
  | VDict d =>
      (field_is is_str "summary" d
       && field_is category_lists "categories" d
       && field_is is_list "key_insights" d
       && field_is is_threat_level "threat_level" d
       && field_is is_list "recommended_actions" d
       && field_is is_int "total_updates" d)%bool
  | _ => false
  end.

(** ** Sample data *)

Definition sample_update : dict :=
  [("title", VStr "Launch"); ("content", VStr "New plan");
   ("date", VStr "2024-03-14T09:00:00"); ("source", VStr "Acme");
   ("source_type", VStr "rss")].

Definition sample_text : string :=
  "Source: Acme" ++ PyStr.nl ++ "Date: 2024-03-14T09:00:00" ++ PyStr.nl
  ++ "Title: Launch" ++ PyStr.nl ++ "Content: New plan" ++ PyStr.nl ++ "---"
  ++ PyStr.nl
  ++ "Source: Bolt" ++ PyStr.nl ++ "Date: 2024-03-13T09:00:00" ++ PyStr.nl
  ++ "Title: Price" ++ PyStr.nl ++ "Content: Source: rumour" ++ PyStr.nl ++ "---".

(** The model raises on every call and every POST answers 500. *)
Definition failing_env : Env :=
  ref_env (GenRaises (ExternalError "service unavailable"))
          (PostStatus 500) (PostStatus 500).

(** The model answers every call with [response]; every POST answers 200. *)
Definition answering_env (response : string) : Env :=
  ref_env (GenText response) (PostStatus 200) (PostStatus 200).

(** A well-formed answer whose [new_features] entry is a number. *)
Definition number_response : string :=
  q "{'summary': 's', 'categories': {'new_features': 5}, 'key_insights': []}".

(** A well-formed answer with a threat level outside the three names. *)
Definition critical_response : string :=
  q "{'summary': 's', 'categories': {}, 'key_insights': [], 'threat_level': 'critical'}".

(** A summary as the fallback of the analyzer gives it, with its count. *)
Definition fallback_summary : value :=
  VDict [("summary", VStr "Collected 1 competitor updates this week.");
         ("categories", GeminiAnalyzer.empty_categories);
         ("key_insights", VList []);
         ("threat_level", VStr "medium");
         ("recommended_actions", VList []);
         ("total_updates", VInt 1)].

(** A text made of whitespace only. *)
Fixpoint all_space (s : string) : bool :=
  match s with
  | EmptyString => true
  | String c r => (PyStr.is_space c && all_space r)%bool
  end.

(** What the loop of [filter_recent_updates] decides for one update. *)
Definition keeps (env : Env) (cutoff_date : DateTime.datetime) (update : dict)
  : bool :=
  match CompetitorAgent.update_date env update with
  | Ok d =>
      match DateTime.gt d cutoff_date with
      | Ok later => later
      | Raise _ => true
      end
  | Raise _ => true
  end.

(** Updates dated against the clock of [ref_env] (2024-03-15T09:00:00):
    eight days before, one day before, a date that is not ISO-8601, no
    date, and a date of the year 2020 written without and with a UTC
    offset. *)
Definition update_dated (date : string) : dict :=
  [("title", VStr "Release notes"); ("content", VStr "Details");
   ("date", VStr date); ("type", VStr "website_update")].

Definition update_8_days_ago : dict := update_dated "2024-03-07T09:00:00".
Definition update_1_day_ago : dict := update_dated "2024-03-14T09:00:00".
Definition update_unparsable : dict := update_dated "March 1, 2024".
Definition update_undated : dict :=
  [("title", VStr "Release notes"); ("content", VStr "Details")].
Definition update_2020_naive : dict := update_dated "2020-01-01T00:00:00".
Definition update_2020_aware : dict := update_dated "2020-01-01T00:00:00+00:00".

(** The defaults the parser is to put into a decoded object [d] whose
    [categories] entry is the object [cats]: an empty list for each
    category name that is missing, [medium] for a missing threat level,
    an empty list for missing recommended actions. *)
Definition backfilled_categories (cats : dict) : dict :=
  Dict.setdefault "messaging_updates" (VList [])
    (Dict.setdefault "pricing_changes" (VList [])
       (Dict.setdefault "new_features" (VList []) cats)).

Definition with_defaults (d cats : dict) : dict :=
  Dict.setdefault "recommended_actions" (VList [])
    (Dict.setdefault "threat_level" (VStr "medium")
       (Dict.set "categories" (VDict (backfilled_categories cats)) d)).

(** A complete answer of the model, and two ways of fencing a text. *)
Definition complete_response : string :=
  q "{'summary': 'Acme launched a plan', 'categories': {'pricing_changes': ['New plan']}, 'key_insights': ['Watch Acme']}".

Definition json_fence (body : string) : string :=
  "```json" ++ PyStr.nl ++ body ++ PyStr.nl ++ "```".

Definition plain_fence (body : string) : string :=
  "```" ++ PyStr.nl ++ body ++ PyStr.nl ++ "```".

(** The salvaged summary as the specification words it: the first line
    of the raw text that is longer than 50 characters and contains
    [update] or [competitor] in any case, cut to 300 characters. *)
Fixpoint claimed_first_line (lines : list string) : option string :=
  match lines with
  | [] => None
  | line :: rest =>
      if ((50 <? String.length line)%nat
          && (PyStr.contains "update" (PyStr.lower line)
              || PyStr.contains "competitor" (PyStr.lower line)))%bool
      then Some (PyStr.take 300 line)
      else claimed_first_line rest
  end.

Definition claimed_summary (text : string) : option string :=
  claimed_first_line (PyStr.split PyStr.nl text).

(** Two answers that are not JSON: ten short lines before a line that
    qualifies, and a qualifying line that is indented. *)
Definition qualifying_line : string :=
  "The main competitor shipped a large update to its pricing page.".

Definition eleven_lines : string :=
  "Here" ++ PyStr.nl ++ "is" ++ PyStr.nl ++ "what" ++ PyStr.nl ++ "I"
  ++ PyStr.nl ++ "found" ++ PyStr.nl ++ "in" ++ PyStr.nl ++ "the" ++ PyStr.nl
  ++ "texts" ++ PyStr.nl ++ "you" ++ PyStr.nl ++ "sent:" ++ PyStr.nl
  ++ qualifying_line.

Definition indented_line : string := "Answer:" ++ PyStr.nl ++ "    " ++ qualifying_line.

(** A text of [n] characters without a newline. *)
Fixpoint filler (n : nat) : string :=
  match n with
  | O => EmptyString
  | S n' => String "x" (filler n')
  end.

(** The events of a run of [send_message] after its entry: POSTs to the
    webhook, and pauses. *)
Definition slack_event (e : event) : Prop :=
  (exists payload, e = EvSlackPost payload) \/ (exists seconds, e = EvSleep seconds).

(* ===================================================================== *)
(** * Further predicates *)
(* ===================================================================== *)

(** A POST that answers 200. *)
Definition answers_200 (o : post_outcome) : bool :=
  match o with
  | PostStatus code => code =? 200
  | PostRaises _ => false
  end.

Definition is_post_event (e : event) : bool :=
  match e with
  | EvSlackPost _ | EvNotionPost _ => true
  | _ => false
  end.

(** The blocks [_build_page_content] can put on a page: the divider, a
    heading, a bullet of at most 2000 characters, or one of the two
    paragraphs that begin with the count and with the generation time. *)
Definition page_child (b : value) : Prop :=
  b = NotionUpdater.divider_block
  \/ exists type text,
       b = NotionUpdater.text_block type text
       /\ (type = "heading_2" \/ type = "heading_3"
           \/ (type = "bulleted_list_item" /\ (String.length text <= 2000)%nat)
           \/ (type = "paragraph"
               /\ (PyStr.startswith "Total Updates: " text = true
                   \/ PyStr.startswith "Generated on: " text = true))).

(** A page content whose [categories] entry is a text, not an object. *)
Definition content_with_text_categories : value :=
  VDict [("title", VStr "Week"); ("summary", VStr "s");
         ("total_updates", VInt 1);
         ("categories", VStr "new_features pricing_changes messaging_updates")].

(* ===================================================================== *)
(** * Further code *)
(* ===================================================================== *)

(** ** ai_analyzer.py: [categorize_single_update] *)

Module GeminiAnalyzerExt.
Section Methods.

Variable env : Env.

Definition category_prompt (update_text : string) : string :=
"Categorize this competitor update into one of these categories:
1. new_features
2. pricing_changes  
3. messaging_updates
4. other

Update: " ++ PyStr.take 500 update_text ++ "

Respond with only the category name.".

Definition known_categories : list string :=
  ["new_features"; "pricing_changes"; "messaging_updates"].

(** The single call of the model is the one an attempt 0 makes. *)
Definition categorize_single_update (update_text : string) : M string :=
  try_except
    (text <- GeminiAnalyzer.generate env 0 (category_prompt update_text) ;;
     let category := PyStr.lower (PyStr.strip text) in
     if existsb (String.eqb category) known_categories
     then ret category
     else ret "other")
    (fun _ => ret "other").

End Methods.
End GeminiAnalyzerExt.

(** ** scrapers.py: class SocialMediaParser *)

Module SocialMediaParser.

Definition _parse_twitter_fallback (url : value) : result (list dict) := Ok [].

Definition _parse_linkedin_fallback (url : value) : result (list dict) := Ok [].

Definition parse_social (url platform : value) : result (list dict) :=
  let body :=
    if Py.value_is_str "twitter" platform then _parse_twitter_fallback url
    else if Py.value_is_str "linkedin" platform then _parse_linkedin_fallback url
    else Ok [] in
  match body with
  | Ok updates => Ok updates
  | Raise _ => Ok []
  end.

End SocialMediaParser.

(** ** main.py: the sources and the run *)

(** The dataclass [Source]; its fields hold whatever the configuration
    file has. *)
Module Source.

Record t : Type := mk {
  name : value;
  url : value;
  type : value;
  selectors : value
}.

End Source.

(** What a run reads besides [Env]: the two collectors that go to the
    network, the content of [sources.json] ([None] when it cannot be
    opened), and the text [str(e)] of an exception. *)
Record World : Type := {
  scrape_website : value -> value -> result (list dict);
  parse_feed : value -> result (list dict);
  sources_file : option string;
  exn_text : exn -> string
}.

Module PyIter.

(** The items a [for] loop over [v] sees: the elements of a list, the
    keys of a dictionary, the characters of a string. *)
Definition iterate (v : value) : result (list value) :=
  match v with
  | VList l => Ok l
  | VDict d => Ok (map (fun kv : string * value => VStr (fst kv)) d)
  | VStr s => Ok (PySeq.chars s)
  | _ => Raise TypeError
  end.

End PyIter.

Module CompetitorAgentExt.
Section Methods.

Variable env : Env.
Variable world : World.

(** One iteration of the loop of [_load_sources]. *)
Definition load_step (sources : list Source.t) (src : value)
  : result (list Source.t) :=
  let? name := Py.getitem src "name" in
  let? url := Py.getitem src "url" in
  let? type := Py.getitem src "type" in
  let? selectors := Py.get src "selectors" VNone in
  Ok (sources ++ [Source.mk name url type selectors])%list.

Definition load_body : result (list Source.t) :=
  let? text :=
    match sources_file world with
    | Some text => Ok text
    | None => Raise (ExternalError "FileNotFoundError")
    end in
  let? sources_data :=
    match json_loads env text with
    | Some v => Ok v
    | None => Raise JSONDecodeError
    end in
  let? entries := Py.getitem sources_data "sources" in
  let? entries := PyIter.iterate entries in
  rfold load_step entries [].

Definition _load_sources : list Source.t :=
  match load_body with
  | Ok sources => sources
  | Raise _ => []
  end.

(** The dispatch on the type of a source; [None] is the [continue] of an
    unknown type. *)
Definition fetch (source : Source.t) : option (result (list dict)) :=
  if Py.value_is_str "website" (Source.type source)
  then Some (scrape_website world (Source.url source) (Source.selectors source))
  else if Py.value_is_str "rss" (Source.type source)
  then Some (parse_feed world (Source.url source))
  else if (Py.value_is_str "twitter" (Source.type source)
           || Py.value_is_str "linkedin" (Source.type source))%bool
  then Some (SocialMediaParser.parse_social (Source.url source)
               (Source.type source))
  else None.

Definition tag (source : Source.t) (update : dict) : dict :=
  Dict.set "source_type" (Source.type source)
    (Dict.set "source" (Source.name source) update).

(** One iteration of the loop of [collect_updates]. *)
Definition collect_step (all_updates : list dict) (source : Source.t)
  : M (list dict) :=
  try_except
    match fetch source with
    | None => ret all_updates
    | Some fetched =>
        updates <- lift fetched ;;
        let updates := map (tag source) updates in
        emit (EvSleep 1) ;;;
        ret (all_updates ++ updates)%list
    end
    (fun _ => ret all_updates).

Fixpoint collect_loop (sources : list Source.t) (all_updates : list dict)
  : M (list dict) :=
  match sources with
  | [] => ret all_updates
  | source :: rest =>
      all_updates <- collect_step all_updates source ;;
      collect_loop rest all_updates
  end.

Definition collect_updates (sources : list Source.t) : M (list dict) :=
  collect_loop sources [].

Definition alert_prefix : string := "⚠️ Competitor monitoring failed: ".

Definition run_weekly_analysis (sources : list Source.t) : M unit :=
  try_except
    (updates <- collect_updates sources ;;
     recent_updates <- lift (CompetitorAgent.filter_recent_updates env updates) ;;
     summary <- CompetitorAgent.generate_summary env recent_updates ;;
     CompetitorAgent.send_notifications env summary)
    (fun e =>
       let error_msg := alert_prefix ++ exn_text world e in
       try_except
         (_ <- SlackNotifier.send_message env error_msg ;; ret tt)
         (fun _ => ret tt)).

End Methods.
End CompetitorAgentExt.

(** What one source adds to the collected updates. *)
Definition contribution (world : World) (source : Source.t) : list dict :=
  match CompetitorAgentExt.fetch world source with
  | Some (Ok updates) => map (CompetitorAgentExt.tag source) updates
  | _ => []
  end.

(** The source an entry of the configuration describes, when it is an
    object with a name, a url and a type. *)
Definition entry_source (entry : value) : option Source.t :=
  match entry with
  | VDict e =>
      match Dict.lookup "name" e, Dict.lookup "url" e, Dict.lookup "type" e with
      | Some name, Some url, Some type =>
          Some (Source.mk name url type (Dict.get "selectors" VNone e))
      | _, _, _ => None
      end
  | _ => None
  end.

Fixpoint entry_sources (entries : list value) : option (list Source.t) :=
  match entries with
  | [] => Some []
  | entry :: rest =>
      match entry_source entry, entry_sources rest with
      | Some source, Some sources => Some (source :: sources)
      | _, _ => None
      end
  end.

(** The clock leaves room for the 7-day window. *)
Definition clock_in_range (env : Env) : Prop :=
  7 * DateTime.us_per_day <= now_wall env < DateTime.max_wall + 7 * DateTime.us_per_day.

Definition report_title : string := "🔍 **Weekly Competitor Intelligence Report**".

(** A world with two feeds, one of which fails. *)
Definition sample_world : World :=
  {| scrape_website := fun _ _ => Ok [update_1_day_ago; update_8_days_ago];
     parse_feed := fun _ => Raise (ExternalError "feed unreachable");
     sources_file :=
       Some (q "{'sources': [{'name': 'Acme', 'url': 'https://acme.example/blog', 'type': 'website'}, {'name': 'Bolt', 'url': 'https://bolt.example/feed', 'type': 'rss', 'selectors': {'title': 'h2'}}]}");
     exn_text := fun e =>
       match e with
       | OverflowError => "date value out of range"
       | ValueError msg => msg
       | ExternalError what => what
       | _ => "error"
       end |}.

(** The one-second pauses of a collection: one after each source that
    was fetched. *)
Definition collect_pauses (world : World) (sources : list Source.t) : trace :=
  flat_map (fun source =>
              match CompetitorAgentExt.fetch world source with
              | Some (Ok _) => [EvSleep 1]
              | _ => []
              end) sources.

Definition sample_sources : list Source.t :=
  [Source.mk (VStr "Acme") (VStr "https://acme.example/blog") (VStr "website") VNone;
   Source.mk (VStr "Bolt") (VStr "https://bolt.example/feed") (VStr "rss")
             (VDict [("title", VStr "h2")])].

Definition social_sources : list Source.t :=
  [Source.mk (VStr "Acme on X") (VStr "https://x.example/acme") (VStr "twitter") VNone;
   Source.mk (VStr "Acme on LinkedIn") (VStr "https://linkedin.example/acme")
             (VStr "linkedin") VNone].

(** The events of a run of [update_page] after its entry. *)
Definition notion_event (e : event) : Prop :=
  (exists payload, e = EvNotionPost payload) \/ (exists seconds, e = EvSleep seconds).

Definition is_send_message (e : event) : bool :=
  match e with
  | EvSendMessage _ => true
  | _ => false
  end.

Definition is_generate (e : event) : bool :=
  match e with
  | EvGenerate _ => true
  | _ => false
  end.

(** The chat message of a run without recent updates. *)
Definition zero_report (env : Env) : string :=
  report_title ++ PyStr.nl ++ PyStr.nl
  ++ "📊 **Total Updates**: 0" ++ PyStr.nl ++ PyStr.nl
  ++ "📋 **Summary**:" ++ PyStr.nl
  ++ "No significant competitor updates found this week."
  ++ PyStr.nl ++ PyStr.nl ++ PyStr.nl
  ++ "📅 Generated: " ++ strftime_now env "%Y-%m-%d %H:%M".

(** The events of [n] failed attempts of the analyzer from attempt
    [from] on: a call of the model and a pause of [2 ^ attempt] seconds
    each. *)
Fixpoint retries (prompt : string) (from n : nat) : trace :=
  match n with
  | O => []
  | S n' =>
      EvGenerate prompt :: EvSleep (2 ^ Z.of_nat from)
      :: retries prompt (S from) n'
  end.

(** The first of the required keys that a decoded object lacks. *)
Definition first_missing_key (d : dict) : option string :=
  find (fun k => negb (Dict.mem k d)) GeminiAnalyzer.required_keys.

(** An answer that is complete, an answer without [key_insights], and a
    model that raises once before it gives the complete answer. *)
Definition no_insights_response : string :=
  q "{'summary': 'Acme launched a plan', 'categories': {}}".

Definition second_try_env : Env :=
  {| json_loads := Json.loads;
     fromisoformat := DateTime.fromisoformat;
     now_wall := ref_now_wall;
     strftime_now := fun _ => "2024-03-15 09:00";
     now_isoformat := "2024-03-15T09:00:00";
     notion_page_id := "page";
     generate_content := fun attempt _ =>
                           match attempt with
                           | O => GenRaises (ExternalError "quota")
                           | _ => GenText complete_response
                           end;
     slack_post := fun _ _ => PostStatus 200;
     notion_post := fun _ _ => PostStatus 200 |}.

(** A text without a line break, and an update whose four formatted
    fields are such texts. *)
Definition single_line (s : string) : bool :=
  negb (Render.has_char (ascii_of_nat 10) s).

Definition single_line_update (update : dict) : bool :=
  (single_line (Render.str (Dict.get "source" (VStr "Unknown") update))
   && single_line (Render.str (Dict.get "date" (VStr "Unknown date") update))
   && single_line (Render.str (Dict.get "title" (VStr "No title") update))
   && single_line
        (Render.str
           (Dict.get "content"
              (Dict.get "description" (VStr EmptyString) update) update)))%bool.

(** The window of [days] days fits the calendar. *)
Definition window_in_range (env : Env) (days : Z) : Prop :=
  Z.abs days <= 999999999
  /\ 0 <= now_wall env - days * DateTime.us_per_day < DateTime.max_wall.

(** A summary whose [categories] entry, when there is one, is an object
    whose three named entries, when there are, are lists. *)
Definition list_or_missing (k : string) (c : dict) : bool :=
  match Dict.lookup k c with
  | None => true
  | Some v => is_list v
  end.

Definition listed_categories (d : dict) : bool :=
  match Dict.lookup "categories" d with
  | None => true
  | Some (VDict c) =>
      (list_or_missing "new_features" c
       && list_or_missing "pricing_changes" c
       && list_or_missing "messaging_updates" c)%bool
  | Some _ => false
  end.

(** The summary the parser returns for [number_response]. *)
Definition number_summary : dict :=
  [("summary", VStr "s");
   ("categories",
    VDict [("new_features", VInt 5); ("pricing_changes", VList []);
           ("messaging_updates", VList [])]);
   ("key_insights", VList []); ("threat_level", VStr "medium");
   ("recommended_actions", VList []); ("total_updates", VInt 1)].

(* ===================================================================== *)
(** * Properties *)
(* ===================================================================== *)

(** ** Floats *)

(** Zero in any writing, and a literal below half of the least positive
    double, are false; other floats are true. *)
Example truthy_floats :
  map (fun literal => Py.truthy (VFloat literal))
      ["0.0"; "-0.0"; "0e5"; "0.000"; "1e-400"; "2.4e-324";
       "2.5e-324"; "5e-324"; "1.5"; "-3.0E2"; "0.001"; "NaN"; "-Infinity"]
  = [false; false; false; false; false; false;
     true; true; true; true; true; true; true].
Proof. vm_compute. reflexivity. Qed.

(** ** Strings *)

Lemma append_nil_r (s : string) : s ++ EmptyString = s.
Proof. induction s as [|c s IH]; cbn; [reflexivity|now rewrite IH]. Qed.

Lemma append_assoc (a b c : string) : (a ++ b) ++ c = a ++ (b ++ c).
Proof. induction a as [|x a IH]; cbn; [reflexivity|now rewrite IH]. Qed.

Lemma length_append (a b : string) :
  String.length (a ++ b) = (String.length a + String.length b)%nat.
Proof. induction a as [|x a IH]; cbn; [reflexivity|now rewrite IH]. Qed.

Lemma startswith_append (p s : string) : PyStr.startswith p (p ++ s) = true.
Proof.
  induction p as [|c p IH]; cbn; [reflexivity|].
  now rewrite Ascii.eqb_refl, IH.
Qed.

Lemma drop_append (p s : string) : PyStr.drop (String.length p) (p ++ s) = s.
Proof. induction p as [|c p IH]; cbn; [reflexivity|exact IH]. Qed.

Lemma take_append (p s : string) : PyStr.take (String.length p) (p ++ s) = p.
Proof. induction p as [|c p IH]; cbn; [now destruct s|now rewrite IH]. Qed.

Lemma take_append_long (n : nat) (p s : string) :
  (n <= String.length p)%nat -> PyStr.take n (p ++ s) = PyStr.take n p.
Proof.
  revert p. induction n as [|n IH]; intros p H; [reflexivity|].
  destruct p as [|c p]; cbn in *; [lia|]. rewrite IH by lia. reflexivity.
Qed.

Lemma endswith_append (s p : string) : PyStr.endswith p (s ++ p) = true.
Proof.
  unfold PyStr.endswith. rewrite length_append.
  replace (String.length s + String.length p - String.length p)%nat
    with (String.length s) by lia.
  rewrite drop_append, String.eqb_refl.
  apply andb_true_iff. split; [apply Nat.leb_le; lia|reflexivity].
Qed.

Lemma drop_last_append (s p : string) :
  PyStr.drop_last (String.length p) (s ++ p) = s.
Proof.
  unfold PyStr.drop_last. rewrite length_append.
  replace (String.length s + String.length p - String.length p)%nat
    with (String.length s) by lia.
  apply take_append.
Qed.

Lemma lstrip_spaces (pre s : string) :
  all_space pre = true -> PyStr.lstrip (pre ++ s) = PyStr.lstrip s.
Proof.
  induction pre as [|c pre IH]; cbn; [reflexivity|].
  intros H. apply andb_true_iff in H as [Hc Hp]. rewrite Hc. auto.
Qed.

Lemma rstrip_spaces (post : string) :
  all_space post = true -> PyStr.rstrip post = EmptyString.
Proof.
  induction post as [|c post IH]; cbn; [reflexivity|].
  intros H. apply andb_true_iff in H as [Hc Hp]. now rewrite IH, Hc.
Qed.

Lemma rstrip_append_spaces (s post : string) :
  all_space post = true -> PyStr.rstrip (s ++ post) = PyStr.rstrip s.
Proof.
  intros H. induction s as [|c s IH]; cbn.
  - now apply rstrip_spaces.
  - now rewrite IH.
Qed.

Lemma rstrip_last (s : string) (c : ascii) :
  PyStr.is_space c = false ->
  PyStr.rstrip (s ++ String c EmptyString) = s ++ String c EmptyString.
Proof.
  intros Hc. induction s as [|a s IH]; cbn.
  - now rewrite Hc.
  - rewrite IH. destruct s; reflexivity.
Qed.

(** Stripping a text whose core starts and ends with a character that is
    not whitespace leaves the core. *)
Lemma strip_core (pre mid post : string) (a b : ascii) :
  all_space pre = true -> all_space post = true ->
  PyStr.is_space a = false -> PyStr.is_space b = false ->
  PyStr.strip (pre ++ (String a mid ++ String b EmptyString) ++ post)
  = String a mid ++ String b EmptyString.
Proof.
  intros Hpre Hpost Ha Hb. unfold PyStr.strip.
  rewrite lstrip_spaces by exact Hpre.
  cbn [append PyStr.lstrip]. rewrite Ha.
  change (String a ((mid ++ String b EmptyString) ++ post))
    with ((String a mid ++ String b EmptyString) ++ post).
  rewrite rstrip_append_spaces by exact Hpost.
  change (String a mid ++ String b EmptyString)
    with (String a mid ++ String b EmptyString).
  now apply rstrip_last.
Qed.

(** Splitting at newlines. *)
Lemma split_go_nl_cons (cur : string) (c : ascii) (s : string) :
  PyStr.split_go PyStr.nl 0 cur (String c s)
  = if Ascii.eqb (ascii_of_nat 10) c
    then PyStr.rev_string EmptyString cur :: PyStr.split_go PyStr.nl 0 EmptyString s
    else PyStr.split_go PyStr.nl 0 (String c cur) s.
Proof.
  cbn [PyStr.split_go]. unfold PyStr.nl at 1. cbn [PyStr.startswith].
  destruct (Ascii.eqb (ascii_of_nat 10) c); reflexivity.
Qed.

Lemma split_go_append (a b cur : string) :
  PyStr.split_go PyStr.nl 0 cur (a ++ PyStr.nl ++ b)
  = (PyStr.split_go PyStr.nl 0 cur a
     ++ PyStr.split_go PyStr.nl 0 EmptyString b)%list.
Proof.
  revert cur. induction a as [|c a IH]; intros cur.
  - cbn [append]. unfold PyStr.nl at 2. cbn [append].
    rewrite split_go_nl_cons. rewrite Ascii.eqb_refl. reflexivity.
  - cbn [append]. rewrite !split_go_nl_cons.
    destruct (Ascii.eqb (ascii_of_nat 10) c).
    + now rewrite IH.
    + apply IH.
Qed.

(** The lines of a text followed by a newline and a second text are the
    lines of the first and the lines of the second. *)
Lemma split_append (a b : string) :
  PyStr.split PyStr.nl (a ++ PyStr.nl ++ b)
  = (PyStr.split PyStr.nl a ++ PyStr.split PyStr.nl b)%list.
Proof. apply split_go_append. Qed.

(** Joining the lines of a text with newlines gives the text back. *)
Lemma rev_string_append (acc s : string) :
  PyStr.rev_string acc s = PyStr.rev_string EmptyString s ++ acc.
Proof.
  revert acc. induction s as [|c s IH]; intros acc; cbn; [reflexivity|].
  rewrite IH. rewrite (IH (String c EmptyString)).
  now rewrite append_assoc.
Qed.

Lemma join_split_go (cur s : string) :
  PyStr.join PyStr.nl (PyStr.split_go PyStr.nl 0 cur s)
  = PyStr.rev_string EmptyString cur ++ s.
Proof.
  revert cur. induction s as [|c s IH]; intros cur.
  - cbn. now rewrite append_nil_r.
  - rewrite split_go_nl_cons.
    destruct (Ascii.eqb (ascii_of_nat 10) c) eqn:E.
    + apply Ascii.eqb_eq in E. subst c.
      specialize (IH EmptyString). cbn [PyStr.rev_string append] in IH.
      destruct (PyStr.split_go PyStr.nl 0 EmptyString s) as [|l ls] eqn:S.
      * destruct s; cbn in S; [discriminate|].
        destruct (PyStr.startswith PyStr.nl (String a s)); discriminate.
      * change (PyStr.join PyStr.nl (PyStr.rev_string EmptyString cur :: l :: ls))
          with (PyStr.rev_string EmptyString cur ++ PyStr.nl
                ++ PyStr.join PyStr.nl (l :: ls)).
        rewrite IH. reflexivity.
    + rewrite IH. cbn [PyStr.rev_string].
      rewrite (rev_string_append (String c EmptyString)).
      now rewrite append_assoc.
Qed.

Lemma join_split (s : string) :
  PyStr.join PyStr.nl (PyStr.split PyStr.nl s) = s.
Proof. apply join_split_go. Qed.

(** ** Dictionaries *)

Lemma lookup_set_same (k : string) (v : value) (d : dict) :
  Dict.lookup k (Dict.set k v d) = Some v.
Proof.
  induction d as [|[k' v'] d IH]; simpl.
  - now rewrite String.eqb_refl.
  - destruct (String.eqb k k') eqn:E; simpl; rewrite E; auto.
Qed.

Lemma lookup_set_other (k k' : string) (v : value) (d : dict) :
  k <> k' -> Dict.lookup k' (Dict.set k v d) = Dict.lookup k' d.
Proof.
  intros Hne. induction d as [|[k0 v0] d IH]; simpl.
  - destruct (String.eqb k' k) eqn:E; auto.
    apply String.eqb_eq in E. congruence.
  - destruct (String.eqb k k0) eqn:E; simpl.
    + apply String.eqb_eq in E. subst k0.
      destruct (String.eqb k' k) eqn:E'; auto.
      apply String.eqb_eq in E'. congruence.
    + now rewrite IH.
Qed.

Lemma mem_set_same (k : string) (v : value) (d : dict) :
  Dict.mem k (Dict.set k v d) = true.
Proof. unfold Dict.mem. now rewrite lookup_set_same. Qed.

Lemma mem_set_keeps (k k' : string) (v : value) (d : dict) :
  Dict.mem k' d = true -> Dict.mem k' (Dict.set k v d) = true.
Proof.
  intros H. destruct (string_dec k k') as [->|Hne].
  - apply mem_set_same.
  - unfold Dict.mem in *. now rewrite lookup_set_other.
Qed.

Lemma mem_setdefault_same (k : string) (v : value) (d : dict) :
  Dict.mem k (Dict.setdefault k v d) = true.
Proof.
  unfold Dict.setdefault. destruct (Dict.mem k d) eqn:E; auto.
  apply mem_set_same.
Qed.

Lemma mem_setdefault_keeps (k k' : string) (v : value) (d : dict) :
  Dict.mem k' d = true -> Dict.mem k' (Dict.setdefault k v d) = true.
Proof.
  intros H. unfold Dict.setdefault. destruct (Dict.mem k d); auto.
  now apply mem_set_keeps.
Qed.

Lemma lookup_setdefault_other (k k' : string) (v : value) (d : dict) :
  k <> k' -> Dict.lookup k' (Dict.setdefault k v d) = Dict.lookup k' d.
Proof.
  intros H. unfold Dict.setdefault. destruct (Dict.mem k d); auto.
  now apply lookup_set_other.
Qed.

Lemma lookup_setdefault_present (k : string) (v x : value) (d : dict) :
  Dict.lookup k d = Some x -> Dict.lookup k (Dict.setdefault k v d) = Some x.
Proof.
  intros H. unfold Dict.setdefault, Dict.mem. now rewrite H.
Qed.

Lemma lookup_setdefault_absent (k : string) (v : value) (d : dict) :
  Dict.lookup k d = None -> Dict.lookup k (Dict.setdefault k v d) = Some v.
Proof.
  intros H. unfold Dict.setdefault, Dict.mem. rewrite H.
  apply lookup_set_same.
Qed.

Lemma mem_lookup (k : string) (d : dict) :
  Dict.mem k d = true <-> exists v, Dict.lookup k d = Some v.
Proof.
  unfold Dict.mem. destruct (Dict.lookup k d); split; intros H; eauto;
    try discriminate. destruct H; discriminate.
Qed.

(** ** The effect monad *)

Lemma bind_ok {A B} (m : M A) (k : A -> M B) (t t' : trace) (a : A) :
  m t = (Ok a, t') -> bind m k t = k a t'.
Proof. intros H. unfold bind. now rewrite H. Qed.

Lemma bind_raise {A B} (m : M A) (k : A -> M B) (t t' : trace) (e : exn) :
  m t = (Raise e, t') -> bind m k t = (Raise e, t').
Proof. intros H. unfold bind. now rewrite H. Qed.

Lemma try_ok {A} (m : M A) (h : exn -> M A) (t t' : trace) (a : A) :
  m t = (Ok a, t') -> try_except m h t = (Ok a, t').
Proof. intros H. unfold try_except. now rewrite H. Qed.

Lemma try_raise {A} (m : M A) (h : exn -> M A) (t t' : trace) (e : exn) :
  m t = (Raise e, t') -> try_except m h t = h e t'.
Proof. intros H. unfold try_except. now rewrite H. Qed.

(** ** The response parser *)

Ltac rstep H :=
  match type of H with
  | rbind ?r _ = Ok _ =>
      let E := fresh "E" in
      destruct r eqn:E; cbn [rbind] in H; [|discriminate H]
  end.

Section Parser.

Variable env : Env.

Lemma check_required_ok (a : value) (u : unit) (k : string) (r : unit) :
  GeminiAnalyzer.check_required a u k = Ok r -> Py.contains k a = Ok true.
Proof.
  unfold GeminiAnalyzer.check_required. intros H. rstep H.
  destruct a0; [reflexivity|discriminate].
Qed.

Lemma required_keys_present (a : value) (r : unit) :
  rfold (GeminiAnalyzer.check_required a) GeminiAnalyzer.required_keys tt = Ok r ->
  forall k, In k GeminiAnalyzer.required_keys -> Py.contains k a = Ok true.
Proof.
  unfold GeminiAnalyzer.required_keys. cbn [rfold]. intros H.
  rstep H. rstep H. rstep H.
  intros k [<-|[<-|[<-|[]]]]; eapply check_required_ok; eauto.
Qed.

Lemma backfill_category_spec (cats cats' : value) (k : string) :
  GeminiAnalyzer.backfill_category cats k = Ok cats' ->
  Py.contains k cats' = Ok true
  /\ (forall k', Py.contains k' cats = Ok true -> Py.contains k' cats' = Ok true).
Proof.
  unfold GeminiAnalyzer.backfill_category. intros H. rstep H.
  destruct a.
  - inversion H; subst. auto.
  - destruct cats; try discriminate. cbn [Py.setitem] in H.
    inversion H; subst. cbn [Py.contains]. split.
    + now rewrite mem_set_same.
    + intros k' Hk'. inversion Hk' as [Hm]. rewrite Hm.
      now rewrite mem_set_keeps.
Qed.

Lemma backfill_all (cats cats' : value) :
  rfold GeminiAnalyzer.backfill_category GeminiAnalyzer.category_keys cats = Ok cats' ->
  forall k, In k GeminiAnalyzer.category_keys -> Py.contains k cats' = Ok true.
Proof.
  unfold GeminiAnalyzer.category_keys. cbn [rfold]. intros H.
  rstep H. rstep H. rstep H. inversion H; subst.
  apply backfill_category_spec in E as [F1 _].
  apply backfill_category_spec in E0 as [F2 K2].
  apply backfill_category_spec in E1 as [F3 K3].
  intros k [<-|[<-|[<-|[]]]]; auto.
Qed.

Lemma parse_body_structured (text : string) (v : value) :
  GeminiAnalyzer.parse_body env text = Ok v -> structured v.
Proof.
  unfold GeminiAnalyzer.parse_body. intros H.
  rstep H. rstep H.
  pose proof (required_keys_present _ _ E0) as Hreq.
  rewrite (Hreq "categories") in H by (cbn; auto). cbn [rbind] in H.
  rstep H. rstep H. rstep H.
  destruct a as [| | | | | |d]; try discriminate E1.
  cbn [Py.getitem] in E1.
  rstep E1. rstep E1.
  destruct (Dict.lookup "categories" d) as [x|] eqn:Hc; [|discriminate E4].
  inversion E4; subst x. clear E4.
  cbn [Py.setitem] in E1. inversion E1; subst a1. clear E1.
  cbn [Py.setdefault] in E2. inversion E2; subst a2. clear E2.
  cbn [Py.setdefault] in E3. inversion E3; subst a3. clear E3.
  inversion H; subst v. clear H.
  assert (Hs : Dict.mem "summary" d = true).
  { specialize (Hreq "summary"). cbn in Hreq.
    assert (Ok (Dict.mem "summary" d) = Ok true) as X by auto.
    now injection X. }
  assert (Hk : Dict.mem "key_insights" d = true).
  { specialize (Hreq "key_insights"). cbn in Hreq.
    assert (Ok (Dict.mem "key_insights" d) = Ok true) as X by auto.
    now injection X. }
  eexists _, a4. split; [reflexivity|]. repeat split.
  - rewrite !lookup_setdefault_other by discriminate.
    apply lookup_set_same.
  - eapply backfill_all; eauto.
  - now apply mem_setdefault_keeps, mem_setdefault_keeps, mem_set_keeps.
  - now apply mem_setdefault_keeps, mem_setdefault_keeps, mem_set_keeps.
  - apply mem_setdefault_keeps, mem_setdefault_same.
  - apply mem_setdefault_same.
Qed.

Lemma partial_analysis_structured (text : string) :
  structured (GeminiAnalyzer._extract_partial_analysis text).
Proof.
  eexists _, _. split; [reflexivity|].
  split; [reflexivity|]. split.
  - intros k [<-|[<-|[<-|[]]]]; reflexivity.
  - repeat split.
Qed.

Lemma fallback_analysis_structured (text : string) :
  structured (GeminiAnalyzer._get_fallback_analysis text).
Proof.
  eexists _, _. split; [reflexivity|].
  split; [reflexivity|]. split.
  - intros k [<-|[<-|[<-|[]]]]; reflexivity.
  - repeat split.
Qed.

Lemma parse_response_structured (text : string) (v : value) :
  GeminiAnalyzer._parse_analysis_response env text = Ok v -> structured v.
Proof.
  unfold GeminiAnalyzer._parse_analysis_response.
  destruct (GeminiAnalyzer.parse_body env text) as [a|e] eqn:E.
  - intros H; inversion H; subst. eapply parse_body_structured; eauto.
  - destruct (is_JSONDecodeError e); [|discriminate].
    intros H; inversion H; subst. apply partial_analysis_structured.
Qed.

End Parser.

(** ** The retry loop of the analyzer *)

Section Analyzer.

Variable env : Env.

Lemma attempt_body_run (attempt : nat) (prompt : string) (t : trace) :
  GeminiAnalyzer.attempt_body env attempt prompt t
  = (fst (run (GeminiAnalyzer.attempt_body env attempt prompt)),
     (t ++ [EvGenerate prompt])%list).
Proof.
  unfold run, GeminiAnalyzer.attempt_body, GeminiAnalyzer.generate,
    bind, emit, raise, ret, lift.
  destruct (generate_content env attempt prompt) as [e|text]; cbn.
  - reflexivity.
  - destruct (String.eqb text EmptyString); reflexivity.
Qed.

Lemma attempt_body_structured (attempt : nat) (prompt : string) (v : value) :
  fst (run (GeminiAnalyzer.attempt_body env attempt prompt)) = Ok v ->
  structured v.
Proof.
  unfold run, GeminiAnalyzer.attempt_body, GeminiAnalyzer.generate,
    bind, emit, raise, ret, lift.
  destruct (generate_content env attempt prompt) as [e|text]; cbn.
  - discriminate.
  - destruct (String.eqb text EmptyString); cbn; [discriminate|].
    apply parse_response_structured.
Qed.

(** One iteration of the loop. *)
Lemma analyze_loop_step (text prompt : string) (rc attempt todo : nat)
      (t : trace) :
  GeminiAnalyzer.analyze_loop env text prompt rc attempt (S todo) t
  = match fst (run (GeminiAnalyzer.attempt_body env attempt prompt)) with
    | Ok v => (Ok v, (t ++ [EvGenerate prompt])%list)
    | Raise _ =>
        if (attempt <? rc - 1)%nat
        then GeminiAnalyzer.analyze_loop env text prompt rc (S attempt) todo
               ((t ++ [EvGenerate prompt]) ++ [EvSleep (2 ^ Z.of_nat attempt)])%list
        else (Ok (GeminiAnalyzer._get_fallback_analysis text),
              (t ++ [EvGenerate prompt])%list)
    end.
Proof.
  cbn [GeminiAnalyzer.analyze_loop].
  unfold bind at 1. unfold try_except. unfold bind at 1.
  rewrite attempt_body_run.
  destruct (fst (run (GeminiAnalyzer.attempt_body env attempt prompt))) as [v|e].
  - reflexivity.
  - destruct (attempt <? rc - 1)%nat; reflexivity.
Qed.

Lemma analyze_loop_returns (text prompt : string) (rc : nat) :
  forall todo attempt t,
    (attempt + todo = rc)%nat -> (0 < todo)%nat ->
    exists v ext,
      GeminiAnalyzer.analyze_loop env text prompt rc attempt todo t
      = (Ok v, (t ++ ext)%list)
      /\ structured v
      /\ Forall (analyzer_event prompt) ext.
Proof.
  induction todo as [|todo IH]; intros attempt t Hsum Hpos; [lia|].
  rewrite analyze_loop_step.
  destruct (fst (run (GeminiAnalyzer.attempt_body env attempt prompt)))
    as [v|e] eqn:E.
  - exists v, [EvGenerate prompt]. repeat split.
    + eapply attempt_body_structured; eauto.
    + repeat constructor.
  - destruct (attempt <? rc - 1)%nat eqn:L.
    + apply Nat.ltb_lt in L.
      destruct (IH (S attempt)
                   ((t ++ [EvGenerate prompt]) ++ [EvSleep (2 ^ Z.of_nat attempt)])%list)
        as (v & ext & Hrun & Hv & Hext); try lia.
      exists v, ([EvGenerate prompt; EvSleep (2 ^ Z.of_nat attempt)] ++ ext)%list.
      repeat split; auto.
      * rewrite Hrun. f_equal. now rewrite <- !app_assoc.
      * constructor; [now left|]. constructor; [right; eauto|]. exact Hext.
    + exists (GeminiAnalyzer._get_fallback_analysis text), [EvGenerate prompt].
      repeat split.
      * apply fallback_analysis_structured.
      * repeat constructor.
Qed.

Lemma analyze_loop_all_raise (text prompt : string) (rc : nat) :
  forall todo attempt t,
    (attempt + todo = rc)%nat -> (0 < todo)%nat ->
    (forall a, (attempt <= a < rc)%nat ->
               exists e, fst (run (GeminiAnalyzer.attempt_body env a prompt)) = Raise e) ->
    exists t',
      GeminiAnalyzer.analyze_loop env text prompt rc attempt todo t
      = (Ok (GeminiAnalyzer._get_fallback_analysis text), t').
Proof.
  induction todo as [|todo IH]; intros attempt t Hsum Hpos Hall; [lia|].
  rewrite analyze_loop_step.
  destruct (Hall attempt) as [e He]; [lia|]. rewrite He.
  destruct (attempt <? rc - 1)%nat eqn:L.
  - apply Nat.ltb_lt in L. apply IH; try lia.
    intros a Ha. apply Hall. lia.
  - eauto.
Qed.

Lemma analyze_updates_returns (text : string) :
  exists v t,
    run (GeminiAnalyzer.analyze_updates env text) = (Ok v, t)
    /\ structured v
    /\ Forall (analyzer_event (GeminiAnalyzer._build_analysis_prompt text)) t.
Proof.
  unfold run, GeminiAnalyzer.analyze_updates, GeminiAnalyzer.analyze_updates_with.
  destruct (analyze_loop_returns text (GeminiAnalyzer._build_analysis_prompt text)
              3 3 0 []) as (v & ext & Hrun & Hv & Hext); try lia.
  exists v, ext. now rewrite Hrun.
Qed.

End Analyzer.

(** ** The analyzer: claims C2 and C3 *)

(** C2, counterexample.  The model answers with well-formed JSON whose
    [new_features] entry is the number 5: the result of [analyze_updates]
    keeps the number, so its categories are not three lists. *)
Lemma analyze_updates_categories_not_lists :
  exists d cats,
    fst (run (GeminiAnalyzer.analyze_updates (answering_env number_response)
                sample_text)) = Ok (VDict d)
    /\ Dict.lookup "categories" d = Some cats
    /\ Dict.lookup "new_features"
         (match cats with VDict c => c | _ => [] end) = Some (VInt 5)
    /\ category_lists cats = false.
Proof.
  eexists _, _. split; [vm_compute; reflexivity|].
  split; [reflexivity|]. split; reflexivity.
Qed.

(** C2, amended.  For every input text and every behaviour of the model
    (well-formed JSON, malformed JSON, exceptions), [analyze_updates]
    returns a dictionary with a [categories] entry, and the membership
    test [k in categories] holds for each of [new_features],
    [pricing_changes] and [messaging_updates]; where that entry is an
    object, the three names are keys of it.  The entries the model
    supplies are kept as they are. *)
Theorem analyze_updates_categories (env : Env) (updates_text : string) :
  exists d cats t,
    run (GeminiAnalyzer.analyze_updates env updates_text) = (Ok (VDict d), t)
    /\ Dict.lookup "categories" d = Some cats
    /\ (forall k, In k ["new_features"; "pricing_changes"; "messaging_updates"] ->
                  Py.contains k cats = Ok true)
    /\ (forall c, cats = VDict c ->
                  Dict.mem "new_features" c = true
                  /\ Dict.mem "pricing_changes" c = true
                  /\ Dict.mem "messaging_updates" c = true).
Proof.
  destruct (analyze_updates_returns env updates_text)
    as (v & t & Hrun & (d & cats & -> & Hc & Hk & _) & _).
  exists d, cats, t. repeat split; auto.
  all: intros; subst cats.
  all: match goal with
       | |- Dict.mem ?k _ = true =>
           assert (Py.contains k (VDict c) = Ok true) as X
             by (apply Hk; cbn; auto);
           cbn in X; now injection X
       end.
Qed.

(** A [categories] entry that is a text naming the three categories
    passes the membership tests of the parser and is returned as it is. *)
Example categories_text_passes :
  exists d,
    fst (run (GeminiAnalyzer.analyze_updates
                (answering_env
                   (q "{'summary': 's', 'categories': 'new_features pricing_changes messaging_updates', 'key_insights': []}"))
                sample_text)) = Ok (VDict d)
    /\ Dict.lookup "categories" d
       = Some (VStr "new_features pricing_changes messaging_updates").
Proof. eexists. split; [vm_compute; reflexivity|reflexivity]. Qed.

(** C3.  When each of the three attempts of [analyze_updates] raises,
    the result is the fallback analysis: its [summary] states the number
    of lines of the input that start with [Source:], and its
    [key_insights] has an entry that mentions manual review. *)
Theorem analyze_updates_fallback (env : Env) (updates_text : string) :
  (forall attempt, (attempt < 3)%nat -> attempt_raises env attempt updates_text) ->
  exists d t insights s,
    run (GeminiAnalyzer.analyze_updates env updates_text) = (Ok (VDict d), t)
    /\ Dict.lookup "summary" d
       = Some (VStr ("Collected "
                     ++ PyStr.of_nat
                          (List.length
                             (filter (PyStr.startswith "Source:")
                                     (PyStr.split PyStr.nl updates_text)))
                     ++ " competitor updates this week. AI analysis temporarily unavailable - manual review recommended."))
    /\ Dict.lookup "key_insights" d = Some (VList insights)
    /\ In (VStr s) insights
    /\ PyStr.contains "manual review" s = true.
Proof.
  intros Hall.
  destruct (analyze_loop_all_raise env updates_text
              (GeminiAnalyzer._build_analysis_prompt updates_text) 3 3 0 [])
    as [t Ht]; try lia.
  { intros a Ha. apply Hall. lia. }
  eexists _, t, _, _. split; [exact Ht|].
  split; [reflexivity|]. split; [reflexivity|].
  split; [left; reflexivity|reflexivity].
Qed.

Lemma analyze_updates_fallback_witness :
  (forall attempt, (attempt < 3)%nat -> attempt_raises failing_env attempt sample_text)
  /\ exists d t insights s,
       run (GeminiAnalyzer.analyze_updates failing_env sample_text) = (Ok (VDict d), t)
       /\ Dict.lookup "summary" d
          = Some (VStr ("Collected "
                        ++ PyStr.of_nat
                             (List.length
                                (filter (PyStr.startswith "Source:")
                                        (PyStr.split PyStr.nl sample_text)))
                        ++ " competitor updates this week. AI analysis temporarily unavailable - manual review recommended."))
       /\ Dict.lookup "key_insights" d = Some (VList insights)
       /\ In (VStr s) insights
       /\ PyStr.contains "manual review" s = true.
Proof.
  assert (H : forall attempt, (attempt < 3)%nat ->
                              attempt_raises failing_env attempt sample_text).
  { intros attempt _. exists (ExternalError "service unavailable"). reflexivity. }
  split; [exact H|]. exact (analyze_updates_fallback failing_env sample_text H).
Defined.

(** On the sample text the fallback counts the two lines that start
    with [Source:], not the line that has the word further in. *)
Example fallback_counts_two :
  exists d,
    fst (run (GeminiAnalyzer.analyze_updates failing_env sample_text)) = Ok (VDict d)
    /\ Dict.lookup "summary" d
       = Some (VStr "Collected 2 competitor updates this week. AI analysis temporarily unavailable - manual review recommended.").
Proof. eexists. split; [vm_compute; reflexivity|reflexivity]. Qed.

(** ** The summary of a run: claims C5 and C6 *)

Lemma generate_summary_nonempty (env : Env) (updates : list dict) :
  updates <> [] ->
  exists d t,
    structured (VDict d)
    /\ run (CompetitorAgent.generate_summary env updates)
       = (Ok (VDict (Dict.set "total_updates"
                       (VInt (Z.of_nat (List.length updates))) d)), t)
    /\ Forall (analyzer_event
                 (GeminiAnalyzer._build_analysis_prompt
                    (CompetitorAgent._format_updates_for_analysis updates))) t.
Proof.
  intros Hne.
  destruct (analyze_updates_returns env
              (CompetitorAgent._format_updates_for_analysis updates))
    as (v & t & Hrun & Hv & Ht).
  pose proof Hv as (d & cats & -> & _).
  exists d, t. split; [exact Hv|]. split; [|exact Ht].
  destruct updates as [|u us]; [congruence|].
  unfold run, CompetitorAgent.generate_summary.
  erewrite bind_ok by exact Hrun. reflexivity.
Qed.

(** C5.  The result of [generate_summary] has [total_updates] equal to
    the length of the update list; for the empty list it is the canned
    summary with a zero count, and the trace of the run is empty: the
    analyzer is not called. *)
Theorem generate_summary_total_updates (env : Env) (updates : list dict) :
  (exists d t,
      run (CompetitorAgent.generate_summary env updates) = (Ok (VDict d), t)
      /\ Dict.lookup "total_updates" d
         = Some (VInt (Z.of_nat (List.length updates))))
  /\ run (CompetitorAgent.generate_summary env [])
     = (Ok (VDict
              [("summary",
                VStr "No significant competitor updates found this week.");
               ("categories",
                VDict [("new_features", VList []);
                       ("pricing_changes", VList []);
                       ("messaging_updates", VList [])]);
               ("total_updates", VInt 0)]),
        []).
Proof.
  split; [|reflexivity].
  destruct updates as [|u us].
  - eexists _, _. split; reflexivity.
  - destruct (generate_summary_nonempty env (u :: us)) as (d & t & _ & Hrun & _);
      [discriminate|].
    eexists _, t. split; [exact Hrun|]. apply lookup_set_same.
Qed.

(** C6, counterexample.  The summary of an empty update list has no
    [key_insights], [threat_level] or [recommended_actions]; and for a
    non-empty list a threat level that the model names outside
    low/medium/high, or a category entry that is not a list, reaches the
    summary unchanged. *)
Lemma generate_summary_not_summary_model :
  (exists d,
      fst (run (CompetitorAgent.generate_summary failing_env [])) = Ok (VDict d)
      /\ Dict.mem "key_insights" d = false
      /\ Dict.mem "threat_level" d = false
      /\ Dict.mem "recommended_actions" d = false
      /\ summary_model (VDict d) = false)
  /\ (exists d,
         fst (run (CompetitorAgent.generate_summary
                     (answering_env critical_response) [sample_update]))
         = Ok (VDict d)
         /\ Dict.lookup "threat_level" d = Some (VStr "critical")
         /\ summary_model (VDict d) = false)
  /\ (exists d,
         fst (run (CompetitorAgent.generate_summary
                     (answering_env number_response) [sample_update]))
         = Ok (VDict d)
         /\ summary_model (VDict d) = false).
Proof.
  split; [|split].
  - eexists. split; [reflexivity|]. repeat split.
  - eexists. split; [vm_compute; reflexivity|]. split; reflexivity.
  - eexists. split; [vm_compute; reflexivity|]. reflexivity.
Qed.

(** C6, amended.  Every result of [generate_summary] is a dictionary
    with a [summary], a [categories] entry that holds the three category
    names, and [total_updates] equal to the number of updates; unless the
    update list is empty it also has [key_insights], [threat_level] and
    [recommended_actions]. *)
Theorem generate_summary_fields (env : Env) (updates : list dict) :
  exists d cats t,
    run (CompetitorAgent.generate_summary env updates) = (Ok (VDict d), t)
    /\ Dict.mem "summary" d = true
    /\ Dict.lookup "categories" d = Some cats
    /\ (forall k, In k ["new_features"; "pricing_changes"; "messaging_updates"] ->
                  Py.contains k cats = Ok true)
    /\ Dict.lookup "total_updates" d = Some (VInt (Z.of_nat (List.length updates)))
    /\ (updates = []
        \/ (Dict.mem "key_insights" d = true
            /\ Dict.mem "threat_level" d = true
            /\ Dict.mem "recommended_actions" d = true)).
Proof.
  destruct updates as [|u us].
  - eexists _, _, _. split; [reflexivity|].
    split; [reflexivity|]. split; [reflexivity|]. split.
    + intros k [<-|[<-|[<-|[]]]]; reflexivity.
    + split; [reflexivity|now left].
  - destruct (generate_summary_nonempty env (u :: us))
      as (d & t & (d' & cats & Hd & Hc & Hk & Hs & Hi & Ht & Hr) & Hrun & _);
      [discriminate|].
    injection Hd as <-.
    eexists _, cats, t. split; [exact Hrun|].
    split; [now apply mem_set_keeps|].
    split; [rewrite lookup_set_other by discriminate; exact Hc|].
    split; [exact Hk|].
    split; [apply lookup_set_same|].
    right. repeat split; now apply mem_set_keeps.
Qed.

(** ** The notifiers: claim C4 *)

Section Notifiers.

Variable env : Env.

(** One iteration of the loop of [send_message]. *)
Lemma send_loop_step (payload : value) (rc attempt todo : nat) (t : trace) :
  SlackNotifier.send_loop env payload rc attempt (S todo) t
  = match slack_post env attempt payload with
    | PostStatus code =>
        if code =? 200
        then (Ok true, (t ++ [EvSlackPost payload])%list)
        else SlackNotifier.send_loop env payload rc (S attempt) todo
               (t ++ [EvSlackPost payload])%list
    | PostRaises _ =>
        SlackNotifier.send_loop env payload rc (S attempt) todo
          (if (attempt <? rc - 1)%nat
           then ((t ++ [EvSlackPost payload]) ++ [EvSleep (2 ^ Z.of_nat attempt)])%list
           else (t ++ [EvSlackPost payload])%list)
    end.
Proof.
  cbn [SlackNotifier.send_loop].
  unfold SlackNotifier.post. unfold bind, try_except, emit, ret, raise.
  destruct (slack_post env attempt payload) as [e|code].
  - destruct (attempt <? rc - 1)%nat; reflexivity.
  - cbv beta iota. destruct (code =? 200); reflexivity.
Qed.

(** The loop of [send_message] ends in a boolean, whatever the POSTs
    do: an exception of a POST is caught inside the loop. *)
Lemma send_loop_returns (payload : value) (rc : nat) :
  forall todo attempt t,
  exists sent ext,
    SlackNotifier.send_loop env payload rc attempt todo t = (Ok sent, (t ++ ext)%list)
    /\ Forall slack_event ext.
Proof.
  induction todo as [|todo IH]; intros attempt t.
  - exists false, []. cbn. rewrite app_nil_r. auto.
  - rewrite send_loop_step.
    destruct (slack_post env attempt payload) as [e|code].
    + destruct (attempt <? rc - 1)%nat.
      * destruct (IH (S attempt)
                     ((t ++ [EvSlackPost payload]) ++ [EvSleep (2 ^ Z.of_nat attempt)])%list)
          as (b & ext & -> & Hext).
        exists b, ([EvSlackPost payload; EvSleep (2 ^ Z.of_nat attempt)] ++ ext)%list.
        split; [now rewrite <- !app_assoc|].
        constructor; [left; eauto|]. constructor; [right; eauto|]. exact Hext.
      * destruct (IH (S attempt) (t ++ [EvSlackPost payload])%list)
          as (b & ext & -> & Hext).
        exists b, (EvSlackPost payload :: ext).
        split; [now rewrite <- app_assoc|].
        constructor; [left; eauto|exact Hext].
    + destruct (code =? 200).
      * exists true, [EvSlackPost payload]. split; auto.
        constructor; [left; eauto|constructor].
      * destruct (IH (S attempt) (t ++ [EvSlackPost payload])%list)
          as (b & ext & -> & Hext).
        exists b, (EvSlackPost payload :: ext).
        split; [now rewrite <- app_assoc|].
        constructor; [left; eauto|exact Hext].
Qed.

Lemma send_message_returns (message : string) (t : trace) :
  exists sent ext,
    SlackNotifier.send_message env message t
    = (Ok sent, (t ++ EvSendMessage message :: ext)%list)
    /\ Forall slack_event ext.
Proof.
  unfold SlackNotifier.send_message, SlackNotifier.send_message_with, bind, emit.
  destruct (send_loop_returns (SlackNotifier.payload_of message) 3 3 0
              (t ++ [EvSendMessage message])%list) as (b & ext & -> & Hext).
  exists b, ext. split; [|exact Hext]. now rewrite <- app_assoc.
Qed.

(** One iteration of the loop of [update_page]. *)
Lemma update_loop_returns (content : value) (rc : nat) :
  forall todo attempt t,
  exists created ext,
    NotionUpdater.update_loop env content rc attempt todo t
    = (Ok created, (t ++ ext)%list).
Proof.
  induction todo as [|todo IH]; intros attempt t.
  - exists false, []. cbn. now rewrite app_nil_r.
  - cbn [NotionUpdater.update_loop].
    unfold bind at 1. unfold try_except. unfold bind at 1. unfold lift.
    destruct (NotionUpdater._build_page_content env content) as [page|e].
    + unfold bind at 1. unfold NotionUpdater.post, bind, emit, ret, raise.
      destruct (notion_post env attempt page) as [e|code].
      * destruct (attempt <? rc - 1)%nat.
        -- destruct (IH (S attempt)
                       ((t ++ [EvNotionPost page]) ++ [EvSleep (2 ^ Z.of_nat attempt)])%list)
             as (b & ext & Hrun).
           unfold bind in Hrun. rewrite Hrun.
           eexists b, _. now rewrite <- !app_assoc.
        -- destruct (IH (S attempt) (t ++ [EvNotionPost page])%list)
             as (b & ext & Hrun).
           unfold bind in Hrun. rewrite Hrun.
           eexists b, _. now rewrite <- !app_assoc.
      * destruct (code =? 200).
        -- eexists true, _. reflexivity.
        -- destruct (IH (S attempt) (t ++ [EvNotionPost page])%list)
             as (b & ext & Hrun).
           unfold bind in Hrun. rewrite Hrun.
           eexists b, _. now rewrite <- !app_assoc.
    + unfold bind, emit, ret.
      destruct (attempt <? rc - 1)%nat.
      * destruct (IH (S attempt) (t ++ [EvSleep (2 ^ Z.of_nat attempt)])%list)
          as (b & ext & Hrun).
        unfold bind in Hrun. rewrite Hrun.
        eexists b, _. now rewrite <- !app_assoc.
      * destruct (IH (S attempt) t) as (b & ext & Hrun).
        unfold bind in Hrun. rewrite Hrun. eauto.
Qed.

Lemma update_page_returns (content : value) (t : trace) :
  exists created ext,
    NotionUpdater.update_page env content t
    = (Ok created, (t ++ EvUpdatePage content :: ext)%list).
Proof.
  unfold NotionUpdater.update_page, NotionUpdater.update_page_with, bind, emit.
  destruct (update_loop_returns content 3 3 0 (t ++ [EvUpdatePage content])%list)
    as (b & ext & ->).
  exists b, ext. now rewrite <- app_assoc.
Qed.

End Notifiers.

(** C4.  When the webhook answers 500 to each of the three POSTs,
    [send_message] returns [False] and raises nothing; the run consists of
    the three POSTs, without a pause between them. *)
Theorem send_message_all_500 (env : Env) (message : string) :
  (forall attempt, (attempt < 3)%nat ->
     slack_post env attempt (SlackNotifier.payload_of message) = PostStatus 500) ->
  run (SlackNotifier.send_message env message)
  = (Ok false,
     [EvSendMessage message;
      EvSlackPost (SlackNotifier.payload_of message);
      EvSlackPost (SlackNotifier.payload_of message);
      EvSlackPost (SlackNotifier.payload_of message)]).
Proof.
  intros H.
  unfold run, SlackNotifier.send_message, SlackNotifier.send_message_with.
  unfold bind at 1. unfold emit.
  rewrite send_loop_step, (H 0%nat) by lia. cbv iota. change (500 =? 200) with false. cbv iota.
  rewrite send_loop_step, (H 1%nat) by lia. cbv iota. change (500 =? 200) with false. cbv iota.
  rewrite send_loop_step, (H 2%nat) by lia. cbv iota. change (500 =? 200) with false. cbv iota.
  reflexivity.
Qed.

Lemma send_message_all_500_witness :
  (forall attempt, (attempt < 3)%nat ->
     slack_post failing_env attempt (SlackNotifier.payload_of "report")
     = PostStatus 500)
  /\ run (SlackNotifier.send_message failing_env "report")
     = (Ok false,
        [EvSendMessage "report";
         EvSlackPost (SlackNotifier.payload_of "report");
         EvSlackPost (SlackNotifier.payload_of "report");
         EvSlackPost (SlackNotifier.payload_of "report")]).
Proof.
  assert (H : forall attempt, (attempt < 3)%nat ->
                slack_post failing_env attempt (SlackNotifier.payload_of "report")
                = PostStatus 500) by (intros; reflexivity).
  split; [exact H|]. exact (send_message_all_500 failing_env "report" H).
Defined.

Lemma slack_message_needs_dict (env : Env) (summary : value) (message : string) :
  CompetitorAgent._format_slack_message env summary = Ok message ->
  exists d, summary = VDict d.
Proof.
  unfold CompetitorAgent._format_slack_message. intros H.
  destruct summary; try discriminate H. eauto.
Qed.

Lemma notion_content_of_dict (env : Env) (d : dict) :
  exists content, CompetitorAgent._format_notion_content env (VDict d) = Ok content.
Proof. eexists. reflexivity. Qed.

(** What a run of [send_notifications] comes to: if the chat message
    cannot be formatted nothing is sent at all; otherwise [send_message]
    is invoked, returns a boolean whatever the webhook does, and
    [update_page] is invoked after it. *)
Lemma send_notifications_run (env : Env) (summary : value) :
  (exists e, CompetitorAgent._format_slack_message env summary = Raise e
             /\ run (CompetitorAgent.send_notifications env summary) = (Ok tt, []))
  \/ (exists message content posts rest,
         CompetitorAgent._format_slack_message env summary = Ok message
         /\ CompetitorAgent._format_notion_content env summary = Ok content
         /\ Forall slack_event posts
         /\ run (CompetitorAgent.send_notifications env summary)
            = (Ok tt,
               (EvSendMessage message :: posts ++ EvUpdatePage content :: rest)%list)).
Proof.
  unfold run, CompetitorAgent.send_notifications, try_except.
  destruct (CompetitorAgent._format_slack_message env summary) as [message|e] eqn:F.
  - right.
    destruct (slack_message_needs_dict _ _ _ F) as [d ->].
    destruct (notion_content_of_dict env d) as [content C].
    destruct (send_message_returns env message []) as (sent & posts & S1 & Hposts).
    destruct (update_page_returns env content ([] ++ EvSendMessage message :: posts)%list)
      as (created & rest & U1).
    exists message, content, posts, rest.
    split; [reflexivity|]. split; [exact C|]. split; [exact Hposts|].
    unfold bind at 1. unfold lift at 1.
    unfold bind at 1. rewrite S1.
    unfold bind at 1. unfold lift. rewrite C.
    unfold bind at 1. rewrite U1. unfold ret. reflexivity.
  - left. exists e. split; reflexivity.
Qed.

(** With a webhook that answers 500 to every POST the chat notifier
    fails, and the page update is attempted all the same. *)
Example update_page_after_failed_chat :
  exists message content t,
    CompetitorAgent._format_slack_message failing_env fallback_summary = Ok message
    /\ run (SlackNotifier.send_message failing_env message)
       = (Ok false, firstn 4 t)
    /\ run (CompetitorAgent.send_notifications failing_env fallback_summary) = (Ok tt, t)
    /\ nth_error t 4 = Some (EvUpdatePage content).
Proof.
  eexists _, _, _. split; [vm_compute; reflexivity|].
  split; [|split]; [| vm_compute; reflexivity |]; vm_compute; reflexivity.
Qed.

(** ** The filter: claim C1 *)

Section Filter.

Variable env : Env.

Lemma filter_step_keeps (cutoff : DateTime.datetime) (recent : list dict)
      (update : dict) :
  CompetitorAgent.filter_step env cutoff recent update
  = Ok (if keeps env cutoff update then (recent ++ [update])%list else recent).
Proof.
  unfold CompetitorAgent.filter_step, keeps, CompetitorAgent.update_date,
    DateTime.gt.
  destruct (Dict.get "date" (VStr EmptyString) update); cbn; try reflexivity.
  destruct (fromisoformat env s) as [d|]; cbn; [|reflexivity].
  destruct (DateTime.utcoffset d), (DateTime.utcoffset cutoff); cbn;
    try reflexivity.
  - destruct (_ <? _); reflexivity.
  - destruct (_ <? _); reflexivity.
Qed.

Lemma rfold_filter_step (cutoff : DateTime.datetime) (updates : list dict) :
  forall recent,
    rfold (CompetitorAgent.filter_step env cutoff) updates recent
    = Ok (recent ++ filter (keeps env cutoff) updates)%list.
Proof.
  induction updates as [|u us IH]; intros recent; cbn [rfold filter].
  - now rewrite app_nil_r.
  - rewrite filter_step_keeps. cbn [rbind]. rewrite IH.
    destruct (keeps env cutoff u); [now rewrite <- app_assoc|reflexivity].
Qed.

(** The filter keeps, in order, the updates its loop decides to keep. *)
Lemma filter_recent_updates_keeps (updates : list dict) (days : Z)
      (cutoff : DateTime.datetime) :
  DateTime.sub_days (now env) days = Ok cutoff ->
  CompetitorAgent.filter_recent_updates_with env updates days
  = Ok (filter (keeps env cutoff) updates).
Proof.
  intros H. unfold CompetitorAgent.filter_recent_updates_with.
  rewrite H. cbn [rbind]. now rewrite rfold_filter_step.
Qed.

(** For an update whose date reads as a naive value, the decision is
    the comparison of the claim: strictly later than the cutoff. *)
Lemma keeps_naive (cutoff : Z) (update : dict) (date : string) (w : Z) :
  Dict.lookup "date" update = Some (VStr date) ->
  fromisoformat env date = Some (DateTime.mk w None) ->
  keeps env (DateTime.mk cutoff None) update = (cutoff <? w).
Proof.
  intros Hd Hp. unfold keeps, CompetitorAgent.update_date, Dict.get.
  rewrite Hd, Hp. reflexivity.
Qed.

Lemma keeps_unparsable (cutoff : DateTime.datetime) (update : dict)
      (date : string) :
  Dict.lookup "date" update = Some (VStr date) ->
  fromisoformat env date = None ->
  keeps env cutoff update = true.
Proof.
  intros Hd Hp. unfold keeps, CompetitorAgent.update_date, Dict.get.
  rewrite Hd, Hp. reflexivity.
Qed.

Lemma keeps_undated (cutoff : DateTime.datetime) (update : dict) :
  Dict.lookup "date" update = None ->
  fromisoformat env EmptyString = None ->
  keeps env cutoff update = true.
Proof.
  intros Hd Hp. unfold keeps, CompetitorAgent.update_date, Dict.get.
  rewrite Hd, Hp. reflexivity.
Qed.

(** An aware date is kept whatever its age: its comparison with the
    naive cutoff raises [TypeError], which the handler of the loop
    takes for an invalid date. *)
Lemma keeps_aware (cutoff : Z) (update : dict) (date : string) (w off : Z) :
  Dict.lookup "date" update = Some (VStr date) ->
  fromisoformat env date = Some (DateTime.mk w (Some off)) ->
  keeps env (DateTime.mk cutoff None) update = true.
Proof.
  intros Hd Hp. unfold keeps, CompetitorAgent.update_date, Dict.get.
  rewrite Hd, Hp. reflexivity.
Qed.

End Filter.

(** The three cases of the 7-day window: eight days ago is dropped, one
    day ago is kept, a date that cannot be read is kept, and so is an
    update without a date. *)
Example filter_seven_day_window :
  CompetitorAgent.filter_recent_updates failing_env
    [update_8_days_ago; update_1_day_ago; update_unparsable; update_undated]
  = Ok [update_1_day_ago; update_unparsable; update_undated].
Proof. vm_compute. reflexivity. Qed.

(** C1, the failing input.  An update dated 2020-01-01T00:00:00+00:00
    reads as a valid date more than four years before the clock of the
    run, and the 7-day filter keeps it, while it drops the same date
    written without the offset. *)
Theorem filter_keeps_old_aware_update :
  (exists w off,
      DateTime.fromisoformat "2020-01-01T00:00:00+00:00"
      = Some (DateTime.mk w (Some off))
      /\ w - off < ref_now_wall - 1500 * DateTime.us_per_day)
  /\ CompetitorAgent.filter_recent_updates failing_env
       [update_2020_naive; update_2020_aware]
     = Ok [update_2020_aware].
Proof.
  split.
  - eexists _, _. split; [vm_compute; reflexivity|]. vm_compute. reflexivity.
  - vm_compute. reflexivity.
Qed.

(** ** The fenced response: claim C7 *)

Lemma backfill_category_dict (c : dict) (k : string) :
  GeminiAnalyzer.backfill_category (VDict c) k
  = Ok (VDict (Dict.setdefault k (VList []) c)).
Proof.
  unfold GeminiAnalyzer.backfill_category, Dict.setdefault.
  cbn [Py.contains rbind Py.setitem]. destruct (Dict.mem k c); reflexivity.
Qed.

Lemma clean_json_fence (pre body post : string) :
  all_space pre = true -> all_space post = true ->
  GeminiAnalyzer.clean_response (pre ++ ("```json" ++ body ++ "```") ++ post)
  = PyStr.strip body.
Proof.
  intros Hpre Hpost. unfold GeminiAnalyzer.clean_response.
  replace ("```json" ++ body ++ "```")
    with (String "`" ("``json" ++ body ++ "``") ++ String "`" EmptyString).
  2:{ cbn [append]. do 7 f_equal. rewrite append_assoc. reflexivity. }
  rewrite strip_core by (auto; reflexivity).
  replace (String "`" ("``json" ++ body ++ "``") ++ String "`" EmptyString)
    with ("```json" ++ (body ++ "```")).
  2:{ cbn [append]. do 7 f_equal. rewrite append_assoc. reflexivity. }
  rewrite startswith_append.
  change 7%nat with (String.length "```json"). rewrite drop_append.
  rewrite endswith_append.
  change 3%nat with (String.length "```"). rewrite drop_last_append.
  reflexivity.
Qed.

(** C7, counterexample.  The empty object in a [```json] fence makes the
    parser raise, and a complete object in a fence without the [json] tag
    is not decoded: the parser answers with the partial analysis, whose
    summary is not the one of the object. *)
Lemma fenced_response_not_parsed :
  (Json.loads "{}" = Some (VDict [])
   /\ GeminiAnalyzer._parse_analysis_response failing_env (json_fence "{}")
      = Raise (ValueError "Missing required key: summary"))
  /\ (exists d,
         Json.loads complete_response = Some (VDict d)
         /\ Dict.lookup "summary" d = Some (VStr "Acme launched a plan")
         /\ GeminiAnalyzer._parse_analysis_response failing_env
              (plain_fence complete_response)
            = Ok (GeminiAnalyzer._extract_partial_analysis
                    (plain_fence complete_response))
         /\ Dict.lookup "summary"
              (match GeminiAnalyzer._extract_partial_analysis
                       (plain_fence complete_response) with
               | VDict r => r
               | _ => []
               end)
            = Some (VStr "Analysis completed but summary extraction failed.")).
Proof.
  split; [split|].
  - vm_compute. reflexivity.
  - vm_compute. reflexivity.
  - eexists. split; [vm_compute; reflexivity|].
    split; [reflexivity|]. split; vm_compute; reflexivity.
Qed.

(** C7, amended.  For a response that is, up to surrounding whitespace,
    a [```json] fence around a text that decodes to a JSON object with
    the keys [summary], [categories] and [key_insights], where
    [categories] is itself an object, the parser strips the fence and
    returns the decoded object with the missing category lists
    back-filled, [threat_level] defaulting to [medium] and
    [recommended_actions] to the empty list. *)
Theorem parse_fenced_response (env : Env) (pre body post : string)
        (d cats : dict) :
  all_space pre = true -> all_space post = true ->
  json_loads env (PyStr.strip body) = Some (VDict d) ->
  Dict.mem "summary" d = true ->
  Dict.lookup "categories" d = Some (VDict cats) ->
  Dict.mem "key_insights" d = true ->
  GeminiAnalyzer._parse_analysis_response env
    (pre ++ ("```json" ++ body ++ "```") ++ post)
  = Ok (VDict (with_defaults d cats)).
Proof.
  intros Hpre Hpost Hload Hs Hc Hk.
  unfold GeminiAnalyzer._parse_analysis_response, GeminiAnalyzer.parse_body.
  rewrite clean_json_fence by assumption. rewrite Hload. cbn [rbind].
  unfold GeminiAnalyzer.required_keys, GeminiAnalyzer.category_keys.
  cbn [rfold]. unfold GeminiAnalyzer.check_required. cbn [Py.contains rbind].
  rewrite Hs. cbn [rbind].
  assert (Hm : Dict.mem "categories" d = true)
    by (apply mem_lookup; eauto).
  rewrite Hm. cbn [rbind]. rewrite Hk. cbn [rbind].
  cbn [Py.getitem]. rewrite Hc. cbn [rbind].
  rewrite backfill_category_dict. cbn [rbind].
  rewrite backfill_category_dict. cbn [rbind].
  rewrite backfill_category_dict. cbn [rbind Py.setitem Py.setdefault].
  reflexivity.
Qed.

Lemma parse_fenced_response_witness :
  exists d cats,
    (all_space " " = true /\ all_space PyStr.nl = true
     /\ json_loads failing_env (PyStr.strip (PyStr.nl ++ complete_response ++ PyStr.nl))
        = Some (VDict d)
     /\ Dict.mem "summary" d = true
     /\ Dict.lookup "categories" d = Some (VDict cats)
     /\ Dict.mem "key_insights" d = true)
    /\ GeminiAnalyzer._parse_analysis_response failing_env
         (" " ++ ("```json" ++ (PyStr.nl ++ complete_response ++ PyStr.nl) ++ "```")
              ++ PyStr.nl)
       = Ok (VDict (with_defaults d cats)).
Proof.
  eexists _, _.
  assert (H1 : all_space " " = true) by reflexivity.
  assert (H2 : all_space PyStr.nl = true) by reflexivity.
  assert (H3 : json_loads failing_env
                 (PyStr.strip (PyStr.nl ++ complete_response ++ PyStr.nl))
               = Some (VDict
                         [("summary", VStr "Acme launched a plan");
                          ("categories",
                           VDict [("pricing_changes", VList [VStr "New plan"])]);
                          ("key_insights", VList [VStr "Watch Acme"])]))
    by (vm_compute; reflexivity).
  split.
  - split; [exact H1|]. split; [exact H2|]. split; [exact H3|].
    split; [reflexivity|]. split; reflexivity.
  - exact (parse_fenced_response failing_env " "
             (PyStr.nl ++ complete_response ++ PyStr.nl) PyStr.nl _ _
             H1 H2 H3 eq_refl eq_refl eq_refl).
Defined.

(** The object of the witness after the parser: the two missing category
    lists and the two optional fields are filled in. *)
Example parse_fenced_response_value :
  GeminiAnalyzer._parse_analysis_response failing_env
    (json_fence complete_response)
  = Ok (VDict
          [("summary", VStr "Acme launched a plan");
           ("categories",
            VDict [("pricing_changes", VList [VStr "New plan"]);
                   ("new_features", VList []);
                   ("messaging_updates", VList [])]);
           ("key_insights", VList [VStr "Watch Acme"]);
           ("threat_level", VStr "medium");
           ("recommended_actions", VList [])]).
Proof. vm_compute. reflexivity. Qed.

(** ** The salvaged summary: claim C8 *)

Lemma first_summary_line_found (lines : list string) (s : string) :
  GeminiAnalyzer.first_summary_line lines = Some s ->
  exists i line,
    nth_error lines i = Some line
    /\ GeminiAnalyzer.summary_like (PyStr.strip line) = true
    /\ (forall j l, (j < i)%nat -> nth_error lines j = Some l ->
                    GeminiAnalyzer.summary_like (PyStr.strip l) = false)
    /\ s = PyStr.take 300 (PyStr.strip line).
Proof.
  induction lines as [|x lines IH]; cbn [GeminiAnalyzer.first_summary_line];
    [discriminate|].
  destruct (GeminiAnalyzer.summary_like (PyStr.strip x)) eqn:E.
  - intros H. injection H as <-. exists 0%nat, x. repeat split; auto.
    intros j l Hj. lia.
  - intros H. destruct (IH H) as (i & line & Hn & Hl & Hb & Hs).
    exists (S i), line. repeat split; auto.
    intros [|j] l Hj Hnth; cbn in Hnth.
    + now injection Hnth as <-.
    + eapply Hb; eauto. lia.
Qed.

Lemma first_summary_line_none (lines : list string) :
  GeminiAnalyzer.first_summary_line lines = None ->
  forall j l, nth_error lines j = Some l ->
              GeminiAnalyzer.summary_like (PyStr.strip l) = false.
Proof.
  induction lines as [|x lines IH]; cbn [GeminiAnalyzer.first_summary_line].
  - intros _ [|j] l H; discriminate H.
  - destruct (GeminiAnalyzer.summary_like (PyStr.strip x)) eqn:E; [discriminate|].
    intros H [|j] l Hnth; cbn in Hnth.
    + now injection Hnth as <-.
    + eapply IH; eauto.
Qed.

Lemma nth_error_firstn_some {A} (n i : nat) (l : list A) (x : A) :
  nth_error (firstn n l) i = Some x -> (i < n)%nat /\ nth_error l i = Some x.
Proof.
  revert i l. induction n as [|n IH]; intros i l H.
  - destruct i; discriminate H.
  - destruct l as [|y l]; [destruct i; discriminate H|].
    destruct i as [|i]; cbn in H |- *.
    + split; [lia|exact H].
    + destruct (IH _ _ H). split; [lia|assumption].
Qed.

Lemma nth_error_firstn_lt {A} (n i : nat) (l : list A) :
  (i < n)%nat -> nth_error (firstn n l) i = nth_error l i.
Proof.
  revert i l. induction n as [|n IH]; intros i l H; [lia|].
  destruct l as [|y l]; [now destruct i|].
  destruct i as [|i]; cbn; [reflexivity|]. apply IH. lia.
Qed.

(** C8, counterexample.  Neither text is JSON.  In the first the line
    that qualifies is the eleventh, which the code does not look at: the
    summary is the fixed message.  In the second the line is indented:
    the summary is the line without its indentation. *)
Lemma salvaged_summary_not_first_line :
  (Json.loads (GeminiAnalyzer.clean_response eleven_lines) = None
   /\ claimed_summary eleven_lines = Some qualifying_line
   /\ GeminiAnalyzer._parse_analysis_response failing_env eleven_lines
      = Ok (VDict [("summary",
                    VStr "Analysis completed but summary extraction failed.");
                   ("categories", GeminiAnalyzer.empty_categories);
                   ("key_insights", VList []);
                   ("threat_level", VStr "medium");
                   ("recommended_actions", VList [])]))
  /\ (Json.loads (GeminiAnalyzer.clean_response indented_line) = None
      /\ claimed_summary indented_line = Some ("    " ++ qualifying_line)
      /\ GeminiAnalyzer._parse_analysis_response failing_env indented_line
         = Ok (VDict [("summary", VStr qualifying_line);
                      ("categories", GeminiAnalyzer.empty_categories);
                      ("key_insights", VList []);
                      ("threat_level", VStr "medium");
                      ("recommended_actions", VList [])])).
Proof.
  split; (split; [vm_compute; reflexivity|]); split; vm_compute; reflexivity.
Qed.

(** C8, amended.  For a response that fails JSON decoding the result has
    empty category lists, no key insights, no recommended actions and the
    threat level [medium]; its summary comes from the first ten lines of
    the raw text: it is the first of them that, stripped of surrounding
    whitespace, is longer than 50 characters and contains [update] or
    [competitor] in any case, stripped and cut to 300 characters, and the
    fixed message when none of the ten qualifies. *)
Theorem parse_failure_salvages_summary (env : Env) (response_text : string) :
  json_loads env (GeminiAnalyzer.clean_response response_text) = None ->
  exists summary,
    GeminiAnalyzer._parse_analysis_response env response_text
    = Ok (VDict [("summary", VStr summary);
                 ("categories",
                  VDict [("new_features", VList []);
                         ("pricing_changes", VList []);
                         ("messaging_updates", VList [])]);
                 ("key_insights", VList []);
                 ("threat_level", VStr "medium");
                 ("recommended_actions", VList [])])
    /\ let lines := PyStr.split PyStr.nl response_text in
       let qualifies line :=
         ((50 <? String.length (PyStr.strip line))%nat
          && (PyStr.contains "update" (PyStr.lower (PyStr.strip line))
              || PyStr.contains "competitor" (PyStr.lower (PyStr.strip line))))%bool in
       (exists i line,
           (i < 10)%nat
           /\ nth_error lines i = Some line
           /\ qualifies line = true
           /\ (forall j l, (j < i)%nat -> nth_error lines j = Some l ->
                           qualifies l = false)
           /\ summary = PyStr.take 300 (PyStr.strip line))
       \/ ((forall j l, (j < 10)%nat -> nth_error lines j = Some l ->
                        qualifies l = false)
           /\ summary = "Analysis completed but summary extraction failed.").
Proof.
  intros Hload.
  unfold GeminiAnalyzer._parse_analysis_response, GeminiAnalyzer.parse_body.
  rewrite Hload. cbn [rbind is_JSONDecodeError].
  exists (GeminiAnalyzer._extract_summary_fallback response_text).
  split; [reflexivity|].
  cbv zeta. unfold GeminiAnalyzer._extract_summary_fallback.
  destruct (GeminiAnalyzer.first_summary_line
              (firstn 10 (PyStr.split PyStr.nl response_text))) as [s|] eqn:E.
  - left. apply first_summary_line_found in E
      as (i & line & Hn & Hl & Hb & ->).
    apply nth_error_firstn_some in Hn as [Hi Hn].
    exists i, line. repeat split; auto.
    intros j l Hj Hnth. apply (Hb j l Hj).
    rewrite nth_error_firstn_lt by lia. exact Hnth.
  - right. split; [|reflexivity].
    intros j l Hj Hnth.
    apply (first_summary_line_none _ E j l).
    rewrite nth_error_firstn_lt by lia. exact Hnth.
Qed.

Lemma parse_failure_salvages_summary_witness :
  json_loads failing_env (GeminiAnalyzer.clean_response indented_line) = None
  /\ exists summary,
       GeminiAnalyzer._parse_analysis_response failing_env indented_line
       = Ok (VDict [("summary", VStr summary);
                    ("categories",
                     VDict [("new_features", VList []);
                            ("pricing_changes", VList []);
                            ("messaging_updates", VList [])]);
                    ("key_insights", VList []);
                    ("threat_level", VStr "medium");
                    ("recommended_actions", VList [])])
       /\ let lines := PyStr.split PyStr.nl indented_line in
          let qualifies line :=
            ((50 <? String.length (PyStr.strip line))%nat
             && (PyStr.contains "update" (PyStr.lower (PyStr.strip line))
                 || PyStr.contains "competitor" (PyStr.lower (PyStr.strip line))))%bool in
          (exists i line,
              (i < 10)%nat
              /\ nth_error lines i = Some line
              /\ qualifies line = true
              /\ (forall j l, (j < i)%nat -> nth_error lines j = Some l ->
                              qualifies l = false)
              /\ summary = PyStr.take 300 (PyStr.strip line))
          \/ ((forall j l, (j < 10)%nat -> nth_error lines j = Some l ->
                           qualifies l = false)
              /\ summary = "Analysis completed but summary extraction failed.").
Proof.
  assert (H : json_loads failing_env (GeminiAnalyzer.clean_response indented_line)
              = None) by (vm_compute; reflexivity).
  split; [exact H|].
  exact (parse_failure_salvages_summary failing_env indented_line H).
Defined.

(** ** The prompt and the fallback count: claim C10 *)

Lemma take_take (n : nat) (s : string) :
  PyStr.take n (PyStr.take n s) = PyStr.take n s.
Proof.
  revert s. induction n as [|n IH]; intros s; [reflexivity|].
  destruct s as [|c s]; cbn; [reflexivity|]. now rewrite IH.
Qed.

Lemma length_take (n : nat) (s : string) :
  (String.length (PyStr.take n s) <= n)%nat.
Proof.
  revert s. induction n as [|n IH]; intros s; [cbn; lia|].
  destruct s as [|c s]; cbn; [lia|]. specialize (IH s). lia.
Qed.

Lemma count_source_lines_append (a b : string) :
  GeminiAnalyzer.count_source_lines (a ++ PyStr.nl ++ b)
  = (GeminiAnalyzer.count_source_lines a + GeminiAnalyzer.count_source_lines b)%nat.
Proof.
  unfold GeminiAnalyzer.count_source_lines.
  now rewrite split_append, filter_app, length_app.
Qed.

Lemma append_cancel_l (p a b : string) : p ++ a = p ++ b -> a = b.
Proof.
  induction p as [|c p IH]; cbn; [auto|].
  intros H. injection H as H. auto.
Qed.

Lemma append_cancel_r (a b t : string) : a ++ t = b ++ t -> a = b.
Proof.
  intros H.
  assert (L : String.length a = String.length b).
  { apply (f_equal String.length) in H. rewrite !length_append in H. lia. }
  revert b H L. induction a as [|x a IH]; intros [|y b] H L; cbn in L;
    try discriminate L; [reflexivity|].
  cbn in H. injection H as -> H. f_equal. apply IH; [exact H|lia].
Qed.

(** The events of a run of [analyze_updates]. *)
Lemma analyze_updates_trace (env : Env) (updates_text : string) :
  exists analysis failed,
    (failed <= 2)%nat
    /\ run (GeminiAnalyzer.analyze_updates env updates_text)
       = (Ok analysis,
          (retries (GeminiAnalyzer._build_analysis_prompt updates_text) 0 failed
           ++ [EvGenerate (GeminiAnalyzer._build_analysis_prompt updates_text)])%list).
Proof.
  set (p := GeminiAnalyzer._build_analysis_prompt updates_text).
  unfold run, GeminiAnalyzer.analyze_updates, GeminiAnalyzer.analyze_updates_with.
  fold p. rewrite analyze_loop_step.
  destruct (fst (run (GeminiAnalyzer.attempt_body env 0 p))) as [v0|e0];
    [exists v0, 0%nat; split; [lia|reflexivity]|].
  change (0 <? 3 - 1)%nat with true. cbv iota. rewrite analyze_loop_step.
  destruct (fst (run (GeminiAnalyzer.attempt_body env 1 p))) as [v1|e1];
    [exists v1, 1%nat; split; [lia|reflexivity]|].
  change (1 <? 3 - 1)%nat with true. cbv iota. rewrite analyze_loop_step.
  destruct (fst (run (GeminiAnalyzer.attempt_body env 2 p))) as [v2|e2];
    [exists v2, 2%nat; split; [lia|reflexivity]|].
  change (2 <? 3 - 1)%nat with false. cbv iota.
  eexists _, 2%nat. split; [lia|reflexivity].
Qed.

(** C10.  The prompt is the fixed instructions around the first 8000
    characters of the text (the whole text when it is shorter): it
    begins with the instructions up to [COMPETITOR UPDATES:], goes on
    with those characters and ends with the format request.  Two texts
    have the same prompt exactly when their first 8000 characters are the
    same, so those characters are all in the prompt and nothing beyond
    them is.  Every run of [analyze_updates] calls the model, and each of
    its calls carries that prompt.  The count of the fallback runs over
    the whole text: after any text, a further part adds its own
    [Source:] lines to the count, wherever the part begins. *)
Theorem prompt_truncated_fallback_full (env : Env) (updates_text : string) :
  GeminiAnalyzer._build_analysis_prompt updates_text
  = GeminiAnalyzer.prompt_head ++ PyStr.take 8000 updates_text
    ++ GeminiAnalyzer.prompt_tail
  /\ PyStr.endswith ("COMPETITOR UPDATES:" ++ PyStr.nl) GeminiAnalyzer.prompt_head
     = true
  /\ PyStr.startswith ("  " ++ PyStr.nl ++ PyStr.nl ++ "Please provide your analysis")
       GeminiAnalyzer.prompt_tail = true
  /\ String.length (PyStr.take 8000 updates_text)
     = Nat.min 8000 (String.length updates_text)
  /\ (forall other,
         GeminiAnalyzer._build_analysis_prompt other
         = GeminiAnalyzer._build_analysis_prompt updates_text
         <-> PyStr.take 8000 other = PyStr.take 8000 updates_text)
  /\ (exists analysis failed,
         (failed <= 2)%nat
         /\ run (GeminiAnalyzer.analyze_updates env updates_text)
            = (Ok analysis,
               (retries (GeminiAnalyzer.prompt_head ++ PyStr.take 8000 updates_text
                         ++ GeminiAnalyzer.prompt_tail) 0 failed
                ++ [EvGenerate
                      (GeminiAnalyzer.prompt_head ++ PyStr.take 8000 updates_text
                       ++ GeminiAnalyzer.prompt_tail)])%list))
  /\ (forall more,
         let source_lines text :=
           List.length (filter (PyStr.startswith "Source:")
                               (PyStr.split PyStr.nl text)) in
         Dict.lookup "summary"
           (match GeminiAnalyzer._get_fallback_analysis
                    (updates_text ++ PyStr.nl ++ more) with
            | VDict d => d
            | _ => []
            end)
         = Some (VStr ("Collected "
                       ++ PyStr.of_nat (source_lines updates_text + source_lines more)
                       ++ " competitor updates this week. AI analysis temporarily unavailable - manual review recommended."))).
Proof.
  split; [reflexivity|].
  split; [vm_compute; reflexivity|].
  split; [vm_compute; reflexivity|].
  split.
  { generalize 8000%nat. intros n. revert updates_text.
    induction n as [|n IH]; intros s; [reflexivity|].
    destruct s as [|c s]; cbn; [reflexivity|]. now rewrite IH. }
  split; [|split].
  - intros other. unfold GeminiAnalyzer._build_analysis_prompt. split.
    + intros H. apply append_cancel_l in H. now apply append_cancel_r in H.
    + now intros ->.
  - exact (analyze_updates_trace env updates_text).
  - intros more. cbv zeta.
    unfold GeminiAnalyzer._get_fallback_analysis.
    rewrite count_source_lines_append. reflexivity.
Qed.

(** A line added after 8000 characters is absent from the prompt and
    present in the count of the fallback. *)
Example late_source_line :
  let text := filler 8000 in
  let longer := text ++ PyStr.nl ++ "Source: late" in
  GeminiAnalyzer._build_analysis_prompt longer
  = GeminiAnalyzer._build_analysis_prompt text
  /\ GeminiAnalyzer.count_source_lines text = 0%nat
  /\ GeminiAnalyzer.count_source_lines longer = 1%nat.
Proof.
  cbv zeta. split; [|split].
  - unfold GeminiAnalyzer._build_analysis_prompt.
    replace (PyStr.take 8000 (filler 8000 ++ PyStr.nl ++ "Source: late"))
      with (PyStr.take 8000 (filler 8000)) by (vm_compute; reflexivity).
    reflexivity.
  - vm_compute. reflexivity.
  - vm_compute. reflexivity.
Qed.

(** ** Runs of the library models *)

Example strip_ex : PyStr.strip "  ab c  " = "ab c". Proof. reflexivity. Qed.
Example loads_ex1 :
  Json.loads (q " {'a': [1, -20, 3.5e2, true, null], 'b': {'c': 'x\ny'}, 'a': 'z'} ")
  = Some (VDict [("a", VStr "z"); ("b", VDict [("c", VStr ("x" ++ PyStr.nl ++ "y"))])]).
Proof. vm_compute. reflexivity. Qed.
Example loads_ex2 : Json.loads "[1,]" = None /\ Json.loads (q "{'a':1,}") = None
  /\ Json.loads "01" = None /\ Json.loads EmptyString = None /\ Json.loads "[1] x" = None
  /\ Json.loads "hello" = None /\ Json.loads "-0" = Some (VInt 0)
  /\ Json.loads "[[],{}]" = Some (VList [VList []; VDict []])
  /\ Json.loads (q "'a\u00e9\'b'") = Some (VStr (q ("a" ++ String (ascii_of_nat 233) "'b"))).
Proof. vm_compute. repeat split. Qed.
Example iso_ex1 :
  DateTime.fromisoformat "2024-03-01T10:30:00"
  = Some (DateTime.mk 63844885800000000 None)
  /\ DateTime.fromisoformat "0001-01-01" = Some (DateTime.mk 0 None)
  /\ DateTime.fromisoformat "9999-12-31T23:59:59.999999"
     = Some (DateTime.mk (DateTime.max_wall - 1) None)
  /\ DateTime.fromisoformat "2024-03-01T10:30:00+05:30"
     = Some (DateTime.mk 63844885800000000 (Some 19800000000))
  /\ DateTime.fromisoformat "March 1, 2024" = None
  /\ DateTime.fromisoformat "3/1/2024" = None
  /\ DateTime.fromisoformat "2023-02-29" = None
  /\ DateTime.fromisoformat EmptyString = None.
Proof. vm_compute. repeat split. Qed.
Example ref_now_ex :
  DateTime.fromisoformat "2024-03-15T09:00:00" = Some (DateTime.mk ref_now_wall None).
Proof. vm_compute. reflexivity. Qed.

Example split_ex :
  PyStr.split "," "a,,b," = ["a"; EmptyString; "b"; EmptyString]
  /\ PyStr.split "ab" "xabyababz" = ["x"; "y"; EmptyString; "z"]
  /\ PyStr.split "," EmptyString = [EmptyString].
Proof. repeat split. Qed.

Example replace_ex : PyStr.replace "**" EmptyString "a**b***c" = "ab*c".
Proof. reflexivity. Qed.

Example of_Z_ex :
  PyStr.of_Z 120 = "120" /\ PyStr.of_Z 0 = "0" /\ PyStr.of_Z (-7) = "-7".
Proof. repeat split. Qed.

Example lower_ex : PyStr.lower "UpDate Z@[" = "update z@[".
Proof. reflexivity. Qed.

Example repr_ex :
  Render.repr (VDict [("a", VList [VInt 1; VNone; VBool true; VStr "x"])])
  = "{'a': [1, None, True, 'x']}"
  /\ Render.repr (VStr "it's")
     = String Json.dquote ("it's" ++ String Json.dquote EmptyString).
Proof. vm_compute. repeat split. Qed.

(* ===================================================================== *)
(** * Further properties *)
(* ===================================================================== *)

(** ** The retry loops of the notifiers *)

Lemma answers_200_status (o : post_outcome) :
  answers_200 o = true <-> o = PostStatus 200.
Proof.
  destruct o as [e|code]; cbn; split; intros H; try discriminate.
  - apply Z.eqb_eq in H. now subst.
  - injection H as ->. reflexivity.
Qed.

Lemma send_loop_zero (env : Env) (payload : value) (rc attempt : nat) (t : trace) :
  SlackNotifier.send_loop env payload rc attempt 0 t = (Ok false, t).
Proof. reflexivity. Qed.

(** X1.  [send_message] returns [True] exactly when one of its three POSTs
    answers 200, and it makes no POST after the one that does: the POSTs
    of the run are as many as the attempts up to the first 200, or three
    when there is none. *)
Theorem send_message_true_iff_200 (env : Env) (message : string) :
  exists sent t,
    run (SlackNotifier.send_message env message) = (Ok sent, t)
    /\ (sent = true <->
        exists attempt, (attempt < 3)%nat
          /\ slack_post env attempt (SlackNotifier.payload_of message)
             = PostStatus 200)
    /\ List.length (filter is_post_event t)
       = (if answers_200 (slack_post env 0 (SlackNotifier.payload_of message))
          then 1
          else if answers_200 (slack_post env 1 (SlackNotifier.payload_of message))
               then 2 else 3)%nat.
Proof.
  set (p := SlackNotifier.payload_of message).
  unfold run, SlackNotifier.send_message, SlackNotifier.send_message_with.
  unfold bind at 1. unfold emit. fold p.
  rewrite send_loop_step.
  destruct (slack_post env 0 p) as [e0|c0] eqn:P0.
  2: destruct (c0 =? 200) eqn:C0.
  2:{ eexists _, _. split; [reflexivity|]. split.
      - split; [intros _|reflexivity]. exists 0%nat. split; [lia|].
        apply Z.eqb_eq in C0. now subst.
      - cbn. rewrite C0. reflexivity. }
  all: rewrite send_loop_step.
  all: destruct (slack_post env 1 p) as [e1|c1] eqn:P1.
  all: try destruct (c1 =? 200) eqn:C1.
  all: try (eexists _, _; split; [reflexivity|]; split;
            [ split; [intros _|reflexivity]; exists 1%nat; split; [lia|];
              apply Z.eqb_eq in C1; now subst
            | cbn -[Z.eqb]; rewrite ?C0, ?C1; reflexivity ]).
  all: rewrite send_loop_step.
  all: destruct (slack_post env 2 p) as [e2|c2] eqn:P2.
  all: try destruct (c2 =? 200) eqn:C2.
  all: try (eexists _, _; split; [reflexivity|]; split;
            [ split; [intros _|reflexivity]; exists 2%nat; split; [lia|];
              apply Z.eqb_eq in C2; now subst
            | cbn -[Z.eqb]; rewrite ?C0, ?C1; reflexivity ]).
  all: rewrite send_loop_zero.
  all: eexists _, _; split; [reflexivity|]; split;
    [ split; [discriminate|];
      intros (a & Ha & H200);
      assert (a = 0 \/ a = 1 \/ a = 2)%nat as [ -> | [ -> | -> ] ] by lia;
      rewrite H200 in *; try discriminate;
      match goal with
      | H : PostStatus 200 = PostStatus ?c, E : (?c =? 200) = false |- _ =>
          injection H as <-; discriminate E
      end
    | cbn -[Z.eqb]; rewrite ?C0, ?C1; reflexivity ].
Qed.

(** X2.  When each of the three POSTs raises, [send_message] returns
    [False] after pausing one second after the first failure and two
    seconds after the second, and not after the last. *)
Theorem send_message_backoff (env : Env) (message : string) :
  (forall attempt, (attempt < 3)%nat ->
     exists e, slack_post env attempt (SlackNotifier.payload_of message)
               = PostRaises e) ->
  run (SlackNotifier.send_message env message)
  = (Ok false,
     [EvSendMessage message;
      EvSlackPost (SlackNotifier.payload_of message); EvSleep 1;
      EvSlackPost (SlackNotifier.payload_of message); EvSleep 2;
      EvSlackPost (SlackNotifier.payload_of message)]).
Proof.
  intros H.
  destruct (H 0%nat) as [e0 H0]; [lia|].
  destruct (H 1%nat) as [e1 H1]; [lia|].
  destruct (H 2%nat) as [e2 H2]; [lia|].
  unfold run, SlackNotifier.send_message, SlackNotifier.send_message_with.
  unfold bind at 1. unfold emit.
  rewrite send_loop_step, H0. rewrite send_loop_step, H1.
  rewrite send_loop_step, H2. reflexivity.
Qed.

Lemma send_message_backoff_witness :
  (forall attempt, (attempt < 3)%nat ->
     exists e,
       slack_post (ref_env (GenText "x") (PostRaises (ExternalError "timeout"))
                           (PostStatus 200))
                  attempt (SlackNotifier.payload_of "report")
       = PostRaises e)
  /\ run (SlackNotifier.send_message
            (ref_env (GenText "x") (PostRaises (ExternalError "timeout"))
                     (PostStatus 200))
            "report")
     = (Ok false,
        [EvSendMessage "report";
         EvSlackPost (SlackNotifier.payload_of "report"); EvSleep 1;
         EvSlackPost (SlackNotifier.payload_of "report"); EvSleep 2;
         EvSlackPost (SlackNotifier.payload_of "report")]).
Proof.
  assert (H : forall attempt, (attempt < 3)%nat ->
     exists e,
       slack_post (ref_env (GenText "x") (PostRaises (ExternalError "timeout"))
                           (PostStatus 200))
                  attempt (SlackNotifier.payload_of "report")
       = PostRaises e) by (intros; eexists; reflexivity).
  split; [exact H|]. exact (send_message_backoff _ "report" H).
Defined.

(** One iteration of the loop of [update_page]. *)
Lemma update_loop_step (env : Env) (content : value) (rc attempt todo : nat)
      (t : trace) :
  NotionUpdater.update_loop env content rc attempt (S todo) t
  = match NotionUpdater._build_page_content env content with
    | Raise _ =>
        NotionUpdater.update_loop env content rc (S attempt) todo
          (if (attempt <? rc - 1)%nat
           then (t ++ [EvSleep (2 ^ Z.of_nat attempt)])%list else t)
    | Ok page =>
        match notion_post env attempt page with
        | PostStatus code =>
            if code =? 200
            then (Ok true, (t ++ [EvNotionPost page])%list)
            else NotionUpdater.update_loop env content rc (S attempt) todo
                   (t ++ [EvNotionPost page])%list
        | PostRaises _ =>
            NotionUpdater.update_loop env content rc (S attempt) todo
              (if (attempt <? rc - 1)%nat
               then ((t ++ [EvNotionPost page]) ++ [EvSleep (2 ^ Z.of_nat attempt)])%list
               else (t ++ [EvNotionPost page])%list)
        end
    end.
Proof.
  cbn [NotionUpdater.update_loop].
  unfold NotionUpdater.post. unfold bind, try_except, lift, emit, ret, raise.
  destruct (NotionUpdater._build_page_content env content) as [page|e].
  - destruct (notion_post env attempt page) as [e|code].
    + destruct (attempt <? rc - 1)%nat; reflexivity.
    + cbv beta iota. destruct (code =? 200); reflexivity.
  - destruct (attempt <? rc - 1)%nat; reflexivity.
Qed.

Lemma build_page_needs_categories_object (env : Env) (d : dict) (cats : value) :
  Dict.lookup "categories" d = Some cats ->
  (forall c, cats <> VDict c) ->
  NotionUpdater._build_page_content env (VDict d) = Raise AttributeError.
Proof.
  intros Hc Hn. unfold NotionUpdater._build_page_content.
  cbn [Py.get rbind]. unfold Dict.get. rewrite Hc.
  unfold NotionUpdater.category_section at 1.
  destruct cats; cbn [Py.get rbind]; try reflexivity.
  now destruct (Hn d0).
Qed.

(** X3.  A page content whose [categories] entry is not an object cannot
    be built: [update_page] makes no POST at all, pauses one and two
    seconds between its three attempts and returns [False]. *)
Theorem update_page_without_categories_object (env : Env) (d : dict)
        (cats : value) :
  Dict.lookup "categories" d = Some cats ->
  (forall c, cats <> VDict c) ->
  run (NotionUpdater.update_page env (VDict d))
  = (Ok false, [EvUpdatePage (VDict d); EvSleep 1; EvSleep 2]).
Proof.
  intros Hc Hn.
  pose proof (build_page_needs_categories_object env d cats Hc Hn) as B.
  unfold run, NotionUpdater.update_page, NotionUpdater.update_page_with.
  unfold bind at 1. unfold emit.
  rewrite update_loop_step, B. rewrite update_loop_step, B.
  rewrite update_loop_step, B. reflexivity.
Qed.

Lemma update_page_without_categories_object_witness :
  (Dict.lookup "categories"
     [("title", VStr "Week"); ("summary", VStr "s"); ("total_updates", VInt 1);
      ("categories", VStr "new_features pricing_changes messaging_updates")]
   = Some (VStr "new_features pricing_changes messaging_updates")
   /\ (forall c, VStr "new_features pricing_changes messaging_updates" <> VDict c))
  /\ run (NotionUpdater.update_page failing_env content_with_text_categories)
     = (Ok false,
        [EvUpdatePage content_with_text_categories; EvSleep 1; EvSleep 2]).
Proof.
  assert (H1 : Dict.lookup "categories"
     [("title", VStr "Week"); ("summary", VStr "s"); ("total_updates", VInt 1);
      ("categories", VStr "new_features pricing_changes messaging_updates")]
   = Some (VStr "new_features pricing_changes messaging_updates")) by reflexivity.
  assert (H2 : forall c, VStr "new_features pricing_changes messaging_updates"
                         <> VDict c) by (intros c; discriminate).
  split; [split; [exact H1|exact H2]|].
  exact (update_page_without_categories_object failing_env _ _ H1 H2).
Defined.

Lemma update_loop_zero (env : Env) (content : value) (rc attempt : nat) (t : trace) :
  NotionUpdater.update_loop env content rc attempt 0 t = (Ok false, t).
Proof. reflexivity. Qed.

(** X4.  For a content that can be built, [update_page] returns [True]
    exactly when one of its three POSTs of the page answers 200. *)
Theorem update_page_true_iff_200 (env : Env) (content page : value) :
  NotionUpdater._build_page_content env content = Ok page ->
  exists created t,
    run (NotionUpdater.update_page env content) = (Ok created, t)
    /\ (created = true <->
        exists attempt, (attempt < 3)%nat
          /\ notion_post env attempt page = PostStatus 200).
Proof.
  intros B.
  unfold run, NotionUpdater.update_page, NotionUpdater.update_page_with.
  unfold bind at 1. unfold emit.
  rewrite update_loop_step, B.
  destruct (notion_post env 0 page) as [e0|c0] eqn:P0.
  2: destruct (c0 =? 200) eqn:C0.
  2:{ eexists _, _. split; [reflexivity|].
      split; [intros _|reflexivity]. exists 0%nat. split; [lia|].
      apply Z.eqb_eq in C0. now subst. }
  all: rewrite update_loop_step, B.
  all: destruct (notion_post env 1 page) as [e1|c1] eqn:P1.
  all: try destruct (c1 =? 200) eqn:C1.
  all: try (eexists _, _; split; [reflexivity|];
            split; [intros _|reflexivity]; exists 1%nat; split; [lia|];
            apply Z.eqb_eq in C1; now subst).
  all: rewrite update_loop_step, B.
  all: destruct (notion_post env 2 page) as [e2|c2] eqn:P2.
  all: try destruct (c2 =? 200) eqn:C2.
  all: try (eexists _, _; split; [reflexivity|];
            split; [intros _|reflexivity]; exists 2%nat; split; [lia|];
            apply Z.eqb_eq in C2; now subst).
  all: rewrite update_loop_zero.
  all: eexists _, _; split; [reflexivity|];
    split; [discriminate|];
    intros (a & Ha & H200);
    assert (a = 0 \/ a = 1 \/ a = 2)%nat as [ -> | [ -> | -> ] ] by lia;
    rewrite H200 in *; try discriminate;
    match goal with
    | H : PostStatus 200 = PostStatus ?c, E : (?c =? 200) = false |- _ =>
        injection H as <-; discriminate E
    end.
Qed.

Lemma update_page_true_iff_200_witness :
  exists page,
    NotionUpdater._build_page_content (answering_env "x") fallback_summary = Ok page
    /\ exists created t,
         run (NotionUpdater.update_page (answering_env "x") fallback_summary)
         = (Ok created, t)
         /\ (created = true <->
             exists attempt, (attempt < 3)%nat
               /\ notion_post (answering_env "x") attempt page = PostStatus 200).
Proof.
  eexists.
  assert (H : NotionUpdater._build_page_content (answering_env "x") fallback_summary
              = Ok _) by (vm_compute; reflexivity).
  split; [exact H|].
  exact (update_page_true_iff_200 (answering_env "x") fallback_summary _ H).
Defined.

(** ** The page of the document notifier *)

Lemma length_chars (s : string) : List.length (PySeq.chars s) = String.length s.
Proof. induction s as [|c s IH]; cbn; [reflexivity|now rewrite IH]. Qed.

Lemma slice_first_length (n : nat) (v : value) (shown : list value) :
  PySeq.slice_first n v = Ok shown -> (List.length shown <= n)%nat.
Proof.
  destruct v; cbn; try discriminate; intros H; injection H as <-.
  - rewrite length_chars. apply length_take.
  - rewrite length_firstn. lia.
Qed.

Lemma category_blocks_children (title : string) (items : value)
      (blocks : list value) :
  Py.truthy items = true ->
  NotionUpdater._build_category_blocks title items = Ok blocks ->
  (List.length blocks <= 11)%nat /\ Forall page_child blocks.
Proof.
  intros Ht. unfold NotionUpdater._build_category_blocks. rewrite Ht.
  intros H. rstep H. injection H as <-.
  apply slice_first_length in E. split.
  - cbn [List.length]. rewrite length_map. lia.
  - constructor.
    + right. exists "heading_3", title. split; [reflexivity|]. auto.
    + apply Forall_forall. intros b Hb.
      apply in_map_iff in Hb as (item & <- & _).
      right. eexists _, _. split; [reflexivity|].
      right. right. left. split; [reflexivity|].
      exact (length_take 2000 (Render.str item)).
Qed.

Lemma category_section_children (categories : value) (key title : string)
      (children children' : list value) :
  NotionUpdater.category_section categories key title children = Ok children' ->
  exists blocks,
    children' = (children ++ blocks)%list
    /\ (List.length blocks <= 11)%nat
    /\ Forall page_child blocks.
Proof.
  unfold NotionUpdater.category_section. intros H. rstep H.
  destruct (Py.truthy a) eqn:T.
  - rstep H. rstep H. injection H as <-.
    assert (a0 = a) as ->.
    { destruct categories; try discriminate E.
      cbn in E, E0. unfold Dict.get in E.
      destruct (Dict.lookup key d); [|discriminate E0].
      injection E as <-. now injection E0 as <-. }
    exists a1. split; [reflexivity|].
    eapply category_blocks_children; eauto.
  - injection H as <-. exists []. rewrite app_nil_r.
    split; [reflexivity|]. split; [cbn; lia|constructor].
Qed.

(** X5.  A page that [_build_page_content] builds has between 4 and 37
    blocks; each is the divider, a heading, a bullet whose text has at
    most 2000 characters, or one of the two paragraphs of the count and
    of the generation time.  In particular the paragraph [No updates in
    this category this week.] of [_build_category_blocks] is never on a
    page. *)
Theorem page_blocks_bounded (env : Env) (content page : value) :
  NotionUpdater._build_page_content env content = Ok page ->
  exists d children,
    page = VDict d
    /\ Dict.lookup "children" d = Some (VList children)
    /\ (4 <= List.length children <= 37)%nat
    /\ Forall page_child children
    /\ ~ In (NotionUpdater.text_block "paragraph"
               "No updates in this category this week.") children.
Proof.
  unfold NotionUpdater._build_page_content. intros H.
  rstep H. rstep H. rstep H. rstep H. rstep H. rstep H. rstep H.
  injection H as <-.
  apply category_section_children in E3 as (b1 & -> & L1 & F1).
  apply category_section_children in E4 as (b2 & -> & L2 & F2).
  apply category_section_children in E5 as (b3 & -> & L3 & F3).
  eexists _, _. split; [reflexivity|]. split; [reflexivity|].
  assert (F : Forall page_child
                (((([NotionUpdater.text_block "heading_2" "Executive Summary";
                      NotionUpdater.text_block "paragraph"
                        ("Total Updates: " ++ Render.str a2
                         ++ PyStr.nl ++ PyStr.nl ++ Render.str a0)]
                     ++ b1) ++ b2) ++ b3)
                  ++ [NotionUpdater.divider_block;
                      NotionUpdater.text_block "paragraph"
                        ("Generated on: "
                         ++ strftime_now env "%Y-%m-%d %H:%M:%S" ++ " UTC")])%list).
  { repeat (apply Forall_app; split); auto.
    - constructor.
      + right. eexists _, _. split; [reflexivity|]. auto.
      + constructor; [|constructor].
        right. eexists _, _. split; [reflexivity|].
        right. right. right. split; [reflexivity|]. left.
        apply (startswith_append "Total Updates: ").
    - constructor; [now left|]. constructor; [|constructor].
      right. eexists _, _. split; [reflexivity|].
      right. right. right. split; [reflexivity|]. right.
      apply (startswith_append "Generated on: "). }
  split; [|split; [exact F|]].
  - rewrite !length_app. cbn [List.length]. lia.
  - intros Hin. rewrite Forall_forall in F. specialize (F _ Hin).
    destruct F as [F|(type & text & F & K)]; [discriminate F|].
    unfold NotionUpdater.text_block in F.
    injection F as F1' F2' F3'. subst type text.
    destruct K as [K|[K|[[K _]|[_ [K|K]]]]]; discriminate K.
Qed.

Lemma page_blocks_bounded_witness :
  exists page,
    NotionUpdater._build_page_content failing_env fallback_summary = Ok page
    /\ exists d children,
         page = VDict d
         /\ Dict.lookup "children" d = Some (VList children)
         /\ (4 <= List.length children <= 37)%nat
         /\ Forall page_child children
         /\ ~ In (NotionUpdater.text_block "paragraph"
                    "No updates in this category this week.") children.
Proof.
  eexists.
  assert (H : NotionUpdater._build_page_content failing_env fallback_summary
              = Ok _) by (vm_compute; reflexivity).
  split; [exact H|].
  exact (page_blocks_bounded failing_env fallback_summary _ H).
Defined.

(** ** The collection of updates *)

Section Collection.

Variable world : World.

Lemma collect_step_run (all_updates : list dict) (source : Source.t) (t : trace) :
  CompetitorAgentExt.collect_step world all_updates source t
  = (Ok (all_updates ++ contribution world source)%list,
     (t ++ collect_pauses world [source])%list).
Proof.
  unfold CompetitorAgentExt.collect_step, contribution, collect_pauses, try_except.
  cbn [flat_map]. rewrite app_nil_r.
  destruct (CompetitorAgentExt.fetch world source) as [[updates|e]|];
    cbn; now rewrite ?app_nil_r.
Qed.

Lemma collect_loop_run (sources : list Source.t) :
  forall all_updates t,
    CompetitorAgentExt.collect_loop world sources all_updates t
    = (Ok (all_updates ++ flat_map (contribution world) sources)%list,
       (t ++ collect_pauses world sources)%list).
Proof.
  induction sources as [|s rest IH]; intros all_updates t.
  - cbn. now rewrite !app_nil_r.
  - cbn [CompetitorAgentExt.collect_loop]. unfold bind.
    rewrite collect_step_run, IH. cbn [flat_map].
    unfold collect_pauses. cbn [flat_map]. rewrite app_nil_r.
    now rewrite <- !app_assoc.
Qed.

Lemma contribution_tagged (source : Source.t) (update : dict) :
  In update (contribution world source) ->
  Dict.lookup "source" update = Some (Source.name source)
  /\ Dict.lookup "source_type" update = Some (Source.type source).
Proof.
  unfold contribution.
  destruct (CompetitorAgentExt.fetch world source) as [[updates|e]|];
    try (intros []).
  intros H. apply in_map_iff in H as (u & <- & _).
  unfold CompetitorAgentExt.tag. split.
  - rewrite lookup_set_other by discriminate. apply lookup_set_same.
  - apply lookup_set_same.
Qed.

End Collection.

(** X6.  [collect_updates] raises nothing and returns, in the order of
    the sources, what each source contributes: the tagged updates of a
    source that was fetched, nothing for a source whose collector raises
    or whose type is unknown; such a source leaves the updates of the
    others as they are.  The run pauses one second after each source that
    was fetched and not after the others. *)
Theorem collect_updates_by_source (world : World) (sources : list Source.t) :
  run (CompetitorAgentExt.collect_updates world sources)
  = (Ok (flat_map
           (fun source =>
              match CompetitorAgentExt.fetch world source with
              | Some (Ok updates) => map (CompetitorAgentExt.tag source) updates
              | _ => []
              end) sources),
     flat_map
       (fun source =>
          match CompetitorAgentExt.fetch world source with
          | Some (Ok _) => [EvSleep 1]
          | _ => []
          end) sources).
Proof.
  unfold run, CompetitorAgentExt.collect_updates.
  rewrite collect_loop_run. reflexivity.
Qed.

(** X7.  Every update that [collect_updates] returns carries, under
    [source] and [source_type], the name and the type of one of the
    configured sources, whatever the collector had put there. *)
Theorem collected_updates_tagged (world : World) (sources : list Source.t)
        (updates : list dict) (t : trace) (update : dict) :
  run (CompetitorAgentExt.collect_updates world sources) = (Ok updates, t) ->
  In update updates ->
  exists source,
    In source sources
    /\ Dict.lookup "source" update = Some (Source.name source)
    /\ Dict.lookup "source_type" update = Some (Source.type source).
Proof.
  unfold run, CompetitorAgentExt.collect_updates.
  rewrite collect_loop_run. intros H Hin. injection H as <- _.
  cbn [app] in Hin. apply in_flat_map in Hin as (source & Hs & Hu).
  exists source. split; [exact Hs|]. now apply (contribution_tagged world).
Qed.

Lemma collected_updates_tagged_witness :
  exists updates t update,
    (run (CompetitorAgentExt.collect_updates sample_world sample_sources)
     = (Ok updates, t)
     /\ In update updates)
    /\ exists source,
         In source sample_sources
         /\ Dict.lookup "source" update = Some (Source.name source)
         /\ Dict.lookup "source_type" update = Some (Source.type source).
Proof.
  eexists _, _, _.
  assert (H1 : run (CompetitorAgentExt.collect_updates sample_world sample_sources)
               = (Ok [CompetitorAgentExt.tag
                        (Source.mk (VStr "Acme") (VStr "https://acme.example/blog")
                                   (VStr "website") VNone) update_1_day_ago;
                      CompetitorAgentExt.tag
                        (Source.mk (VStr "Acme") (VStr "https://acme.example/blog")
                                   (VStr "website") VNone) update_8_days_ago],
                  [EvSleep 1])) by (vm_compute; reflexivity).
  assert (H2 : In (CompetitorAgentExt.tag
                     (Source.mk (VStr "Acme") (VStr "https://acme.example/blog")
                                (VStr "website") VNone) update_1_day_ago)
                  [CompetitorAgentExt.tag
                     (Source.mk (VStr "Acme") (VStr "https://acme.example/blog")
                                (VStr "website") VNone) update_1_day_ago;
                   CompetitorAgentExt.tag
                     (Source.mk (VStr "Acme") (VStr "https://acme.example/blog")
                                (VStr "website") VNone) update_8_days_ago])
    by (left; reflexivity).
  split; [split; [exact H1|exact H2]|].
  exact (collected_updates_tagged sample_world sample_sources _ _ _ H1 H2).
Defined.

(** X8.  Sources of the types [twitter] and [linkedin] give no update,
    whatever their urls: a collection over such sources returns the empty
    list, and still pauses one second for each of them. *)
Theorem social_sources_give_nothing (world : World) (sources : list Source.t) :
  (forall source, In source sources ->
     Source.type source = VStr "twitter" \/ Source.type source = VStr "linkedin") ->
  run (CompetitorAgentExt.collect_updates world sources)
  = (Ok [], repeat (EvSleep 1) (List.length sources)).
Proof.
  intros H. unfold run, CompetitorAgentExt.collect_updates.
  rewrite collect_loop_run. cbn [app].
  induction sources as [|s rest IH]; [reflexivity|].
  assert (F : CompetitorAgentExt.fetch world s = Some (Ok [])).
  { unfold CompetitorAgentExt.fetch, SocialMediaParser.parse_social.
    destruct (H s (or_introl eq_refl)) as [-> | ->]; reflexivity. }
  specialize (IH (fun x Hx => H x (or_intror Hx))).
  injection IH as I1 I2.
  unfold collect_pauses. cbn [flat_map List.length repeat].
  unfold contribution at 1. rewrite F. cbn [map app].
  unfold collect_pauses in I2. rewrite I1, I2. reflexivity.
Qed.

Lemma social_sources_give_nothing_witness :
  (forall source, In source social_sources ->
     Source.type source = VStr "twitter" \/ Source.type source = VStr "linkedin")
  /\ run (CompetitorAgentExt.collect_updates sample_world social_sources)
     = (Ok [], repeat (EvSleep 1) (List.length social_sources)).
Proof.
  assert (H : forall source, In source social_sources ->
     Source.type source = VStr "twitter" \/ Source.type source = VStr "linkedin").
  { intros s [<-|[<-|[]]]; [left|right]; reflexivity. }
  split; [exact H|]. exact (social_sources_give_nothing sample_world _ H).
Defined.

(** ** The configuration of the sources *)

Lemma load_step_entry (sources : list Source.t) (entry : value) :
  match entry_source entry with
  | Some source =>
      CompetitorAgentExt.load_step sources entry = Ok (sources ++ [source])%list
  | None => exists e, CompetitorAgentExt.load_step sources entry = Raise e
  end.
Proof.
  unfold entry_source, CompetitorAgentExt.load_step.
  destruct entry; cbn [Py.getitem rbind]; eauto.
  destruct (Dict.lookup "name" d); cbn [rbind]; eauto.
  destruct (Dict.lookup "url" d); cbn [rbind]; eauto.
  destruct (Dict.lookup "type" d); cbn [rbind Py.get]; eauto.
Qed.

Lemma load_steps_entries (entries : list value) :
  forall sources,
    match entry_sources entries with
    | Some loaded =>
        rfold CompetitorAgentExt.load_step entries sources
        = Ok (sources ++ loaded)%list
    | None =>
        exists e, rfold CompetitorAgentExt.load_step entries sources = Raise e
    end.
Proof.
  induction entries as [|entry rest IH]; intros sources; cbn [entry_sources rfold].
  - now rewrite app_nil_r.
  - pose proof (load_step_entry sources entry) as H.
    destruct (entry_source entry) as [source|].
    + rewrite H. cbn [rbind]. specialize (IH (sources ++ [source])%list).
      destruct (entry_sources rest) as [loaded|].
      * rewrite IH. now rewrite <- app_assoc.
      * exact IH.
    + destruct H as [e ->]. cbn [rbind]. eauto.
Qed.

Lemma load_steps_not_list (v : value) :
  (forall l, v <> VList l) ->
  match (let? entries := PyIter.iterate v in
         rfold CompetitorAgentExt.load_step entries []) with
  | Ok sources => sources = []
  | Raise _ => True
  end.
Proof.
  intros H. destruct v; cbn [PyIter.iterate rbind]; auto.
  - destruct s as [|c s]; cbn [PySeq.chars rfold]; [reflexivity|].
    cbn. exact I.
  - now destruct (H l).
  - destruct d as [|[k x] d]; cbn [map rfold]; [reflexivity|].
    cbn. exact I.
Qed.

(** X9.  [_load_sources] is all or nothing.  It returns the sources of
    the configuration, one per entry and in order, only when the file can
    be opened, decodes to an object whose [sources] entry is a list, and
    each entry of that list is an object with a [name], a [url] and a
    [type] ([selectors] being optional); in every other case, among them
    a single entry without one of the three keys, it returns the empty
    list. *)
Theorem load_sources_all_or_nothing (env : Env) (world : World) :
  CompetitorAgentExt._load_sources env world
  = match sources_file world with
    | Some text =>
        match json_loads env text with
        | Some (VDict d) =>
            match Dict.lookup "sources" d with
            | Some (VList entries) =>
                match entry_sources entries with
                | Some sources => sources
                | None => []
                end
            | _ => []
            end
        | _ => []
        end
    | None => []
    end.
Proof.
  unfold CompetitorAgentExt._load_sources, CompetitorAgentExt.load_body.
  destruct (sources_file world) as [text|]; cbn [rbind]; [|reflexivity].
  destruct (json_loads env text) as [data|]; cbn [rbind]; [|reflexivity].
  destruct data; cbn [Py.getitem rbind]; try reflexivity.
  destruct (Dict.lookup "sources" d) as [v|]; cbn [rbind]; [|reflexivity].
  destruct v.
  1-5, 7: match goal with
          | |- context [PyIter.iterate ?v] =>
              pose proof (load_steps_not_list v) as H;
              destruct (let? entries := PyIter.iterate v in
                        rfold CompetitorAgentExt.load_step entries []);
              [apply H; intros; discriminate|reflexivity]
          end.
  cbn [PyIter.iterate rbind].
  pose proof (load_steps_entries l []) as H.
  destruct (entry_sources l) as [sources|].
  - now rewrite H.
  - destruct H as [e ->]. reflexivity.
Qed.

(** The configuration of the sample world gives its two sources; without
    the url of the second it gives none. *)
Example load_sources_sample :
  CompetitorAgentExt._load_sources failing_env sample_world = sample_sources
  /\ CompetitorAgentExt._load_sources failing_env
       {| scrape_website := scrape_website sample_world;
          parse_feed := parse_feed sample_world;
          sources_file :=
            Some (q "{'sources': [{'name': 'Acme', 'url': 'https://acme.example/blog', 'type': 'website'}, {'name': 'Bolt', 'type': 'rss'}]}");
          exn_text := exn_text sample_world |}
     = [].
Proof. split; vm_compute; reflexivity. Qed.

(** ** The category of one update *)

(** X10.  [categorize_single_update] calls the model once, raises
    nothing, and returns one of the four category names: the answer of
    the model, stripped of surrounding whitespace and in lower case,
    when that is one of the three known categories, and [other] in every
    other case: an answer that is none of the three, and an exception of
    the model. *)
Theorem categorize_single_update_total (env : Env) (update_text : string) :
  run (GeminiAnalyzerExt.categorize_single_update env update_text)
  = (Ok (match generate_content env 0
                 (GeminiAnalyzerExt.category_prompt update_text) with
         | GenText text =>
             let answer := PyStr.lower (PyStr.strip text) in
             if (String.eqb answer "new_features"
                 || String.eqb answer "pricing_changes"
                 || String.eqb answer "messaging_updates")%bool
             then answer else "other"
         | GenRaises _ => "other"
         end),
     [EvGenerate (GeminiAnalyzerExt.category_prompt update_text)])
  /\ (forall category t,
         run (GeminiAnalyzerExt.categorize_single_update env update_text)
         = (Ok category, t) ->
         In category
            ["new_features"; "pricing_changes"; "messaging_updates"; "other"]).
Proof.
  assert (R : run (GeminiAnalyzerExt.categorize_single_update env update_text)
  = (Ok (match generate_content env 0
                 (GeminiAnalyzerExt.category_prompt update_text) with
         | GenText text =>
             let answer := PyStr.lower (PyStr.strip text) in
             if (String.eqb answer "new_features"
                 || String.eqb answer "pricing_changes"
                 || String.eqb answer "messaging_updates")%bool
             then answer else "other"
         | GenRaises _ => "other"
         end),
     [EvGenerate (GeminiAnalyzerExt.category_prompt update_text)])).
  { unfold run, GeminiAnalyzerExt.categorize_single_update, try_except,
      GeminiAnalyzer.generate, bind, emit, raise, ret.
    destruct (generate_content env 0 (GeminiAnalyzerExt.category_prompt update_text))
      as [e|text]; cbn [app]; [reflexivity|].
    unfold GeminiAnalyzerExt.known_categories. cbn [existsb]. cbv zeta.
    rewrite orb_false_r, orb_assoc.
    destruct (_ || _ || _)%bool; reflexivity. }
  split; [exact R|].
  intros category t H. rewrite R in H. injection H as <- _.
  destruct (generate_content env 0 (GeminiAnalyzerExt.category_prompt update_text))
    as [e|text]; [cbn; auto|]. cbv zeta.
  destruct (String.eqb (PyStr.lower (PyStr.strip text)) "new_features") eqn:E1;
    [apply String.eqb_eq in E1; rewrite E1; cbn; auto|].
  destruct (String.eqb (PyStr.lower (PyStr.strip text)) "pricing_changes") eqn:E2;
    [apply String.eqb_eq in E2; rewrite E2; cbn; auto|].
  destruct (String.eqb (PyStr.lower (PyStr.strip text)) "messaging_updates") eqn:E3;
    [apply String.eqb_eq in E3; rewrite E3; cbn; auto|].
  cbn. auto 6.
Qed.

Example categorize_ignores_case_and_space :
  fst (run (GeminiAnalyzerExt.categorize_single_update
              (answering_env (" Pricing_Changes " ++ PyStr.nl)) "New plan"))
  = Ok "pricing_changes"
  /\ fst (run (GeminiAnalyzerExt.categorize_single_update
                 (answering_env "pricing changes") "New plan"))
     = Ok "other".
Proof. split; vm_compute; reflexivity. Qed.

(** ** The weekly run *)

Section Run.

Variable env : Env.

Lemma update_loop_events (content : value) (rc : nat) :
  forall todo attempt t,
  exists created ext,
    NotionUpdater.update_loop env content rc attempt todo t
    = (Ok created, (t ++ ext)%list)
    /\ Forall notion_event ext.
Proof.
  induction todo as [|todo IH]; intros attempt t.
  - exists false, []. cbn. rewrite app_nil_r. auto.
  - rewrite update_loop_step.
    destruct (NotionUpdater._build_page_content env content) as [page|e].
    + destruct (notion_post env attempt page) as [e|code].
      * destruct (attempt <? rc - 1)%nat.
        -- destruct (IH (S attempt)
                       ((t ++ [EvNotionPost page]) ++ [EvSleep (2 ^ Z.of_nat attempt)])%list)
             as (b & ext & -> & Hext).
           exists b, ([EvNotionPost page; EvSleep (2 ^ Z.of_nat attempt)] ++ ext)%list.
           split; [now rewrite <- !app_assoc|].
           constructor; [left; eauto|]. constructor; [right; eauto|]. exact Hext.
        -- destruct (IH (S attempt) (t ++ [EvNotionPost page])%list)
             as (b & ext & -> & Hext).
           exists b, (EvNotionPost page :: ext).
           split; [now rewrite <- app_assoc|].
           constructor; [left; eauto|exact Hext].
      * destruct (code =? 200).
        -- exists true, [EvNotionPost page]. split; auto.
           constructor; [left; eauto|constructor].
        -- destruct (IH (S attempt) (t ++ [EvNotionPost page])%list)
             as (b & ext & -> & Hext).
           exists b, (EvNotionPost page :: ext).
           split; [now rewrite <- app_assoc|].
           constructor; [left; eauto|exact Hext].
    + destruct (attempt <? rc - 1)%nat.
      * destruct (IH (S attempt) (t ++ [EvSleep (2 ^ Z.of_nat attempt)])%list)
          as (b & ext & -> & Hext).
        exists b, (EvSleep (2 ^ Z.of_nat attempt) :: ext).
        split; [now rewrite <- app_assoc|].
        constructor; [right; eauto|exact Hext].
      * apply IH.
Qed.

Lemma update_page_events (content : value) (t : trace) :
  exists created ext,
    NotionUpdater.update_page env content t
    = (Ok created, (t ++ EvUpdatePage content :: ext)%list)
    /\ Forall notion_event ext.
Proof.
  unfold NotionUpdater.update_page, NotionUpdater.update_page_with, bind, emit.
  destruct (update_loop_events content 3 3 0 (t ++ [EvUpdatePage content])%list)
    as (b & ext & -> & Hext).
  exists b, ext. split; [now rewrite <- app_assoc|exact Hext].
Qed.

(** [send_notifications] from any trace. *)
Lemma send_notifications_from (summary : value) (t : trace) :
  (exists e, CompetitorAgent._format_slack_message env summary = Raise e
             /\ CompetitorAgent.send_notifications env summary t = (Ok tt, t))
  \/ (exists message content posts rest,
         CompetitorAgent._format_slack_message env summary = Ok message
         /\ CompetitorAgent._format_notion_content env summary = Ok content
         /\ Forall slack_event posts
         /\ Forall notion_event rest
         /\ CompetitorAgent.send_notifications env summary t
            = (Ok tt,
               (t ++ EvSendMessage message :: posts
                  ++ EvUpdatePage content :: rest)%list)).
Proof.
  unfold CompetitorAgent.send_notifications, try_except.
  destruct (CompetitorAgent._format_slack_message env summary) as [message|e] eqn:F.
  - right.
    destruct (slack_message_needs_dict _ _ _ F) as [d ->].
    destruct (notion_content_of_dict env d) as [content C].
    destruct (send_message_returns env message t) as (sent & posts & S1 & Hposts).
    destruct (update_page_events content (t ++ EvSendMessage message :: posts)%list)
      as (created & rest & U1 & Hrest).
    exists message, content, posts, rest.
    split; [reflexivity|]. split; [exact C|]. split; [exact Hposts|].
    split; [exact Hrest|].
    unfold bind at 1. unfold lift at 1.
    unfold bind at 1. rewrite S1.
    unfold bind at 1. unfold lift. rewrite C.
    unfold bind at 1. rewrite U1. unfold ret.
    now rewrite <- app_assoc.
  - left. exists e. split; reflexivity.
Qed.

(** [generate_summary] from any trace. *)
Lemma generate_summary_from (updates : list dict) (t : trace) :
  exists summary ext,
    CompetitorAgent.generate_summary env updates t = (Ok summary, (t ++ ext)%list)
    /\ Forall (fun e => is_send_message e = false) ext
    /\ (updates = [] ->
        summary = CompetitorAgent.no_updates_summary /\ ext = []).
Proof.
  destruct updates as [|u us].
  - exists CompetitorAgent.no_updates_summary, []. cbn.
    rewrite app_nil_r. auto.
  - unfold CompetitorAgent.generate_summary, GeminiAnalyzer.analyze_updates,
      GeminiAnalyzer.analyze_updates_with.
    destruct (analyze_loop_returns env
                (CompetitorAgent._format_updates_for_analysis (u :: us))
                (GeminiAnalyzer._build_analysis_prompt
                   (CompetitorAgent._format_updates_for_analysis (u :: us)))
                3 3 0 t) as (v & ext & Hrun & (d & cats & -> & _) & Hext);
      try lia.
    eexists _, ext. split; [|split].
    + unfold bind. rewrite Hrun. reflexivity.
    + eapply Forall_impl; [|exact Hext].
      intros e [->|[s ->]]; reflexivity.
    + discriminate.
Qed.

End Run.

Lemma filter_in_range (env : Env) (updates : list dict) :
  clock_in_range env ->
  CompetitorAgent.filter_recent_updates env updates
  = Ok (filter (keeps env (DateTime.mk (now_wall env - 7 * DateTime.us_per_day) None))
               updates).
Proof.
  intros [H1 H2]. unfold CompetitorAgent.filter_recent_updates.
  apply filter_recent_updates_keeps.
  unfold DateTime.sub_days, now. cbn [DateTime.wall DateTime.utcoffset].
  change (Z.abs 7 <=? 999999999) with true. cbv iota.
  assert ((0 <=? now_wall env - 7 * DateTime.us_per_day) = true) as ->
    by (apply Z.leb_le; lia).
  assert ((now_wall env - 7 * DateTime.us_per_day <? DateTime.max_wall) = true) as ->
    by (apply Z.ltb_lt; lia).
  reflexivity.
Qed.

Lemma filter_out_of_range (env : Env) (updates : list dict) :
  ~ clock_in_range env ->
  CompetitorAgent.filter_recent_updates env updates = Raise OverflowError.
Proof.
  intros H. unfold CompetitorAgent.filter_recent_updates,
    CompetitorAgent.filter_recent_updates_with, DateTime.sub_days, now.
  cbn [DateTime.wall DateTime.utcoffset].
  change (Z.abs 7 <=? 999999999) with true. cbv iota.
  destruct (0 <=? now_wall env - 7 * DateTime.us_per_day) eqn:A;
    [|reflexivity].
  destruct (now_wall env - 7 * DateTime.us_per_day <? DateTime.max_wall) eqn:B;
    [|reflexivity].
  apply Z.leb_le in A. apply Z.ltb_lt in B.
  exfalso. apply H. unfold clock_in_range. lia.
Qed.

Lemma report_starts_with_title (env : Env) (summary : value) (message : string) :
  CompetitorAgent._format_slack_message env summary = Ok message ->
  exists rest, message = report_title ++ PyStr.nl ++ PyStr.nl ++ rest.
Proof.
  unfold CompetitorAgent._format_slack_message. intros H.
  rstep H. rstep H. rstep H. rstep H. rstep H. rstep H.
  injection H as <-. eexists.
  unfold report_title. rewrite !append_assoc. reflexivity.
Qed.

Lemma filter_none {A} (f : A -> bool) (l : list A) :
  Forall (fun x => f x = false) l -> filter f l = [].
Proof.
  induction l as [|x l IH]; [reflexivity|].
  intros H. inversion H as [|? ? Hx Hl]; subst. cbn. rewrite Hx. auto.
Qed.

(** X11.  On a clock that leaves room for the 7-day window, a weekly run
    raises nothing and sends at most one chat message, the weekly report:
    no failure of a collector, of the model or of a notifier brings the
    failure alert to the chat. *)
Theorem weekly_run_sends_only_the_report (env : Env) (world : World)
        (sources : list Source.t) :
  clock_in_range env ->
  exists t,
    run (CompetitorAgentExt.run_weekly_analysis env world sources) = (Ok tt, t)
    /\ (List.length (filter is_send_message t) <= 1)%nat
    /\ (forall message, In (EvSendMessage message) t ->
          PyStr.startswith "🔍 **Weekly Competitor Intelligence Report**" message
          = true).
Proof.
  intros Hclock.
  unfold run, CompetitorAgentExt.run_weekly_analysis, try_except.
  unfold bind at 1. unfold CompetitorAgentExt.collect_updates.
  rewrite collect_loop_run. cbn [app].
  unfold bind at 1. unfold lift. rewrite filter_in_range by exact Hclock.
  set (recent := filter _ _).
  set (pauses := collect_pauses world sources).
  destruct (generate_summary_from env recent pauses)
    as (summary & ext & G & Hext & _).
  unfold bind at 1. rewrite G.
  assert (Hp : Forall (fun e => is_send_message e = false) (pauses ++ ext)%list).
  { apply Forall_app. split; [|exact Hext].
    unfold pauses, collect_pauses. apply Forall_forall. intros e He.
    apply in_flat_map in He as (s & _ & He).
    destruct (CompetitorAgentExt.fetch world s) as [[us|x]|];
      cbn in He; try contradiction.
    destruct He as [<-|[]]. reflexivity. }
  assert (Hf : filter is_send_message (pauses ++ ext)%list = []).
  { now apply filter_none. }
  destruct (send_notifications_from env summary (pauses ++ ext)%list)
    as [(e & F & S)|(message & content & posts & rest & F & C & Hposts & Hrest & S)];
    rewrite S.
  - eexists. split; [reflexivity|]. split.
    + rewrite Hf. cbn. lia.
    + intros m Hm. rewrite Forall_forall in Hp.
      specialize (Hp _ Hm). discriminate Hp.
  - eexists. split; [reflexivity|].
    assert (Hposts' : Forall (fun e => is_send_message e = false) posts).
    { eapply Forall_impl; [|exact Hposts].
      intros e [[p ->]|[s ->]]; reflexivity. }
    assert (Hrest' : Forall (fun e => is_send_message e = false) rest).
    { eapply Forall_impl; [|exact Hrest].
      intros e [[p ->]|[s ->]]; reflexivity. }
    split.
    + rewrite filter_app, Hf. cbn [app filter is_send_message].
      rewrite filter_app. cbn [filter is_send_message].
      rewrite (filter_none _ posts Hposts'), (filter_none _ rest Hrest').
      cbn. lia.
    + intros m Hm. apply in_app_or in Hm as [Hm|Hm].
      * rewrite Forall_forall in Hp. specialize (Hp _ Hm). discriminate Hp.
      * destruct Hm as [Hm|Hm].
        -- injection Hm as <-.
           destruct (report_starts_with_title _ _ _ F) as [r ->].
           apply (startswith_append report_title).
        -- apply in_app_or in Hm as [Hm|Hm].
           ++ rewrite Forall_forall in Hposts'.
              specialize (Hposts' _ Hm). discriminate Hposts'.
           ++ destruct Hm as [Hm|Hm]; [discriminate Hm|].
              rewrite Forall_forall in Hrest'.
              specialize (Hrest' _ Hm). discriminate Hrest'.
Qed.

Lemma weekly_run_sends_only_the_report_witness :
  clock_in_range failing_env
  /\ exists t,
       run (CompetitorAgentExt.run_weekly_analysis failing_env sample_world
              sample_sources) = (Ok tt, t)
       /\ (List.length (filter is_send_message t) <= 1)%nat
       /\ (forall message, In (EvSendMessage message) t ->
             PyStr.startswith "🔍 **Weekly Competitor Intelligence Report**" message
             = true).
Proof.
  assert (H : clock_in_range failing_env) by (unfold clock_in_range, failing_env, ref_env, ref_now_wall,
        DateTime.max_wall, DateTime.us_per_day; cbn [now_wall]; lia).
  split; [exact H|].
  exact (weekly_run_sends_only_the_report failing_env sample_world sample_sources H).
Defined.

(** The run on a clock in range, for the proofs below. *)
Lemma weekly_run_in_range (env : Env) (world : World)
        (sources : list Source.t) :
  clock_in_range env ->
  exists t,
    run (CompetitorAgentExt.run_weekly_analysis env world sources) = (Ok tt, t)
    /\ (List.length (filter is_send_message t) <= 1)%nat
    /\ (forall message, In (EvSendMessage message) t ->
          PyStr.startswith "🔍 **Weekly Competitor Intelligence Report**" message
          = true).
Proof.
  intros Hclock.
  unfold run, CompetitorAgentExt.run_weekly_analysis, try_except.
  unfold bind at 1. unfold CompetitorAgentExt.collect_updates.
  rewrite collect_loop_run. cbn [app].
  unfold bind at 1. unfold lift. rewrite filter_in_range by exact Hclock.
  set (recent := filter _ _).
  set (pauses := collect_pauses world sources).
  destruct (generate_summary_from env recent pauses)
    as (summary & ext & G & Hext & _).
  unfold bind at 1. rewrite G.
  assert (Hp : Forall (fun e => is_send_message e = false) (pauses ++ ext)%list).
  { apply Forall_app. split; [|exact Hext].
    unfold pauses, collect_pauses. apply Forall_forall. intros e He.
    apply in_flat_map in He as (s & _ & He).
    destruct (CompetitorAgentExt.fetch world s) as [[us|x]|];
      cbn in He; try contradiction.
    destruct He as [<-|[]]. reflexivity. }
  assert (Hf : filter is_send_message (pauses ++ ext)%list = []).
  { now apply filter_none. }
  destruct (send_notifications_from env summary (pauses ++ ext)%list)
    as [(e & F & S)|(message & content & posts & rest & F & C & Hposts & Hrest & S)];
    rewrite S.
  - eexists. split; [reflexivity|]. split.
    + rewrite Hf. cbn. lia.
    + intros m Hm. rewrite Forall_forall in Hp.
      specialize (Hp _ Hm). discriminate Hp.
  - eexists. split; [reflexivity|].
    assert (Hposts' : Forall (fun e => is_send_message e = false) posts).
    { eapply Forall_impl; [|exact Hposts].
      intros e [[p ->]|[s ->]]; reflexivity. }
    assert (Hrest' : Forall (fun e => is_send_message e = false) rest).
    { eapply Forall_impl; [|exact Hrest].
      intros e [[p ->]|[s ->]]; reflexivity. }
    split.
    + rewrite filter_app, Hf. cbn [app filter is_send_message].
      rewrite filter_app. cbn [filter is_send_message].
      rewrite (filter_none _ posts Hposts'), (filter_none _ rest Hrest').
      cbn. lia.
    + intros m Hm. apply in_app_or in Hm as [Hm|Hm].
      * rewrite Forall_forall in Hp. specialize (Hp _ Hm). discriminate Hp.
      * destruct Hm as [Hm|Hm].
        -- injection Hm as <-.
           destruct (report_starts_with_title _ _ _ F) as [r ->].
           apply (startswith_append report_title).
        -- apply in_app_or in Hm as [Hm|Hm].
           ++ rewrite Forall_forall in Hposts'.
              specialize (Hposts' _ Hm). discriminate Hposts'.
           ++ destruct Hm as [Hm|Hm]; [discriminate Hm|].
              rewrite Forall_forall in Hrest'.
              specialize (Hrest' _ Hm). discriminate Hrest'.
Qed.

Lemma report_is_no_alert (message : string) :
  PyStr.startswith "🔍 **Weekly Competitor Intelligence Report**" message = true ->
  PyStr.startswith "⚠️ Competitor monitoring failed: " message = false.
Proof.
  destruct message as [|c m]; [discriminate|].
  cbn [PyStr.startswith]. intros H.
  apply andb_true_iff in H as [H _]. apply Ascii.eqb_eq in H. subst c.
  reflexivity.
Qed.

(** X12.  A weekly run raises nothing, whatever the collectors, the
    model, the web services and the clock do.  The failure alert is sent
    in one case only, that the cutoff of the 7-day window cannot be
    computed: on a clock in range no chat message of the run is the
    alert (each is the weekly report), and on a clock out of range the
    run, after the collection, sends the alert with the text of the
    overflow and nothing else. *)
Theorem weekly_run_never_raises (env : Env) (world : World)
        (sources : list Source.t) :
  exists t,
    run (CompetitorAgentExt.run_weekly_analysis env world sources) = (Ok tt, t)
    /\ ((clock_in_range env
         /\ forall message, In (EvSendMessage message) t ->
              PyStr.startswith "🔍 **Weekly Competitor Intelligence Report**"
                message = true
              /\ PyStr.startswith "⚠️ Competitor monitoring failed: " message
                 = false)
        \/ (~ clock_in_range env
            /\ exists posts,
                 Forall slack_event posts
                 /\ t = (flat_map
                           (fun source =>
                              match CompetitorAgentExt.fetch world source with
                              | Some (Ok _) => [EvSleep 1]
                              | _ => []
                              end) sources
                         ++ EvSendMessage
                              ("⚠️ Competitor monitoring failed: "
                               ++ exn_text world OverflowError)
                         :: posts)%list)).
Proof.
  assert (D : {7 * DateTime.us_per_day <= now_wall env
               < DateTime.max_wall + 7 * DateTime.us_per_day}
              + {~ clock_in_range env}).
  { unfold clock_in_range.
    destruct (Z_le_dec (7 * DateTime.us_per_day) (now_wall env));
      destruct (Z_lt_dec (now_wall env)
                  (DateTime.max_wall + 7 * DateTime.us_per_day));
      [left; lia|right; lia..]. }
  destruct D as [Hin|Hout].
  - destruct (weekly_run_in_range env world sources Hin) as (t & Hrun & _ & Hm).
    exists t. split; [exact Hrun|]. left. split; [exact Hin|].
    intros message Hi. split; [now apply Hm|].
    apply report_is_no_alert. now apply Hm.
  - unfold run, CompetitorAgentExt.run_weekly_analysis, try_except.
    unfold bind at 1. unfold CompetitorAgentExt.collect_updates.
    rewrite collect_loop_run. cbn [app].
    unfold bind at 1. unfold lift. rewrite filter_out_of_range by exact Hout.
    destruct (send_message_returns env
                (CompetitorAgentExt.alert_prefix ++ exn_text world OverflowError)
                (collect_pauses world sources))
      as (sent & posts & S & Hposts).
    unfold bind at 1. rewrite S.
    eexists. split; [reflexivity|]. right. split; [exact Hout|]. exists posts.
    split; [exact Hposts|reflexivity].
Qed.

Lemma pauses_no_generate (world : World) (sources : list Source.t) :
  filter is_generate (collect_pauses world sources) = [].
Proof.
  unfold collect_pauses. induction sources as [|s ss IH]; [reflexivity|].
  cbn [flat_map]. rewrite filter_app, IH, app_nil_r.
  destruct (CompetitorAgentExt.fetch world s) as [[us|x]|]; reflexivity.
Qed.

(** X13.  When the filter leaves no recent update (no source, sources
    that give nothing, or only old updates), a run on a clock in range
    makes no call of the model: it sends the zero-update report to the
    chat and then invokes the page update with a count of 0. *)
Theorem weekly_run_without_recent_updates (env : Env) (world : World)
        (sources : list Source.t) (updates : list dict) (pauses : trace) :
  clock_in_range env ->
  run (CompetitorAgentExt.collect_updates world sources) = (Ok updates, pauses) ->
  CompetitorAgent.filter_recent_updates env updates = Ok [] ->
  exists content posts rest,
    run (CompetitorAgentExt.run_weekly_analysis env world sources)
    = (Ok tt,
       (pauses ++ EvSendMessage (zero_report env) :: posts
               ++ EvUpdatePage content :: rest)%list)
    /\ Dict.lookup "total_updates"
         (match content with VDict d => d | _ => [] end) = Some (VInt 0)
    /\ Forall slack_event posts
    /\ Forall notion_event rest
    /\ filter is_generate
         (pauses ++ EvSendMessage (zero_report env) :: posts
                 ++ EvUpdatePage content :: rest)%list = [].
Proof.
  intros Hclock Hc Hf.
  unfold run, CompetitorAgentExt.run_weekly_analysis, try_except.
  unfold run in Hc. unfold bind at 1. rewrite Hc.
  unfold bind at 1. unfold lift. rewrite Hf.
  unfold bind at 1. cbn [CompetitorAgent.generate_summary]. unfold ret at 1.
  destruct (send_notifications_from env CompetitorAgent.no_updates_summary pauses)
    as [(e & F & S)|(message & content & posts & rest & F & C & Hposts & Hrest & S)].
  - discriminate F.
  - rewrite S.
    assert (message = zero_report env) as ->
      by (injection F as <-; reflexivity).
    injection C as <-.
    eexists _, posts, rest. split; [reflexivity|].
    split; [reflexivity|]. split; [exact Hposts|]. split; [exact Hrest|].
    unfold CompetitorAgentExt.collect_updates in Hc.
    rewrite collect_loop_run in Hc. injection Hc as _ <-. cbn [app].
    assert (K1 : forall l, Forall slack_event l -> filter is_generate l = []).
    { induction l as [|x l IH]; [reflexivity|].
      intros X. inversion X as [|? ? Hx Hl]; subst.
      destruct Hx as [[p ->]|[s ->]]; cbn; auto. }
    assert (K2 : forall l, Forall notion_event l -> filter is_generate l = []).
    { induction l as [|x l IH]; [reflexivity|].
      intros X. inversion X as [|? ? Hx Hl]; subst.
      destruct Hx as [[p ->]|[s ->]]; cbn; auto. }
    rewrite filter_app. cbn [filter is_generate]. rewrite filter_app.
    cbn [filter is_generate]. rewrite (K1 posts Hposts), (K2 rest Hrest).
    rewrite pauses_no_generate. reflexivity.
Qed.

Lemma weekly_run_without_recent_updates_witness :
  (clock_in_range failing_env
   /\ run (CompetitorAgentExt.collect_updates sample_world social_sources)
      = (Ok [], [EvSleep 1; EvSleep 1])
   /\ CompetitorAgent.filter_recent_updates failing_env [] = Ok [])
  /\ exists content posts rest,
       run (CompetitorAgentExt.run_weekly_analysis failing_env sample_world
              social_sources)
       = (Ok tt,
          ([EvSleep 1; EvSleep 1] ++ EvSendMessage (zero_report failing_env) :: posts
                  ++ EvUpdatePage content :: rest)%list)
       /\ Dict.lookup "total_updates"
            (match content with VDict d => d | _ => [] end) = Some (VInt 0)
       /\ Forall slack_event posts
       /\ Forall notion_event rest
       /\ filter is_generate
            ([EvSleep 1; EvSleep 1] ++ EvSendMessage (zero_report failing_env) :: posts
                    ++ EvUpdatePage content :: rest)%list = [].
Proof.
  assert (H1 : clock_in_range failing_env) by (unfold clock_in_range, failing_env, ref_env, ref_now_wall,
        DateTime.max_wall, DateTime.us_per_day; cbn [now_wall]; lia).
  assert (H2 : run (CompetitorAgentExt.collect_updates sample_world social_sources)
               = (Ok [], [EvSleep 1; EvSleep 1])) by (vm_compute; reflexivity).
  assert (H3 : CompetitorAgent.filter_recent_updates failing_env [] = Ok [])
    by (vm_compute; reflexivity).
  split; [split; [exact H1|split; [exact H2|exact H3]]|].
  exact (weekly_run_without_recent_updates failing_env sample_world
           social_sources [] _ H1 H2 H3).
Defined.

(** ** More on the analyzer *)

Lemma analyze_loop_first_success (env : Env) (text prompt : string) (rc : nat)
      (v : value) :
  forall failures from todo t,
    (from + failures < rc)%nat -> (failures < todo)%nat ->
    (forall b, (from <= b < from + failures)%nat ->
       exists e, fst (run (GeminiAnalyzer.attempt_body env b prompt)) = Raise e) ->
    fst (run (GeminiAnalyzer.attempt_body env (from + failures) prompt)) = Ok v ->
    GeminiAnalyzer.analyze_loop env text prompt rc from todo t
    = (Ok v, (t ++ retries prompt from failures ++ [EvGenerate prompt])%list).
Proof.
  induction failures as [|k IH]; intros from todo t Hrc Htodo Hfail Hok.
  - destruct todo as [|todo]; [lia|].
    rewrite analyze_loop_step. rewrite Nat.add_0_r in Hok. now rewrite Hok.
  - destruct todo as [|todo]; [lia|].
    rewrite analyze_loop_step.
    destruct (Hfail from) as [e He]; [lia|]. rewrite He.
    assert ((from <? rc - 1)%nat = true) as -> by (apply Nat.ltb_lt; lia).
    rewrite (IH (S from) todo); try lia.
    + cbn [retries app]. now rewrite <- !app_assoc.
    + intros b Hb. apply Hfail. lia.
    + now replace (S from + k)%nat with (from + S k)%nat by lia.
Qed.

(** X14.  [analyze_updates] returns the analysis of the first of its
    three attempts that does not raise; before it, each failed attempt is
    a call of the model followed by a pause of 1 and then 2 seconds, and
    no call is made after the attempt that succeeds. *)
Theorem analyze_updates_first_success (env : Env) (updates_text : string)
        (attempt : nat) (analysis : value) :
  (attempt < 3)%nat ->
  (forall earlier, (earlier < attempt)%nat ->
     attempt_raises env earlier updates_text) ->
  attempt_result env attempt updates_text = Ok analysis ->
  run (GeminiAnalyzer.analyze_updates env updates_text)
  = (Ok analysis,
     (retries (GeminiAnalyzer._build_analysis_prompt updates_text) 0 attempt
      ++ [EvGenerate (GeminiAnalyzer._build_analysis_prompt updates_text)])%list).
Proof.
  intros Hlt Hfail Hok.
  unfold run, GeminiAnalyzer.analyze_updates, GeminiAnalyzer.analyze_updates_with.
  rewrite (analyze_loop_first_success env updates_text _ 3 analysis attempt 0 3 []);
    try lia; auto.
  intros b Hb. apply Hfail. lia.
Qed.

Lemma analyze_updates_first_success_witness :
  exists analysis,
    ((1 < 3)%nat
     /\ (forall earlier, (earlier < 1)%nat ->
           attempt_raises second_try_env earlier sample_text)
     /\ attempt_result second_try_env 1 sample_text = Ok analysis)
    /\ run (GeminiAnalyzer.analyze_updates second_try_env sample_text)
       = (Ok analysis,
          (retries (GeminiAnalyzer._build_analysis_prompt sample_text) 0 1
           ++ [EvGenerate (GeminiAnalyzer._build_analysis_prompt sample_text)])%list).
Proof.
  eexists.
  assert (H1 : (1 < 3)%nat) by lia.
  assert (H2 : forall earlier, (earlier < 1)%nat ->
                 attempt_raises second_try_env earlier sample_text).
  { intros [|n] Hn; [|lia]. exists (ExternalError "quota"). reflexivity. }
  assert (H3 : attempt_result second_try_env 1 sample_text = Ok _)
    by (vm_compute; reflexivity).
  split; [split; [exact H1|split; [exact H2|exact H3]]|].
  exact (analyze_updates_first_success second_try_env sample_text 1 _ H1 H2 H3).
Defined.

Lemma lookup_setdefault_keeps (k k' : string) (v x : value) (d : dict) :
  Dict.lookup k' d = Some x -> Dict.lookup k' (Dict.setdefault k v d) = Some x.
Proof.
  intros H. destruct (string_dec k k') as [->|Hne].
  - now apply lookup_setdefault_present.
  - now rewrite lookup_setdefault_other.
Qed.

(** The result of the parser on an object that passes its checks. *)
Lemma parse_body_of_object (env : Env) (text : string) (d : dict) (v : value) :
  json_loads env (GeminiAnalyzer.clean_response text) = Some (VDict d) ->
  GeminiAnalyzer.parse_body env text = Ok v ->
  exists cats cats',
    Dict.lookup "categories" d = Some cats
    /\ rfold GeminiAnalyzer.backfill_category GeminiAnalyzer.category_keys cats
       = Ok cats'
    /\ v = VDict (Dict.setdefault "recommended_actions" (VList [])
                    (Dict.setdefault "threat_level" (VStr "medium")
                       (Dict.set "categories" cats' d))).
Proof.
  intros Hload. unfold GeminiAnalyzer.parse_body. rewrite Hload.
  cbn [rbind]. intros H. rstep H.
  pose proof (required_keys_present _ _ E) as Hreq.
  rewrite (Hreq "categories") in H by (cbn; auto). cbn [rbind] in H.
  rstep H. rstep H. rstep H.
  cbn [Py.getitem] in E0. rstep E0. rstep E0.
  destruct (Dict.lookup "categories" d) as [x|] eqn:Hc; [|discriminate E3].
  injection E3 as ->.
  cbn [Py.setitem] in E0. injection E0 as <-.
  cbn [Py.setdefault] in E1. injection E1 as <-.
  cbn [Py.setdefault] in E2. injection E2 as <-.
  injection H as <-. eauto.
Qed.

(** X15.  The parser overwrites nothing the model supplies: in its
    result every key of the decoded object other than [categories] has
    the value the model gave it (a [threat_level] or
    [recommended_actions] of the model wins over the default), and when
    [categories] is an object every entry of it is kept. *)
Theorem parser_keeps_supplied_values (env : Env) (response_text : string)
        (d : dict) (analysis : value) :
  json_loads env (GeminiAnalyzer.clean_response response_text) = Some (VDict d) ->
  GeminiAnalyzer._parse_analysis_response env response_text = Ok analysis ->
  exists d',
    analysis = VDict d'
    /\ (forall k x, k <> "categories" -> Dict.lookup k d = Some x ->
                    Dict.lookup k d' = Some x)
    /\ (forall cats, Dict.lookup "categories" d = Some (VDict cats) ->
          exists cats',
            Dict.lookup "categories" d' = Some (VDict cats')
            /\ forall k x, Dict.lookup k cats = Some x ->
                           Dict.lookup k cats' = Some x).
Proof.
  intros Hload. unfold GeminiAnalyzer._parse_analysis_response.
  destruct (GeminiAnalyzer.parse_body env response_text) as [v|e] eqn:B.
  - intros H. injection H as <-.
    destruct (parse_body_of_object env response_text d v Hload B)
      as (cats0 & cats' & Hc & Hb & ->).
    eexists. split; [reflexivity|]. split.
    + intros k x Hk Hx.
      apply lookup_setdefault_keeps, lookup_setdefault_keeps.
      rewrite lookup_set_other by congruence. exact Hx.
    + intros cats Hcats. rewrite Hc in Hcats. injection Hcats as ->.
      unfold GeminiAnalyzer.category_keys in Hb. cbn [rfold] in Hb.
      rewrite backfill_category_dict in Hb. cbn [rbind] in Hb.
      rewrite backfill_category_dict in Hb. cbn [rbind] in Hb.
      rewrite backfill_category_dict in Hb. cbn [rbind] in Hb.
      injection Hb as <-. eexists. split.
      * rewrite !lookup_setdefault_other by discriminate.
        apply lookup_set_same.
      * intros k x Hx. now do 3 apply lookup_setdefault_keeps.
  - unfold GeminiAnalyzer.parse_body in B. rewrite Hload in B.
    cbn [rbind] in B.
    destruct (is_JSONDecodeError e) eqn:J; [|discriminate].
    destruct e; try discriminate J. exfalso.
    revert B. unfold GeminiAnalyzer.required_keys. cbn [rfold].
    unfold GeminiAnalyzer.check_required. cbn [Py.contains rbind].
    destruct (Dict.mem "summary" d); cbn [rbind]; [|discriminate].
    destruct (Dict.mem "categories" d) eqn:Mc; cbn [rbind]; [|discriminate].
    destruct (Dict.mem "key_insights" d); cbn [rbind]; [|discriminate].
    cbn [Py.getitem].
    destruct (Dict.lookup "categories" d) as [c|]; cbn [rbind]; [|discriminate].
    unfold GeminiAnalyzer.category_keys. cbn [rfold].
    assert (K : forall c k, GeminiAnalyzer.backfill_category c k <> Raise JSONDecodeError).
    { intros c0 k. unfold GeminiAnalyzer.backfill_category.
      destruct c0; cbn; try discriminate.
      - destruct (PyStr.contains k s); discriminate.
      - destruct (existsb (Py.value_is_str k) l); discriminate.
      - destruct (Dict.mem k d0); discriminate. }
    destruct (GeminiAnalyzer.backfill_category c "new_features") as [c1|e1] eqn:B1;
      cbn [rbind]; [|intros X; injection X as ->; now apply K in B1].
    destruct (GeminiAnalyzer.backfill_category c1 "pricing_changes") as [c2|e2] eqn:B2;
      cbn [rbind]; [|intros X; injection X as ->; now apply K in B2].
    destruct (GeminiAnalyzer.backfill_category c2 "messaging_updates") as [c3|e3] eqn:B3;
      cbn [rbind]; [|intros X; injection X as ->; now apply K in B3].
    cbn [Py.setitem Py.setdefault rbind]. discriminate.
Qed.

Lemma parser_keeps_supplied_values_witness :
  exists d analysis,
    (json_loads (answering_env critical_response)
       (GeminiAnalyzer.clean_response critical_response) = Some (VDict d)
     /\ GeminiAnalyzer._parse_analysis_response (answering_env critical_response)
          critical_response = Ok analysis)
    /\ exists d',
         analysis = VDict d'
         /\ (forall k x, k <> "categories" -> Dict.lookup k d = Some x ->
                         Dict.lookup k d' = Some x)
         /\ (forall cats, Dict.lookup "categories" d = Some (VDict cats) ->
               exists cats',
                 Dict.lookup "categories" d' = Some (VDict cats')
                 /\ forall k x, Dict.lookup k cats = Some x ->
                                Dict.lookup k cats' = Some x).
Proof.
  eexists _, _.
  assert (H1 : json_loads (answering_env critical_response)
                 (GeminiAnalyzer.clean_response critical_response)
               = Some (VDict _)) by (vm_compute; reflexivity).
  assert (H2 : GeminiAnalyzer._parse_analysis_response
                 (answering_env critical_response) critical_response = Ok _)
    by (vm_compute; reflexivity).
  split; [split; [exact H1|exact H2]|].
  exact (parser_keeps_supplied_values _ _ _ _ H1 H2).
Defined.

(** X16.  An object that lacks one of [summary], [categories] and
    [key_insights] is refused: the parser raises a [ValueError] that
    names the first missing key in that order, and does not fall back to
    the partial analysis. *)
Theorem parser_names_missing_key (env : Env) (response_text : string)
        (d : dict) (key : string) :
  json_loads env (GeminiAnalyzer.clean_response response_text) = Some (VDict d) ->
  first_missing_key d = Some key ->
  GeminiAnalyzer._parse_analysis_response env response_text
  = Raise (ValueError ("Missing required key: " ++ key)).
Proof.
  intros Hload Hmiss.
  unfold GeminiAnalyzer._parse_analysis_response, GeminiAnalyzer.parse_body.
  rewrite Hload. cbn [rbind].
  unfold first_missing_key, GeminiAnalyzer.required_keys in *.
  cbn [find rfold] in *. unfold GeminiAnalyzer.check_required.
  cbn [Py.contains rbind].
  destruct (Dict.mem "summary" d); cbn [negb rbind] in *;
    [|injection Hmiss as <-; reflexivity].
  destruct (Dict.mem "categories" d); cbn [negb rbind] in *;
    [|injection Hmiss as <-; reflexivity].
  destruct (Dict.mem "key_insights" d); cbn [negb rbind] in *;
    [discriminate Hmiss|injection Hmiss as <-; reflexivity].
Qed.

Lemma parser_names_missing_key_witness :
  (json_loads failing_env (GeminiAnalyzer.clean_response no_insights_response)
   = Some (VDict [("summary", VStr "Acme launched a plan");
                  ("categories", VDict [])])
   /\ first_missing_key [("summary", VStr "Acme launched a plan");
                         ("categories", VDict [])] = Some "key_insights")
  /\ GeminiAnalyzer._parse_analysis_response failing_env no_insights_response
     = Raise (ValueError ("Missing required key: " ++ "key_insights")).
Proof.
  assert (H1 : json_loads failing_env
                 (GeminiAnalyzer.clean_response no_insights_response)
               = Some (VDict [("summary", VStr "Acme launched a plan");
                              ("categories", VDict [])]))
    by (vm_compute; reflexivity).
  assert (H2 : first_missing_key [("summary", VStr "Acme launched a plan");
                                  ("categories", VDict [])] = Some "key_insights")
    by reflexivity.
  split; [split; [exact H1|exact H2]|].
  exact (parser_names_missing_key failing_env no_insights_response _ _ H1 H2).
Defined.

(** ** The text of the updates and the count of the fallback *)

Lemma has_char_append (c : ascii) (a b : string) :
  Render.has_char c (a ++ b) = (Render.has_char c a || Render.has_char c b)%bool.
Proof.
  induction a as [|x a IH]; cbn; [reflexivity|].
  rewrite IH. now rewrite orb_assoc.
Qed.

Lemma split_go_single_line (s cur : string) :
  single_line s = true ->
  PyStr.split_go PyStr.nl 0 cur s = [PyStr.rev_string EmptyString cur ++ s].
Proof.
  unfold single_line. revert cur. induction s as [|c s IH]; intros cur H.
  - cbn. now rewrite append_nil_r.
  - rewrite split_go_nl_cons. cbn [Render.has_char] in H.
    apply negb_true_iff, orb_false_iff in H as [Hc Hs].
    rewrite Hc. rewrite IH by (now rewrite Hs).
    cbn [PyStr.rev_string]. rewrite (rev_string_append (String c EmptyString)).
    now rewrite append_assoc.
Qed.

Lemma split_single_line (s : string) :
  single_line s = true -> PyStr.split PyStr.nl s = [s].
Proof. intros H. unfold PyStr.split. now rewrite split_go_single_line. Qed.

Lemma single_line_append (a b : string) :
  single_line a = true -> single_line b = true -> single_line (a ++ b) = true.
Proof.
  unfold single_line. rewrite has_char_append.
  intros Ha Hb. apply negb_true_iff in Ha, Hb. now rewrite Ha, Hb.
Qed.

Lemma format_update_lines (update : dict) :
  single_line_update update = true ->
  exists source date title content,
    PyStr.split PyStr.nl (CompetitorAgent.format_update update)
    = ["Source: " ++ source; "Date: " ++ date; "Title: " ++ title;
       "Content: " ++ content; "---"].
Proof.
  unfold single_line_update. intros H.
  apply andb_true_iff in H as [H Hc]. apply andb_true_iff in H as [H Ht].
  apply andb_true_iff in H as [Hs Hd].
  eexists _, _, _, _. unfold CompetitorAgent.format_update.
  set (s := Render.str (Dict.get "source" _ _)) in *.
  set (t := Render.str (Dict.get "title" _ _)) in *.
  set (c := Render.str (Dict.get "content" _ _)) in *.
  set (d := Render.str (Dict.get "date" _ _)) in *.
  replace ("Source: " ++ s ++ PyStr.nl ++ "Date: " ++ d ++ PyStr.nl
           ++ "Title: " ++ t ++ PyStr.nl ++ "Content: " ++ c ++ PyStr.nl ++ "---")
    with (("Source: " ++ s) ++ PyStr.nl
          ++ (("Date: " ++ d) ++ PyStr.nl
              ++ (("Title: " ++ t) ++ PyStr.nl
                  ++ (("Content: " ++ c) ++ PyStr.nl ++ "---"))))
    by (now rewrite !append_assoc).
  rewrite !split_append.
  rewrite !split_single_line; try reflexivity.
  all: apply single_line_append; auto.
Qed.

Lemma count_format_update (update : dict) :
  single_line_update update = true ->
  GeminiAnalyzer.count_source_lines (CompetitorAgent.format_update update) = 1%nat.
Proof.
  intros H. destruct (format_update_lines update H) as (s & d & t & c & E).
  unfold GeminiAnalyzer.count_source_lines. rewrite E.
  assert (X : PyStr.startswith "Source:" ("Source: " ++ s) = true)
    by apply (startswith_append "Source:" (" " ++ s)).
  cbn [filter]. rewrite X. reflexivity.
Qed.

Lemma count_formatted_updates (updates : list dict) :
  forallb single_line_update updates = true ->
  GeminiAnalyzer.count_source_lines
    (CompetitorAgent._format_updates_for_analysis updates)
  = List.length updates.
Proof.
  unfold CompetitorAgent._format_updates_for_analysis.
  induction updates as [|u us IH]; intros H; [reflexivity|].
  cbn [forallb] in H. apply andb_true_iff in H as [Hu Hus].
  destruct us as [|u' us].
  - cbn [map PyStr.join List.length]. now apply count_format_update.
  - change (PyStr.join PyStr.nl (map CompetitorAgent.format_update (u :: u' :: us)))
      with (CompetitorAgent.format_update u ++ PyStr.nl
            ++ PyStr.join PyStr.nl (map CompetitorAgent.format_update (u' :: us))).
    rewrite count_source_lines_append, count_format_update by exact Hu.
    rewrite IH by exact Hus. reflexivity.
Qed.

(** X17.  When no formatted field of an update has a line break, the
    text built for the analysis has one line beginning with [Source:]
    per update, so the fallback analysis of that text states the number
    of updates, the same number that [generate_summary] stores under
    [total_updates]. *)
Theorem fallback_counts_the_updates (updates : list dict) :
  forallb single_line_update updates = true ->
  Dict.lookup "summary"
    (match GeminiAnalyzer._get_fallback_analysis
             (CompetitorAgent._format_updates_for_analysis updates) with
     | VDict d => d
     | _ => []
     end)
  = Some (VStr ("Collected " ++ PyStr.of_nat (List.length updates)
                ++ " competitor updates this week. AI analysis temporarily unavailable - manual review recommended.")).
Proof.
  intros H. unfold GeminiAnalyzer._get_fallback_analysis.
  rewrite count_formatted_updates by exact H. reflexivity.
Qed.

Lemma fallback_counts_the_updates_witness :
  forallb single_line_update [update_1_day_ago; update_8_days_ago; update_undated]
  = true
  /\ Dict.lookup "summary"
       (match GeminiAnalyzer._get_fallback_analysis
                (CompetitorAgent._format_updates_for_analysis
                   [update_1_day_ago; update_8_days_ago; update_undated]) with
        | VDict d => d
        | _ => []
        end)
     = Some (VStr ("Collected "
                   ++ PyStr.of_nat
                        (List.length
                           [update_1_day_ago; update_8_days_ago; update_undated])
                   ++ " competitor updates this week. AI analysis temporarily unavailable - manual review recommended.")).
Proof.
  assert (H : forallb single_line_update
                [update_1_day_ago; update_8_days_ago; update_undated] = true)
    by reflexivity.
  split; [exact H|]. exact (fallback_counts_the_updates _ H).
Defined.

(** A content with a line break that is followed by [Source:] adds to
    the count. *)
Example fallback_overcounts :
  GeminiAnalyzer.count_source_lines
    (CompetitorAgent._format_updates_for_analysis
       [[("source", VStr "Acme");
         ("content", VStr ("See below" ++ PyStr.nl ++ "Source: press release"))]])
  = 2%nat.
Proof. vm_compute. reflexivity. Qed.

(** ** More on the filter *)

Lemma sub_days_in_range (env : Env) (days : Z) :
  window_in_range env days ->
  DateTime.sub_days (now env) days
  = Ok (DateTime.mk (now_wall env - days * DateTime.us_per_day) None).
Proof.
  intros [Ha [Hl Hu]]. unfold DateTime.sub_days, now.
  cbn [DateTime.wall DateTime.utcoffset].
  assert ((Z.abs days <=? 999999999) = true) as -> by (apply Z.leb_le; lia).
  assert ((0 <=? now_wall env - days * DateTime.us_per_day) = true) as ->
    by (apply Z.leb_le; lia).
  assert ((now_wall env - days * DateTime.us_per_day <? DateTime.max_wall) = true)
    as -> by (apply Z.ltb_lt; lia).
  reflexivity.
Qed.

Lemma sub_days_out_of_range (env : Env) (days : Z) :
  ~ window_in_range env days ->
  DateTime.sub_days (now env) days = Raise OverflowError.
Proof.
  intros H. unfold DateTime.sub_days, now.
  cbn [DateTime.wall DateTime.utcoffset].
  destruct (Z.abs days <=? 999999999) eqn:A; [|reflexivity].
  destruct (0 <=? now_wall env - days * DateTime.us_per_day) eqn:B;
    [|reflexivity].
  destruct (now_wall env - days * DateTime.us_per_day <? DateTime.max_wall) eqn:C;
    [|reflexivity].
  apply Z.leb_le in A, B. apply Z.ltb_lt in C.
  exfalso. apply H. unfold window_in_range. lia.
Qed.

Lemma sub_days_result (env : Env) (days : Z) (cutoff : DateTime.datetime) :
  DateTime.sub_days (now env) days = Ok cutoff ->
  cutoff = DateTime.mk (now_wall env - days * DateTime.us_per_day) None.
Proof.
  unfold DateTime.sub_days, now. cbn [DateTime.wall DateTime.utcoffset].
  destruct (Z.abs days <=? 999999999); [|discriminate].
  destruct ((0 <=? _) && (_ <? _))%bool; [|discriminate].
  now intros H; injection H as <-.
Qed.

Lemma filter_with_result (env : Env) (updates kept : list dict) (days : Z) :
  CompetitorAgent.filter_recent_updates_with env updates days = Ok kept ->
  kept = filter (keeps env (DateTime.mk (now_wall env - days * DateTime.us_per_day)
                                        None)) updates
  /\ DateTime.sub_days (now env) days
     = Ok (DateTime.mk (now_wall env - days * DateTime.us_per_day) None).
Proof.
  intros H.
  destruct (DateTime.sub_days (now env) days) as [cutoff|e] eqn:S.
  - pose proof (sub_days_result env days cutoff S) as ->.
    rewrite (filter_recent_updates_keeps env updates days _ S) in H.
    injection H as <-. auto.
  - unfold CompetitorAgent.filter_recent_updates_with in H.
    rewrite S in H. discriminate H.
Qed.

Lemma filter_twice {A} (f : A -> bool) (l : list A) :
  filter f (filter f l) = filter f l.
Proof.
  induction l as [|x l IH]; [reflexivity|]. cbn [filter].
  destruct (f x) eqn:K; [|exact IH]. cbn [filter]. rewrite K. now rewrite IH.
Qed.

(** X18.  What the filter returns is a sub-list of its input in the same
    order, and filtering it again with the same window and clock changes
    nothing. *)
Theorem filter_recent_updates_idempotent (env : Env) (updates kept : list dict)
        (days : Z) :
  CompetitorAgent.filter_recent_updates_with env updates days = Ok kept ->
  CompetitorAgent.filter_recent_updates_with env kept days = Ok kept
  /\ (exists keep, kept = filter keep updates)
  /\ (List.length kept <= List.length updates)%nat.
Proof.
  intros H. destruct (filter_with_result env updates kept days H) as [-> S].
  split; [|split].
  - rewrite (filter_recent_updates_keeps env _ days _ S).
    f_equal. apply filter_twice.
  - eauto.
  - apply filter_length_le.
Qed.

Lemma filter_recent_updates_idempotent_witness :
  CompetitorAgent.filter_recent_updates_with failing_env
    [update_8_days_ago; update_1_day_ago; update_unparsable] 7
  = Ok [update_1_day_ago; update_unparsable]
  /\ CompetitorAgent.filter_recent_updates_with failing_env
       [update_1_day_ago; update_unparsable] 7
     = Ok [update_1_day_ago; update_unparsable]
  /\ (exists keep,
         [update_1_day_ago; update_unparsable]
         = filter keep [update_8_days_ago; update_1_day_ago; update_unparsable])
  /\ (List.length [update_1_day_ago; update_unparsable]
      <= List.length [update_8_days_ago; update_1_day_ago; update_unparsable])%nat.
Proof.
  assert (H : CompetitorAgent.filter_recent_updates_with failing_env
                [update_8_days_ago; update_1_day_ago; update_unparsable] 7
              = Ok [update_1_day_ago; update_unparsable])
    by (vm_compute; reflexivity).
  split; [exact H|]. exact (filter_recent_updates_idempotent _ _ _ _ H).
Defined.

Lemma keeps_earlier_cutoff (env : Env) (c1 c2 : Z) (update : dict) :
  c2 <= c1 ->
  keeps env (DateTime.mk c1 None) update = true ->
  keeps env (DateTime.mk c2 None) update = true.
Proof.
  intros Hle. unfold keeps.
  destruct (CompetitorAgent.update_date env update) as [d|e]; [|auto].
  unfold DateTime.gt. cbn [DateTime.utcoffset DateTime.wall].
  destruct (DateTime.utcoffset d); [auto|].
  intros H. apply Z.ltb_lt in H. apply Z.ltb_lt. lia.
Qed.

(** X19.  A wider window keeps more: every update that the filter keeps
    with a window of [days] days it also keeps with any longer window. *)
Theorem wider_window_keeps_more (env : Env) (updates kept kept' : list dict)
        (days days' : Z) (update : dict) :
  days <= days' ->
  CompetitorAgent.filter_recent_updates_with env updates days = Ok kept ->
  CompetitorAgent.filter_recent_updates_with env updates days' = Ok kept' ->
  In update kept -> In update kept'.
Proof.
  intros Hle H1 H2 Hin.
  destruct (filter_with_result env updates kept days H1) as [-> _].
  destruct (filter_with_result env updates kept' days' H2) as [-> _].
  apply filter_In in Hin as [Hu Hk]. apply filter_In. split; [exact Hu|].
  eapply keeps_earlier_cutoff; [|exact Hk].
  unfold DateTime.us_per_day. nia.
Qed.

Lemma wider_window_keeps_more_witness :
  (7 <= 30
   /\ CompetitorAgent.filter_recent_updates_with failing_env
        [update_8_days_ago; update_1_day_ago; update_2020_naive] 7
      = Ok [update_1_day_ago]
   /\ CompetitorAgent.filter_recent_updates_with failing_env
        [update_8_days_ago; update_1_day_ago; update_2020_naive] 30
      = Ok [update_8_days_ago; update_1_day_ago]
   /\ In update_1_day_ago [update_1_day_ago])
  /\ In update_1_day_ago [update_8_days_ago; update_1_day_ago].
Proof.
  assert (H0 : 7 <= 30) by lia.
  assert (H1 : CompetitorAgent.filter_recent_updates_with failing_env
                 [update_8_days_ago; update_1_day_ago; update_2020_naive] 7
               = Ok [update_1_day_ago]) by (vm_compute; reflexivity).
  assert (H2 : CompetitorAgent.filter_recent_updates_with failing_env
                 [update_8_days_ago; update_1_day_ago; update_2020_naive] 30
               = Ok [update_8_days_ago; update_1_day_ago])
    by (vm_compute; reflexivity).
  assert (H3 : In update_1_day_ago [update_1_day_ago]) by (left; reflexivity).
  split; [split; [exact H0|split; [exact H1|split; [exact H2|exact H3]]]|].
  exact (wider_window_keeps_more failing_env _ _ _ 7 30 _ H0 H1 H2 H3).
Defined.

(** X20.  No update makes the filter raise: it raises, with an
    [OverflowError] and whatever the updates (even none), exactly when
    the window does not fit the calendar (more than 999999999 days, or a
    cutoff before year 1 or after year 9999); otherwise it returns. *)
Theorem filter_raises_only_on_overflow (env : Env) (updates : list dict)
        (days : Z) :
  (window_in_range env days
   /\ exists kept,
        CompetitorAgent.filter_recent_updates_with env updates days = Ok kept)
  \/ (~ window_in_range env days
      /\ CompetitorAgent.filter_recent_updates_with env updates days
         = Raise OverflowError).
Proof.
  assert (D : window_in_range env days \/ ~ window_in_range env days).
  { unfold window_in_range.
    destruct (Z_le_dec (Z.abs days) 999999999);
      destruct (Z_le_dec 0 (now_wall env - days * DateTime.us_per_day));
      destruct (Z_lt_dec (now_wall env - days * DateTime.us_per_day)
                         DateTime.max_wall);
      [left; lia|right; lia..]. }
  destruct D as [Hin|Hout].
  - left. split; [exact Hin|]. eexists.
    apply filter_recent_updates_keeps. now apply sub_days_in_range.
  - right. split; [exact Hout|].
    unfold CompetitorAgent.filter_recent_updates_with.
    now rewrite sub_days_out_of_range.
Qed.

Example filter_window_too_long :
  CompetitorAgent.filter_recent_updates_with failing_env [] 1000000000
  = Raise OverflowError
  /\ CompetitorAgent.filter_recent_updates_with failing_env [] 800000
     = Raise OverflowError
  /\ CompetitorAgent.filter_recent_updates_with failing_env [update_1_day_ago] (-3)
     = Ok [].
Proof. repeat split; vm_compute; reflexivity. Qed.

(** ** The chat message and its blocks *)

Lemma slack_category_listed (c : dict) (key title trailer : string) :
  list_or_missing key c = true ->
  exists text,
    CompetitorAgent.slack_category (VDict c) key title trailer = Ok text.
Proof.
  unfold list_or_missing, CompetitorAgent.slack_category.
  cbn [Py.get rbind Py.getitem]. unfold Dict.get.
  destruct (Dict.lookup key c) as [v|]; [|cbn [Py.truthy]; eauto].
  destruct v; try discriminate. intros _.
  destruct l as [|x l]; cbn [Py.truthy]; [eauto|].
  cbn [rbind Py.len PySeq.slice_first]. eauto.
Qed.

Lemma slack_message_listed (env : Env) (d : dict) :
  listed_categories d = true ->
  exists message, CompetitorAgent._format_slack_message env (VDict d) = Ok message.
Proof.
  intros H.
  assert (C : exists c,
             Dict.get "categories" (VDict []) d = VDict c
             /\ list_or_missing "new_features" c = true
             /\ list_or_missing "pricing_changes" c = true
             /\ list_or_missing "messaging_updates" c = true).
  { unfold listed_categories in H. unfold Dict.get.
    destruct (Dict.lookup "categories" d) as [cats|].
    - destruct cats; try discriminate H.
      apply andb_true_iff in H as [H H3]. apply andb_true_iff in H as [H1 H2].
      eauto.
    - exists []. auto. }
  destruct C as (c & C & H1 & H2 & H3).
  unfold CompetitorAgent._format_slack_message.
  cbn [Py.get rbind]. rewrite C.
  destruct (slack_category_listed c "new_features" "🆕 **New Features**"
              PyStr.nl H1) as [t1 ->].
  destruct (slack_category_listed c "pricing_changes" "💰 **Pricing Changes**"
              PyStr.nl H2) as [t2 ->].
  destruct (slack_category_listed c "messaging_updates"
              "📢 **Messaging Updates**" EmptyString H3) as [t3 ->].
  cbn [rbind]. eauto.
Qed.

(** X21.  For a summary whose category entries are lists or missing, the
    chat message can be formatted, so [send_notifications] invokes both
    notifiers, the chat first: whatever the web services answer, the run
    is the chat message with its POSTs followed by the page update. *)
Theorem listed_summary_reaches_both_notifiers (env : Env) (d : dict) :
  listed_categories d = true ->
  exists message content posts rest,
    CompetitorAgent._format_slack_message env (VDict d) = Ok message
    /\ run (CompetitorAgent.send_notifications env (VDict d))
       = (Ok tt,
          (EvSendMessage message :: posts ++ EvUpdatePage content :: rest)%list)
    /\ Forall slack_event posts
    /\ Forall notion_event rest.
Proof.
  intros H. destruct (slack_message_listed env d H) as [message F].
  destruct (send_notifications_from env (VDict d) [])
    as [(e & F' & _)|(m & content & posts & rest & F' & _ & Hp & Hr & S)].
  - rewrite F in F'. discriminate F'.
  - rewrite F in F'. injection F' as <-.
    exists message, content, posts, rest. auto.
Qed.

Lemma listed_summary_reaches_both_notifiers_witness :
  listed_categories
    [("summary", VStr "Collected 1 competitor updates this week.");
     ("categories", GeminiAnalyzer.empty_categories);
     ("key_insights", VList []); ("threat_level", VStr "medium");
     ("recommended_actions", VList []); ("total_updates", VInt 1)] = true
  /\ exists message content posts rest,
       CompetitorAgent._format_slack_message failing_env fallback_summary
       = Ok message
       /\ run (CompetitorAgent.send_notifications failing_env fallback_summary)
          = (Ok tt,
             (EvSendMessage message :: posts ++ EvUpdatePage content :: rest)%list)
       /\ Forall slack_event posts
       /\ Forall notion_event rest.
Proof.
  assert (H : listed_categories
    [("summary", VStr "Collected 1 competitor updates this week.");
     ("categories", GeminiAnalyzer.empty_categories);
     ("key_insights", VList []); ("threat_level", VStr "medium");
     ("recommended_actions", VList []); ("total_updates", VInt 1)] = true)
    by reflexivity.
  split; [exact H|].
  exact (listed_summary_reaches_both_notifiers failing_env _ H).
Defined.

(** X22.  A category entry that is a number other than zero, as a model
    may answer, cannot be formatted: [send_notifications] swallows the
    [TypeError] and sends nothing, neither to the chat nor to the
    document service. *)
Theorem number_entry_silences_notifications (env : Env) (d c : dict)
        (key : string) (n : Z) :
  Dict.lookup "categories" d = Some (VDict c) ->
  In key ["new_features"; "pricing_changes"; "messaging_updates"] ->
  Dict.lookup key c = Some (VInt n) ->
  n <> 0 ->
  run (CompetitorAgent.send_notifications env (VDict d)) = (Ok tt, []).
Proof.
  intros Hc Hkey Hk Hn.
  assert (R : forall title trailer,
             CompetitorAgent.slack_category (VDict c) key title trailer
             = Raise TypeError).
  { intros title trailer. unfold CompetitorAgent.slack_category.
    cbn [Py.get rbind Py.getitem]. unfold Dict.get. rewrite Hk.
    cbn [Py.truthy]. apply Z.eqb_neq in Hn. rewrite Hn. reflexivity. }
  assert (F : exists e, CompetitorAgent._format_slack_message env (VDict d)
                        = Raise e).
  { assert (C : Dict.get "categories" (VDict []) d = VDict c)
      by (unfold Dict.get; now rewrite Hc).
    unfold CompetitorAgent._format_slack_message.
    cbn [Py.get rbind]. rewrite C.
    destruct Hkey as [<-|[<-|[<-|[]]]].
    - rewrite R. cbn [rbind]. eauto.
    - destruct (CompetitorAgent.slack_category (VDict c) "new_features" _ _);
        cbn [rbind]; [|eauto]. rewrite R. cbn [rbind]. eauto.
    - destruct (CompetitorAgent.slack_category (VDict c) "new_features" _ _);
        cbn [rbind]; [|eauto].
      destruct (CompetitorAgent.slack_category (VDict c) "pricing_changes" _ _);
        cbn [rbind]; [|eauto]. rewrite R. cbn [rbind]. eauto. }
  destruct F as [e F].
  destruct (send_notifications_from env (VDict d) [])
    as [(e' & _ & S)|(m & content & posts & rest & F' & _)].
  - exact S.
  - rewrite F in F'. discriminate F'.
Qed.

Lemma number_entry_silences_notifications_witness :
  (Dict.lookup "categories" number_summary
   = Some (VDict [("new_features", VInt 5); ("pricing_changes", VList []);
                  ("messaging_updates", VList [])])
   /\ In "new_features" ["new_features"; "pricing_changes"; "messaging_updates"]
   /\ Dict.lookup "new_features"
        [("new_features", VInt 5); ("pricing_changes", VList []);
         ("messaging_updates", VList [])] = Some (VInt 5)
   /\ 5 <> 0)
  /\ run (CompetitorAgent.send_notifications (answering_env number_response)
            (VDict number_summary)) = (Ok tt, []).
Proof.
  assert (H1 : Dict.lookup "categories" number_summary
   = Some (VDict [("new_features", VInt 5); ("pricing_changes", VList []);
                  ("messaging_updates", VList [])])) by reflexivity.
  assert (H2 : In "new_features"
                  ["new_features"; "pricing_changes"; "messaging_updates"])
    by (left; reflexivity).
  assert (H3 : Dict.lookup "new_features"
        [("new_features", VInt 5); ("pricing_changes", VList []);
         ("messaging_updates", VList [])] = Some (VInt 5)) by reflexivity.
  assert (H4 : 5 <> 0) by lia.
  split; [split; [exact H1|split; [exact H2|split; [exact H3|exact H4]]]|].
  exact (number_entry_silences_notifications _ _ _ _ _ H1 H2 H3 H4).
Defined.

(** The summary of the witness is what [generate_summary] returns for the
    answer [number_response]. *)
Example number_summary_generated :
  fst (run (CompetitorAgent.generate_summary (answering_env number_response)
              [sample_update])) = Ok (VDict number_summary).
Proof. vm_compute. reflexivity. Qed.

Lemma split_blank_line_prefix (p rest cur : string) :
  single_line p = true ->
  PyStr.split_go (PyStr.nl ++ PyStr.nl) 0 cur (p ++ PyStr.nl ++ PyStr.nl ++ rest)
  = (PyStr.rev_string EmptyString cur ++ p)
    :: PyStr.split_go (PyStr.nl ++ PyStr.nl) 0 EmptyString rest.
Proof.
  unfold single_line. revert cur. induction p as [|c p IH]; intros cur H.
  - cbn [append]. unfold PyStr.nl. cbn [append PyStr.split_go PyStr.startswith].
    rewrite Ascii.eqb_refl. cbn [andb String.length Nat.sub].
    rewrite append_nil_r.
    destruct rest; reflexivity.
  - cbn [Render.has_char] in H.
    apply negb_true_iff, orb_false_iff in H as [Hc Hs].
    cbn [append]. cbn [PyStr.split_go].
    unfold PyStr.nl at 1 2. cbn [append PyStr.startswith]. rewrite Hc.
    cbn [andb]. rewrite IH by (now rewrite Hs).
    cbn [PyStr.rev_string]. rewrite (rev_string_append (String c EmptyString)).
    now rewrite append_assoc.
Qed.

(** X23.  The blocks that [send_message] posts for a report of
    [_format_slack_message] begin with a header block whose text is the
    title of the report without its marks, and end with the divider. *)
Theorem report_blocks_begin_with_header (env : Env) (summary : value)
        (message : string) :
  CompetitorAgent._format_slack_message env summary = Ok message ->
  exists blocks,
    SlackNotifier._format_blocks message
    = (SlackNotifier.header_block "Weekly Competitor Intelligence Report"
       :: blocks ++ [VDict [("type", VStr "divider")]])%list.
Proof.
  intros F. destruct (report_starts_with_title env summary message F) as [rest ->].
  unfold SlackNotifier._format_blocks, PyStr.split.
  rewrite split_blank_line_prefix by reflexivity.
  cbn [PyStr.rev_string append SlackNotifier.section_blocks].
  replace (String.eqb (PyStr.strip report_title) EmptyString) with false
    by (vm_compute; reflexivity).
  replace (PyStr.startswith SlackNotifier.header_mark report_title) with true
    by (vm_compute; reflexivity).
  replace (PyStr.strip
             (PyStr.replace "**" EmptyString
                (PyStr.replace SlackNotifier.header_mark EmptyString report_title)))
    with "Weekly Competitor Intelligence Report" by (vm_compute; reflexivity).
  eexists. reflexivity.
Qed.

Lemma report_blocks_begin_with_header_witness :
  exists message,
    CompetitorAgent._format_slack_message failing_env fallback_summary = Ok message
    /\ exists blocks,
         SlackNotifier._format_blocks message
         = (SlackNotifier.header_block "Weekly Competitor Intelligence Report"
            :: blocks ++ [VDict [("type", VStr "divider")]])%list.
Proof.
  eexists.
  assert (H : CompetitorAgent._format_slack_message failing_env fallback_summary
              = Ok _) by (vm_compute; reflexivity).
  split; [exact H|].
  exact (report_blocks_begin_with_header failing_env fallback_summary _ H).
Defined.

(** ** Bounds *)

(** X24.  A run of [analyze_updates] costs at most three calls of the
    model and at most the two pauses of 1 and 2 seconds: its events are
    zero, one or two failed attempts followed by one last call. *)
Theorem analyze_updates_cost (env : Env) (updates_text : string) :
  exists analysis failed,
    (failed <= 2)%nat
    /\ run (GeminiAnalyzer.analyze_updates env updates_text)
       = (Ok analysis,
          (retries (GeminiAnalyzer._build_analysis_prompt updates_text) 0 failed
           ++ [EvGenerate (GeminiAnalyzer._build_analysis_prompt updates_text)])%list).
Proof.
  set (p := GeminiAnalyzer._build_analysis_prompt updates_text).
  unfold run, GeminiAnalyzer.analyze_updates, GeminiAnalyzer.analyze_updates_with.
  fold p. rewrite analyze_loop_step.
  destruct (fst (run (GeminiAnalyzer.attempt_body env 0 p))) as [v0|e0].
  { exists v0, 0%nat. split; [lia|reflexivity]. }
  change (0 <? 3 - 1)%nat with true. cbv iota. rewrite analyze_loop_step.
  destruct (fst (run (GeminiAnalyzer.attempt_body env 1 p))) as [v1|e1].
  { exists v1, 1%nat. split; [lia|reflexivity]. }
  change (1 <? 3 - 1)%nat with true. cbv iota. rewrite analyze_loop_step.
  destruct (fst (run (GeminiAnalyzer.attempt_body env 2 p))) as [v2|e2].
  { exists v2, 2%nat. split; [lia|reflexivity]. }
  change (2 <? 3 - 1)%nat with false. cbv iota.
  eexists _, 2%nat. split; [lia|reflexivity].
Qed.

Lemma length_take_min (n : nat) (s : string) :
  String.length (PyStr.take n s) = Nat.min n (String.length s).
Proof.
  revert s. induction n as [|n IH]; intros s; [reflexivity|].
  destruct s as [|c s]; cbn; [reflexivity|]. now rewrite IH.
Qed.

(** X25.  The summary salvaged from a response that is not JSON is
    either the fixed message or a text of more than 50 and at most 300
    characters; it is never empty. *)
Theorem salvaged_summary_bounds (response_text : string) :
  GeminiAnalyzer._extract_summary_fallback response_text
  = "Analysis completed but summary extraction failed."
  \/ (50 < String.length (GeminiAnalyzer._extract_summary_fallback response_text)
      <= 300)%nat.
Proof.
  unfold GeminiAnalyzer._extract_summary_fallback.
  destruct (GeminiAnalyzer.first_summary_line
              (firstn 10 (PyStr.split PyStr.nl response_text))) as [s|] eqn:E;
    [right|now left].
  apply first_summary_line_found in E as (i & line & _ & Hl & _ & ->).
  unfold GeminiAnalyzer.summary_like in Hl.
  apply andb_true_iff in Hl as [Hlen _]. apply Nat.ltb_lt in Hlen.
  rewrite length_take_min. lia.
Qed.

Lemma section_blocks_kinds (sections : list string) (b : value) :
  In b (SlackNotifier.section_blocks sections) ->
  (exists text, b = SlackNotifier.header_block text)
  \/ (exists text,
         In text sections
         /\ b = SlackNotifier.section_block text
         /\ PyStr.strip text <> EmptyString).
Proof.
  induction sections as [|s rest IH]; cbn [SlackNotifier.section_blocks];
    [intros []|].
  destruct (String.eqb (PyStr.strip s) EmptyString) eqn:E.
  - intros H. destruct (IH H) as [K|(t & Ht & K)]; [now left|].
    right. exists t. split; [now right|exact K].
  - apply String.eqb_neq in E. intros [<-|H].
    + destruct (PyStr.startswith SlackNotifier.header_mark s).
      * left. eauto.
      * right. exists s. split; [now left|]. auto.
    + destruct (IH H) as [K|(t & Ht & K)]; [now left|].
      right. exists t. split; [now right|exact K].
Qed.

(** X26.  The blocks of a message are never empty and end with the
    divider; each other block is a header or a section block, and the
    text of a section block is a part of the message between blank lines
    that is not blank: a blank part gives no block. *)
Theorem format_blocks_kinds (message : string) :
  exists blocks,
    SlackNotifier._format_blocks message
    = (blocks ++ [VDict [("type", VStr "divider")]])%list
    /\ forall b, In b blocks ->
         (exists text, b = SlackNotifier.header_block text)
         \/ (exists text,
                In text (PyStr.split (PyStr.nl ++ PyStr.nl) message)
                /\ b = SlackNotifier.section_block text
                /\ PyStr.strip text <> EmptyString).
Proof.
  unfold SlackNotifier._format_blocks. eexists. split; [reflexivity|].
  intros b. apply section_blocks_kinds.
Qed.

Example format_blocks_blank_message :
  SlackNotifier._format_blocks (" " ++ PyStr.nl ++ PyStr.nl ++ PyStr.nl)
  = [VDict [("type", VStr "divider")]].
Proof. vm_compute. reflexivity. Qed.

(** ** The two notifiers: claim C9 *)

(** C9, counterexample.  The summary that [generate_summary] returns for
    a model answer whose [new_features] entry is the number 5 makes the
    chat step fail: the message cannot be formatted.  The content of the
    page can be, but [send_notifications] ends in the handler of its
    single [try]: the run is empty, [update_page] is not invoked. *)
Lemma chat_failure_blocks_page_update :
  fst (run (CompetitorAgent.generate_summary (answering_env number_response)
              [sample_update])) = Ok (VDict number_summary)
  /\ CompetitorAgent._format_slack_message (answering_env number_response)
       (VDict number_summary) = Raise TypeError
  /\ (exists content,
         CompetitorAgent._format_notion_content (answering_env number_response)
           (VDict number_summary) = Ok content)
  /\ run (CompetitorAgent.send_notifications (answering_env number_response)
            (VDict number_summary)) = (Ok tt, [])
  /\ ~ (exists content,
           In (EvUpdatePage content)
              (snd (run (CompetitorAgent.send_notifications
                           (answering_env number_response)
                           (VDict number_summary))))).
Proof.
  split; [vm_compute; reflexivity|].
  split; [vm_compute; reflexivity|].
  split; [eexists; reflexivity|].
  assert (R : run (CompetitorAgent.send_notifications
                     (answering_env number_response) (VDict number_summary))
              = (Ok tt, [])) by (vm_compute; reflexivity).
  split; [exact R|]. rewrite R. intros [content []].
Qed.

(** C9, amended.  For every summary from which the chat message can be
    formatted, [send_notifications] invokes [send_message], which reports
    every failure (a POST that raises, retries that run out on any
    status) by the boolean it returns and raises nothing; whatever that
    boolean, [update_page] is then invoked with the content of the page,
    and [send_notifications] raises nothing whatever [update_page]
    returns.  The chat comes first, so no failure of the page update
    keeps the chat message from being sent. *)
Theorem update_page_follows_chat (env : Env) (summary : value)
        (message : string) :
  CompetitorAgent._format_slack_message env summary = Ok message ->
  exists sent content created posts rest,
    run (SlackNotifier.send_message env message)
    = (Ok sent, EvSendMessage message :: posts)
    /\ CompetitorAgent._format_notion_content env summary = Ok content
    /\ NotionUpdater.update_page env content (EvSendMessage message :: posts)
       = (Ok created,
          (EvSendMessage message :: posts ++ EvUpdatePage content :: rest)%list)
    /\ run (CompetitorAgent.send_notifications env summary)
       = (Ok tt,
          (EvSendMessage message :: posts ++ EvUpdatePage content :: rest)%list)
    /\ Forall slack_event posts
    /\ Forall notion_event rest.
Proof.
  intros F.
  destruct (slack_message_needs_dict _ _ _ F) as [d ->].
  destruct (notion_content_of_dict env d) as [content C].
  destruct (send_message_returns env message []) as (sent & posts & S1 & Hposts).
  cbn [app] in S1.
  destruct (update_page_events env content (EvSendMessage message :: posts))
    as (created & rest & U1 & Hrest).
  exists sent, content, created, posts, rest.
  split; [exact S1|]. split; [exact C|]. split; [exact U1|].
  split; [|split; [exact Hposts|exact Hrest]].
  unfold run, CompetitorAgent.send_notifications, try_except.
  unfold bind at 1. unfold lift at 1. rewrite F.
  unfold bind at 1. unfold run in S1. rewrite S1.
  unfold bind at 1. unfold lift. rewrite C.
  unfold bind at 1. rewrite U1. reflexivity.
Qed.

Lemma update_page_follows_chat_witness :
  exists message,
    CompetitorAgent._format_slack_message failing_env fallback_summary = Ok message
    /\ exists sent content created posts rest,
         run (SlackNotifier.send_message failing_env message)
         = (Ok sent, EvSendMessage message :: posts)
         /\ CompetitorAgent._format_notion_content failing_env fallback_summary
            = Ok content
         /\ NotionUpdater.update_page failing_env content
              (EvSendMessage message :: posts)
            = (Ok created,
               (EvSendMessage message :: posts ++ EvUpdatePage content :: rest)%list)
         /\ run (CompetitorAgent.send_notifications failing_env fallback_summary)
            = (Ok tt,
               (EvSendMessage message :: posts ++ EvUpdatePage content :: rest)%list)
         /\ Forall slack_event posts
         /\ Forall notion_event rest.
Proof.
  eexists.
  assert (H : CompetitorAgent._format_slack_message failing_env fallback_summary
              = Ok _) by (vm_compute; reflexivity).
  split; [exact H|].
  exact (update_page_follows_chat failing_env fallback_summary _ H).
Defined.

(** In the run of the witness the chat notifier fails (every POST is
    answered 500) and the page update is invoked and fails as well. *)
Example failed_chat_then_failed_page :
  exists message content,
    CompetitorAgent._format_slack_message failing_env fallback_summary = Ok message
    /\ fst (run (SlackNotifier.send_message failing_env message)) = Ok false
    /\ CompetitorAgent._format_notion_content failing_env fallback_summary
       = Ok content
    /\ fst (run (NotionUpdater.update_page failing_env content)) = Ok false
    /\ In (EvUpdatePage content)
          (snd (run (CompetitorAgent.send_notifications failing_env
                       fallback_summary))).
Proof.
  eexists _, _. split; [vm_compute; reflexivity|].
  split; [vm_compute; reflexivity|].
  split; [vm_compute; reflexivity|].
  split; [vm_compute; reflexivity|].
  vm_compute. do 4 right. left. reflexivity.
Qed.
